(** * SynapseNotify: the mailbox engine of [synapsenotify.py]

    A shallow embedding of the [SynapseNotify] class (alert store, alert
    factory, message fan-out and the query API) together with the
    properties of its specification.

    Modelling conventions.
    - Python [str] values are [string]s; [str.upper] is the ASCII
      upper-casing (characters outside [a-z] are left unchanged).
    - Values produced by [json.load] are the inductive [json]; a parsed
      object is an association list in insertion order with unique keys.
    - The file system is a finite map from paths to file contents.  A file
      either is not UTF-8 text, is text that [json.load] rejects, or holds
      a JSON document; [json.dump] followed by [json.load] is the identity
      on documents.  Opening a file for writing and encoding what is
      written do not fail: a mailbox name that is no file name and text
      that UTF-8 cannot encode are outside the model.
    - Every method is a function from the world (files, clock, console)
      to an outcome and a new world; a raised exception keeps the effects
      performed before it.
    - [datetime.now().isoformat()], the 12 hex digits of an MD5 digest,
      the builtin [str] on non-strings and the path of a mailbox file are
      supplied by an environment record. *)

From Stdlib Require Import ZArith Ascii String List Bool Lia Sorted Permutation.
From Stdlib Require Import Decimal DecimalString.
From stdpp Require Import gmap strings list.

Import ListNotations.
Local Open Scope string_scope.
Local Open Scope list_scope.

(** ** Strings as Python uses them *)

(** [c.upper()] on one ASCII character. *)
Definition upper_ascii (c : ascii) : ascii :=
  let n := N_of_ascii c in
  if ((97 <=? n) && (n <=? 122))%N then ascii_of_N (n - 32) else c.

(** [s.upper()] *)
Fixpoint upper (s : string) : string :=
  match s with
  | EmptyString => EmptyString
  | String c s' => String (upper_ascii c) (upper s')
  end.

(** [s[:n]] *)
Fixpoint str_take (n : nat) (s : string) : string :=
  match n, s with
  | S k, String c s' => String c (str_take k s')
  | _, _ => EmptyString
  end.

(** The scan of [s.replace(old, new)] for a non-empty [old]: left to
    right, every occurrence of [old] that does not overlap an earlier one
    is replaced.  [skip] counts the characters of a matched occurrence
    that are still to be passed over. *)
Fixpoint replace_from (old new : string) (skip : nat) (s : string) : string :=
  match s with
  | EmptyString => EmptyString
  | String c s' =>
      match skip with
      | S k => replace_from old new k s'
      | O =>
          if String.prefix old s
          then new ++ replace_from old new (String.length old - 1) s'
          else String c (replace_from old new 0 s')
      end
  end.

(** [s.replace(old, new)], [old] non-empty. *)
Definition str_replace (old new s : string) : string :=
  replace_from old new 0 s.

(** [x in xs] for a list of strings. *)
Definition str_in (x : string) (xs : list string) : bool :=
  existsb (String.eqb x) xs.

(** ** JSON values *)

Set Warnings "-register-all".

Inductive json : Type :=
| JNull
| JBool (b : bool)
| JInt (z : Z)
| JFloat (literal : string)
| JStr (s : string)
| JArr (items : list json)
| JObj (fields : list (string * json)).

(** [d.get(key)] on a parsed object. *)
Fixpoint dict_get (key : string) (d : list (string * json)) : option json :=
  match d with
  | [] => None
  | (k, v) :: d' => if String.eqb key k then Some v else dict_get key d'
  end.

(** [d.get(key, dflt)] *)
Definition dict_get_default (key : string) (dflt : json)
    (d : list (string * json)) : json :=
  match dict_get key d with
  | Some v => v
  | None => dflt
  end.

(** ** Outcomes, exceptions and the world *)

Inductive exn : Type :=
| JSONDecodeError
| UnicodeDecodeError
| FileNotFoundError
| KeyError
| ValueError
| TypeError
| AttributeError.

(** The result of running a piece of the program.  [Untyped] marks the
    runs this model does not follow: an [Alert] read back from a mailbox
    file with a field whose value is not of the type the dataclass
    declares (Python stores it all the same). *)
Inductive outcome (A : Type) : Type :=
| Ok (a : A)
| Raise (e : exn)
| Untyped.
Arguments Ok {A} a.
Arguments Raise {A} e.
Arguments Untyped {A}.

Inductive FileContent : Type :=
| NotUtf8
| NotJson
| Doc (data : json).

(** What the program prints, and the bell. *)
Inductive Event : Type :=
| PrintWarning (agent : string) (e : exn)
| PrintInfoExists (source_file : string)
| PrintCreated (to_agent from_agent : string) (subject : json)
| PrintError (e : exn)
| PrintMarked (count : nat) (agent : string)
| Bell
| PrintCleared (count : nat) (agent : string).

Record World : Type := mkWorld {
  fs : gmap string FileContent;
  ticks : nat;
  out : list Event
}.

Definition M (A : Type) : Type := World -> outcome A * World.

Definition ret {A} (a : A) : M A := fun w => (Ok a, w).

Definition raise {A} (e : exn) : M A := fun w => (Raise e, w).

Definition bind {A B} (m : M A) (f : A -> M B) : M B :=
  fun w =>
    match m w with
    | (Ok a, w') => f a w'
    | (Raise e, w') => (Raise e, w')
    | (Untyped, w') => (Untyped, w')
    end.

Definition lift {A} (o : outcome A) : M A := fun w => (o, w).

(** [try: body except <caught> as e: handler e] *)
Definition try_except {A} (body : M A) (caught : exn -> bool)
    (handler : exn -> M A) : M A :=
  fun w =>
    match body w with
    | (Raise e, w') => if caught e then handler e w' else (Raise e, w')
    | r => r
    end.

Definition print (ev : Event) : M unit :=
  fun w => (Ok tt, mkWorld (fs w) (ticks w) (out w ++ [ev])).

Declare Scope py_scope.
Delimit Scope py_scope with py.
Notation "x <- m ;; k" := (bind m (fun x => k))
  (at level 100, m at next level, right associativity) : py_scope.
Notation "m ;;; k" := (bind m (fun _ => k))
  (at level 100, right associativity) : py_scope.
Local Open Scope py_scope.

(** Running a list comprehension or a [for] loop that collects results. *)
Fixpoint mapM {A B} (f : A -> M B) (l : list A) : M (list B) :=
  match l with
  | [] => ret []
  | x :: l' => y <- f x ;; ys <- mapM f l' ;; ret (y :: ys)
  end.

(** ** The [Alert] dataclass *)

Record Alert : Type := mkAlert {
  id : string;
  timestamp : string;
  from_agent : string;
  to_agent : string;
  subject : json;
  preview : json;
  source_file : string;
  priority : string;
  read : bool
}.

Definition alert_fields : list string :=
  ["id"; "timestamp"; "from_agent"; "to_agent"; "subject"; "preview";
   "source_file"; "priority"; "read"].

(** [Alert.to_dict] *)
Definition to_dict (a : Alert) : json :=
  JObj [("id", JStr (id a)); ("timestamp", JStr (timestamp a));
        ("from_agent", JStr (from_agent a)); ("to_agent", JStr (to_agent a));
        ("subject", subject a); ("preview", preview a);
        ("source_file", JStr (source_file a));
        ("priority", JStr (priority a)); ("read", JBool (read a))].

(** [Alert.from_dict]: the constructor called with the mapping
    unpacked as keyword arguments.  A non-mapping, an unexpected
    keyword and a missing required field are [TypeError]s; [read]
    defaults to [False]. *)
Definition from_dict (data : json) : outcome Alert :=
  match data with
  | JObj d =>
      if forallb (fun kv => str_in (fst kv) alert_fields) d then
        match dict_get "id" d, dict_get "timestamp" d,
              dict_get "from_agent" d, dict_get "to_agent" d,
              dict_get "subject" d, dict_get "preview" d,
              dict_get "source_file" d, dict_get "priority" d with
        | Some i, Some t, Some f, Some o, Some s, Some p, Some sf, Some pr =>
            match i, t, f, o, sf, pr, dict_get_default "read" (JBool false) d with
            | JStr i, JStr t, JStr f, JStr o, JStr sf, JStr pr, JBool r =>
                Ok (mkAlert i t f o s p sf pr r)
            | _, _, _, _, _, _, _ => Untyped
            end
        | _, _, _, _, _, _, _, _ => Raise TypeError
        end
      else Raise TypeError
  | _ => Raise TypeError
  end.

(** ** Builtins on Python values *)

(** [x.upper()]: only [str] has the attribute. *)
Definition py_upper (x : json) : outcome string :=
  match x with
  | JStr s => Ok (upper s)
  | _ => Raise AttributeError
  end.

(** [len(x)] *)
Definition py_len (x : json) : outcome nat :=
  match x with
  | JStr s => Ok (String.length s)
  | JArr l => Ok (length l)
  | JObj d => Ok (length d)
  | _ => Raise TypeError
  end.

(** The elements [for a in x] visits. *)
Definition py_iter (x : json) : outcome (list json) :=
  match x with
  | JArr l => Ok l
  | JObj d => Ok (map (fun kv => JStr (fst kv)) d)
  | JStr s =>
      Ok (map (fun c => JStr (String c EmptyString)) (list_ascii_of_string s))
  | _ => Raise TypeError
  end.

(** [x.get(key, dflt)]: only a [dict] has the attribute. *)
Definition py_get (x : json) (key : string) (dflt : json) : outcome json :=
  match x with
  | JObj d => Ok (dict_get_default key dflt d)
  | _ => Raise AttributeError
  end.

(** [x[:97] + "..."]: a list cannot be concatenated with a [str], a
    [dict] cannot be sliced (a [KeyError] from Python 3.12 on, a
    [TypeError] before), the other values cannot be subscripted. *)
Definition py_ellipsis (x : json) : outcome json :=
  match x with
  | JStr s => Ok (JStr (str_take 97 s ++ "..."))
  | _ => Raise TypeError
  end.

(** ** The [Priority] enumeration *)

Inductive Priority : Type := LOW | NORMAL | HIGH | CRITICAL.

Definition Priority_value (p : Priority) : string :=
  match p with
  | LOW => "LOW"
  | NORMAL => "NORMAL"
  | HIGH => "HIGH"
  | CRITICAL => "CRITICAL"
  end.

(** [Priority(v)]: look a member up by value, [ValueError] if none. *)
Definition Priority_of_value (v : string) : outcome Priority :=
  if String.eqb v "LOW" then Ok LOW
  else if String.eqb v "NORMAL" then Ok NORMAL
  else if String.eqb v "HIGH" then Ok HIGH
  else if String.eqb v "CRITICAL" then Ok CRITICAL
  else Raise ValueError.

(** ** The environment *)

Record Env : Type := mkEnv {
  (** [self.alerts_dir / name] *)
  alerts_path : string -> string;
  (** [self.enable_bell] *)
  enable_bell : bool;
  (** the result of the n-th call of [datetime.now().isoformat()] *)
  now_iso : nat -> string;
  (** [hashlib.md5(t.encode()).hexdigest()[:12]] *)
  md5_hex12 : string -> string;
  (** the builtin [str] *)
  py_str : json -> string
}.

(** [isinstance(e, cls)] for the exception classes above:
    [JSONDecodeError] and [UnicodeDecodeError] are subclasses of
    [ValueError]. *)
Definition is_exn (e cls : exn) : bool :=
  match e, cls with
  | JSONDecodeError, JSONDecodeError
  | UnicodeDecodeError, UnicodeDecodeError
  | FileNotFoundError, FileNotFoundError
  | KeyError, KeyError
  | ValueError, ValueError
  | JSONDecodeError, ValueError
  | UnicodeDecodeError, ValueError
  | TypeError, TypeError
  | AttributeError, AttributeError => true
  | _, _ => false
  end.

(** [with open(path, 'r', encoding='utf-8') as f: json.load(f)] *)
Definition json_load (path : string) : M json :=
  fun w =>
    match fs w !! path with
    | None => (Raise FileNotFoundError, w)
    | Some NotUtf8 => (Raise UnicodeDecodeError, w)
    | Some NotJson => (Raise JSONDecodeError, w)
    | Some (Doc data) => (Ok data, w)
    end.

(** [with open(path, 'w', encoding='utf-8') as f: json.dump(data, f, ...)] *)
Definition json_dump (path : string) (data : json) : M unit :=
  fun w => (Ok tt, mkWorld (<[path := Doc data]> (fs w)) (ticks w) (out w)).

(** [path.exists()] *)
Definition path_exists (path : string) : M bool :=
  fun w => (Ok (bool_decide (is_Some (fs w !! path))), w).

Section SynapseNotify.

Variable env : Env.

(** [datetime.now().isoformat()] *)
Definition now : M string :=
  fun w => (Ok (now_iso env (ticks w)), mkWorld (fs w) (S (ticks w)) (out w)).

Definition _get_alert_file (agent : string) : string :=
  let agent_clean := str_replace " " "_" (upper agent) in
  alerts_path env (agent_clean ++ "_alerts.json").

Definition _load_alerts (agent : string) : M (list Alert) :=
  let alert_file := _get_alert_file agent in
  e <- path_exists alert_file ;;
  if negb e then ret []
  else
    try_except
      (data <- json_load alert_file ;;
       items <- lift (py_get data "alerts" (JArr [])) ;;
       elems <- lift (py_iter items) ;;
       mapM (fun a => lift (from_dict a)) elems)
      (fun e => is_exn e JSONDecodeError || is_exn e KeyError)
      (fun e => print (PrintWarning agent e) ;;; ret []).

Definition _save_alerts (agent : string) (alerts : list Alert) : M unit :=
  let alert_file := _get_alert_file agent in
  last_updated <- now ;;
  let data :=
    JObj [("agent", JStr (upper agent));
          ("last_updated", JStr last_updated);
          ("alert_count", JInt (Z.of_nat (length alerts)));
          ("unread_count",
           JInt (Z.of_nat (length (List.filter (fun a => negb (read a)) alerts))));
          ("alerts", JArr (map to_dict alerts))] in
  json_dump alert_file data.

Definition _trigger_bell : M unit :=
  if enable_bell env then print Bell else ret tt.

Definition _generate_alert_id : M string :=
  timestamp <- now ;;
  ret (md5_hex12 env timestamp).

Definition _extract_preview (content : json) : outcome json :=
  let preview :=
    match content with
    | JStr s => JStr (str_take 100 s)
    | JObj d =>
        dict_get_default "announcement"
          (dict_get_default "message"
             (dict_get_default "summary"
                (JStr (str_take 100 (py_str env content))) d) d) d
    | _ => JStr (str_take 100 (py_str env content))
    end in
  match py_len preview with
  | Ok n => if Nat.leb 100 n then py_ellipsis preview else Ok preview
  | Raise e => Raise e
  | Untyped => Untyped
  end.

(** The agent-name normalisation of [create_alert]. *)
Definition normalize_agent (upper_name : string) : string :=
  str_replace "CLI_" "" (str_replace "CURSOR_" "" upper_name).

(** The priority validation of [create_alert]. *)
Definition validate_priority (priority : json) : M string :=
  try_except
    (u <- lift (py_upper priority) ;;
     p <- lift (Priority_of_value u) ;;
     ret (Priority_value p))
    (fun e => is_exn e ValueError)
    (fun _ => ret (Priority_value NORMAL)).

(** [create_alert].  The final [print], with its fall-back for a console
    that cannot encode the subject, is one [PrintCreated] event. *)
Definition create_alert (to_agent from_agent subject content : json)
    (source_file_ : string) (priority : json) : M Alert :=
  to_upper <- lift (py_upper to_agent) ;;
  let to_agent := normalize_agent to_upper in
  from_upper <- lift (py_upper from_agent) ;;
  let from_agent := normalize_agent from_upper in
  priority <- validate_priority priority ;;
  alert_id <- _generate_alert_id ;;
  timestamp <- now ;;
  preview <- lift (_extract_preview content) ;;
  let alert :=
    mkAlert alert_id timestamp from_agent to_agent subject preview
            source_file_ priority false in
  alerts <- _load_alerts to_agent ;;
  let existing_ids := map source_file alerts in
  if str_in source_file_ existing_ids then
    print (PrintInfoExists source_file_) ;;;
    ret alert
  else
    _save_alerts to_agent (alerts ++ [alert]) ;;;
    _trigger_bell ;;;
    print (PrintCreated to_agent from_agent subject) ;;;
    ret alert.

(** The agents a broadcast alias expands to. *)
Definition broadcast_agents : list string :=
  ["FORGE"; "ATLAS"; "CLIO"; "NEXUS"; "IRIS"; "PORTER"].

(** [if isinstance(x, str): x = [x]] *)
Definition wrap_str (x : json) : json :=
  match x with
  | JStr _ => JArr [x]
  | _ => x
  end.

(** [to_list.extend(cc_list)]: only a list has [extend], and its
    argument must be iterable. *)
Definition py_extend (to_list cc_list : json) : outcome (list json) :=
  match to_list with
  | JArr l =>
      match py_iter cc_list with
      | Ok c => Ok (l ++ c)
      | Raise e => Raise e
      | Untyped => Untyped
      end
  | _ => Raise AttributeError
  end.

(** The body of [for recipient in to_list], with [created_alerts]
    threaded through. *)
Fixpoint fanout_loop (to_list : list json)
    (from_agent subject body : json) (message_path : string)
    (priority : json) (created_alerts : list Alert) : M (list Alert) :=
  match to_list with
  | [] => ret created_alerts
  | recipient :: rest =>
      u <- lift (py_upper recipient) ;;
      if str_in u ["ALL"; "TEAM_BRAIN"] then
        new <- mapM (fun agent =>
                 create_alert (JStr agent) from_agent subject body
                              message_path priority) broadcast_agents ;;
        fanout_loop rest from_agent subject body message_path priority
                    (created_alerts ++ new)
      else
        alert <- create_alert recipient from_agent subject body
                              message_path priority ;;
        fanout_loop rest from_agent subject body message_path priority
                    (created_alerts ++ [alert])
  end.

Definition create_alerts_from_synapse_message (message_path : string)
    : M (list Alert) :=
  loaded <- try_except
              (msg <- json_load message_path ;; ret (Some msg))
              (fun e => is_exn e JSONDecodeError || is_exn e FileNotFoundError)
              (fun e => print (PrintError e) ;;; ret None) ;;
  match loaded with
  | None => ret []
  | Some msg =>
      to_list <- lift (py_get msg "to" (JArr [])) ;;
      let to_list := wrap_str to_list in
      cc_list <- lift (py_get msg "cc" (JArr [])) ;;
      let cc_list := wrap_str cc_list in
      to_list <- lift (py_extend to_list cc_list) ;;
      from_agent <- lift (py_get msg "from" (JStr "UNKNOWN")) ;;
      subject <- lift (py_get msg "subject" (JStr "No Subject")) ;;
      content <- lift (py_get msg "content" (JStr "")) ;;
      body <- lift (py_get msg "body" content) ;;
      priority <- lift (py_get msg "priority" (JStr "NORMAL")) ;;
      fanout_loop to_list from_agent subject body message_path priority []
  end.

(** [alerts.sort(key=lambda a: a.timestamp, reverse=True)]: a stable
    sort, largest timestamp first.  [insert_desc] puts an alert in front
    of the first one whose timestamp is not larger than its own. *)
Fixpoint insert_desc (a : Alert) (l : list Alert) : list Alert :=
  match l with
  | [] => [a]
  | b :: l' =>
      if String.ltb (timestamp a) (timestamp b)
      then b :: insert_desc a l'
      else a :: b :: l'
  end.

Fixpoint sort_desc (l : list Alert) : list Alert :=
  match l with
  | [] => []
  | a :: l' => insert_desc a (sort_desc l')
  end.

(** The truth value of an optional string: [None] and the empty string
    are false. *)
Definition truthy (x : option string) : bool :=
  match x with
  | None => false
  | Some EmptyString => false
  | Some _ => true
  end.

Definition get_alerts (agent : string) (unread_only : bool)
    (priority_ : option string) : M (list Alert) :=
  alerts <- _load_alerts agent ;;
  let alerts :=
    if unread_only then List.filter (fun a => negb (read a)) alerts else alerts in
  let alerts :=
    match priority_ with
    | Some p =>
        if truthy priority_
        then List.filter (fun a => String.eqb (priority a) (upper p)) alerts
        else alerts
    | None => alerts
    end in
  ret (sort_desc alerts).

Definition get_alert_count (agent : string) (unread_only : bool) : M nat :=
  alerts <- get_alerts agent unread_only None ;;
  ret (length alerts).

Definition set_read (a : Alert) : Alert :=
  mkAlert (id a) (timestamp a) (from_agent a) (to_agent a) (subject a)
          (preview a) (source_file a) (priority a) true.

(** The [for alert in alerts] loop of [mark_read]: the list after the
    in-place updates, and the count. *)
Fixpoint mark_loop (alert_id : option string) (alerts : list Alert)
    (count : nat) : list Alert * nat :=
  match alerts with
  | [] => ([], count)
  | alert :: rest =>
      let should_mark :=
        match alert_id with
        | None => true
        | Some i => String.eqb (id alert) i
        end in
      if should_mark && negb (read alert) then
        match alert_id with
        | Some _ => (set_read alert :: rest, S count)
        | None =>
            let (rest', count') := mark_loop alert_id rest (S count) in
            (set_read alert :: rest', count')
        end
      else
        let (rest', count') := mark_loop alert_id rest count in
        (alert :: rest', count')
  end.

Definition mark_read (agent : string) (alert_id : option string) : M nat :=
  alerts <- _load_alerts agent ;;
  let (alerts, count) := mark_loop alert_id alerts 0 in
  _save_alerts agent alerts ;;;
  (if Nat.ltb 0 count then print (PrintMarked count agent) else ret tt) ;;;
  ret count.

Definition clear_alerts (agent : string) (keep_unread : bool) : M nat :=
  alerts <- _load_alerts agent ;;
  let original_count := length alerts in
  let alerts :=
    if keep_unread then List.filter (fun a => negb (read a)) alerts else [] in
  let cleared_count := original_count - length alerts in
  _save_alerts agent alerts ;;;
  (if Nat.ltb 0 cleared_count
   then print (PrintCleared cleared_count agent) else ret tt) ;;;
  ret cleared_count.

(** A character stands for the code point of its number, below 256.
    [text.encode('cp1252')] succeeds on such a character unless it lies
    in the range 128..159. *)
Definition cp1252_encodable (c : ascii) : bool :=
  let n := N_of_ascii c in ((n <? 128) || (160 <=? n))%N.

(** [c.encode('ascii', 'replace').decode('ascii')] on one character. *)
Definition ascii_replace (c : ascii) : ascii :=
  if (N_of_ascii c <? 128)%N then c else "?"%char.

Fixpoint str_forallb (f : ascii -> bool) (s : string) : bool :=
  match s with
  | EmptyString => true
  | String c s' => f c && str_forallb f s'
  end.

Fixpoint str_map (f : ascii -> ascii) (s : string) : string :=
  match s with
  | EmptyString => EmptyString
  | String c s' => String (f c) (str_map f s')
  end.

(** [_safe_str] on a value: only [str] has [encode]. *)
Definition _safe_str (text : json) : outcome string :=
  match text with
  | JStr s =>
      if str_forallb cp1252_encodable s then Ok s
      else Ok (str_map ascii_replace s)
  | _ => Raise AttributeError
  end.

(** [x[:50]]: a list is sliced, a [dict] cannot be (a [KeyError] from
    Python 3.12 on), the other values cannot be subscripted. *)
Definition py_slice_50 (x : json) : outcome json :=
  match x with
  | JStr s => Ok (JStr (str_take 50 s))
  | JArr l => Ok (JArr (firstn 50 l))
  | _ => Raise TypeError
  end.

(** ["\n".join(lines)] *)
Fixpoint join_lines (lines : list string) : string :=
  match lines with
  | [] => ""
  | [l] => l
  | l :: rest => (l ++ String "010"%char (join_lines rest))%string
  end.

(** [str(n)] for a length. *)
Definition str_of_nat (n : nat) : string :=
  NilZero.string_of_uint (Nat.to_uint n).

(** ["=" * 60] *)
Definition rule60 : string := string_of_list_ascii (repeat "="%char 60).

(** The lines of one alert in the three sections of the report. *)
Definition critical_lines (a : Alert) : outcome (list string) :=
  match _safe_str (subject a) with
  | Ok s =>
      match _safe_str (preview a) with
      | Ok p =>
          Ok [("  From: " ++ from_agent a)%string;
              ("  Subject: " ++ s)%string;
              ("  Preview: " ++ p)%string;
              ("  File: " ++ source_file a)%string; ""]
      | Raise e => Raise e
      | Untyped => Untyped
      end
  | Raise e => Raise e
  | Untyped => Untyped
  end.

Definition high_lines (a : Alert) : outcome (list string) :=
  match _safe_str (subject a) with
  | Ok s =>
      match py_slice_50 (preview a) with
      | Ok p50 =>
          match _safe_str p50 with
          | Ok p =>
              Ok [("  From: " ++ from_agent a ++ " - " ++ s)%string;
                  ("  Preview: " ++ p ++ "...")%string; ""]
          | Raise e => Raise e
          | Untyped => Untyped
          end
      | Raise e => Raise e
      | Untyped => Untyped
      end
  | Raise e => Raise e
  | Untyped => Untyped
  end.

Definition normal_lines (a : Alert) : outcome (list string) :=
  match _safe_str (subject a) with
  | Ok s => Ok [("  From: " ++ from_agent a ++ " - " ++ s)%string]
  | Raise e => Raise e
  | Untyped => Untyped
  end.

(** A [for alert in group] loop that appends lines. *)
Fixpoint group_lines (f : Alert -> outcome (list string))
    (group : list Alert) : outcome (list string) :=
  match group with
  | [] => Ok []
  | a :: rest =>
      match f a with
      | Ok ls =>
          match group_lines f rest with
          | Ok more => Ok (ls ++ more)
          | Raise e => Raise e
          | Untyped => Untyped
          end
      | Raise e => Raise e
      | Untyped => Untyped
      end
  end.

(** The report, from its first banner to the joined text. *)
Definition build_report (agent : string) (alerts : list Alert)
    : outcome string :=
  let head :=
    [rule60;
     ("[!] " ++ str_of_nat (length alerts) ++ " NEW MESSAGE(S) FOR "
      ++ agent)%string;
     rule60; ""] in
  let critical :=
    List.filter (fun a => String.eqb (priority a) "CRITICAL") alerts in
  let high := List.filter (fun a => String.eqb (priority a) "HIGH") alerts in
  let normal :=
    List.filter (fun a => str_in (priority a) ["NORMAL"; "LOW"]) alerts in
  match group_lines critical_lines critical with
  | Ok cl =>
      let lines :=
        head ++
        match critical with
        | [] => []
        | _ => "[!!!] CRITICAL MESSAGES:" :: cl
        end in
      match group_lines high_lines high with
      | Ok hl =>
          let lines :=
            lines ++
            match high with
            | [] => []
            | _ => "[!] HIGH PRIORITY:" :: hl
            end in
          match group_lines normal_lines normal with
          | Ok nl =>
              let lines :=
                lines ++
                match normal with
                | [] => []
                | _ => "[i] NORMAL MESSAGES:" :: nl ++ [""]
                end in
              Ok (join_lines
                    (lines ++
                     [rule60;
                      "Run: synapsenotify read <agent> - to mark all as read";
                      "Run: synapsenotify clear <agent> - to clear alerts";
                      rule60]))
          | Raise e => Raise e
          | Untyped => Untyped
          end
      | Raise e => Raise e
      | Untyped => Untyped
      end
  | Raise e => Raise e
  | Untyped => Untyped
  end.

Definition check_and_report (agent : string) (bell : bool) : M string :=
  alerts <- get_alerts agent true None ;;
  match alerts with
  | [] => ret ("[OK] No new messages for " ++ agent)%string
  | _ :: _ =>
      (if bell && enable_bell env then _trigger_bell else ret tt) ;;;
      lift (build_report agent alerts)
  end.

Definition KNOWN_AGENTS : list string :=
  ["FORGE"; "ATLAS"; "CLIO"; "NEXUS"; "BOLT"; "GEMINI";
   "IRIS"; "PORTER"; "LOGAN"; "LOGAN_SMITH"; "ALL"; "TEAM_BRAIN"].

(** The loop of [get_all_agents_status], with the [status] dictionary
    threaded through. *)
Fixpoint status_loop (agents : list string) (status : gmap string nat)
    : M (gmap string nat) :=
  match agents with
  | [] => ret status
  | agent :: rest =>
      if negb (str_in agent ["ALL"; "TEAM_BRAIN"; "LOGAN"; "LOGAN_SMITH"]) then
        count <- get_alert_count agent true ;;
        if Nat.ltb 0 count
        then status_loop rest (<[agent := count]> status)
        else status_loop rest status
      else status_loop rest status
  end.

Definition get_all_agents_status : M (gmap string nat) :=
  status_loop KNOWN_AGENTS ∅.

End SynapseNotify.

(** ** [ToolRequestScanner.get_pending_requests] *)

Definition TOOL_REQUEST_LOG : string :=
  "D:\BEACON_HQ\MEMORY_CORE_V2\05_PROJECT_TRACKING\TOOL_REQUESTS\MASTER_TOOL_REQUEST_LOG.json".

(** [st == 'PENDING'] *)
Definition is_pending (st : json) : bool :=
  match st with
  | JStr s => String.eqb s "PENDING"
  | _ => false
  end.

(** [[r for r in items if r.get('status') == 'PENDING']] *)
Fixpoint pending_of (items : list json) : outcome (list json) :=
  match items with
  | [] => Ok []
  | r :: rest =>
      match py_get r "status" JNull with
      | Ok st =>
          match pending_of rest with
          | Ok more => Ok (if is_pending st then r :: more else more)
          | Raise e => Raise e
          | Untyped => Untyped
          end
      | Raise e => Raise e
      | Untyped => Untyped
      end
  end.

(** The bare [except:] catches every exception. *)
Definition get_pending_requests : M (list json) :=
  try_except
    (master_log <- json_load TOOL_REQUEST_LOG ;;
     items <- lift (py_get master_log "active_requests" (JArr [])) ;;
     elems <- lift (py_iter items) ;;
     lift (pending_of elems))
    (fun _ => true)
    (fun _ => ret []).

(** * Definitions used to state the properties *)

(** A list comprehension over a pure function, without the world. *)
Fixpoint mapO {A B} (f : A -> outcome B) (l : list A) : outcome (list B) :=
  match l with
  | [] => Ok []
  | x :: l' =>
      match f x with
      | Ok y =>
          match mapO f l' with
          | Ok ys => Ok (y :: ys)
          | Raise e => Raise e
          | Untyped => Untyped
          end
      | Raise e => Raise e
      | Untyped => Untyped
      end
  end.

(** The alerts of a parsed mailbox document. *)
Definition decode_mailbox (data : json) : outcome (list Alert) :=
  match py_get data "alerts" (JArr []) with
  | Ok items =>
      match py_iter items with
      | Ok elems => mapO from_dict elems
      | Raise e => Raise e
      | Untyped => Untyped
      end
  | Raise e => Raise e
  | Untyped => Untyped
  end.

(** The outcome of a load and what it prints, from the file's content. *)
Definition load_outcome (agent : string) (c : option FileContent)
    : outcome (list Alert) * list Event :=
  match c with
  | None => (Ok [], [])
  | Some NotUtf8 => (Raise UnicodeDecodeError, [])
  | Some NotJson => (Ok [], [PrintWarning agent JSONDecodeError])
  | Some (Doc data) => (decode_mailbox data, [])
  end.

(** The document [_save_alerts] writes. *)
Definition mailbox_doc (agent last_updated : string) (alerts : list Alert)
    : json :=
  JObj [("agent", JStr (upper agent));
        ("last_updated", JStr last_updated);
        ("alert_count", JInt (Z.of_nat (length alerts)));
        ("unread_count",
         JInt (Z.of_nat (length (List.filter (fun a => negb (read a)) alerts))));
        ("alerts", JArr (map to_dict alerts))].

(** The priority an alert gets for a requested priority string. *)
Definition checked_priority (p : string) : string :=
  if str_in (upper p) ["LOW"; "NORMAL"; "HIGH"; "CRITICAL"]
  then upper p else "NORMAL".

(** What the bell hook emits. *)
Definition bell_events (env : Env) : list Event :=
  if enable_bell env then [Bell] else [].

(** The alert [create_alert] builds when the clock has been read
    [t] times. *)
Definition new_alert (env : Env) (t : nat) (to_ from_ : string) (subject_ preview_ : json)
    (source_file_ priority_ : string) : Alert :=
  mkAlert (md5_hex12 env (now_iso env t)) (now_iso env (S t))
          (normalize_agent (upper from_)) (normalize_agent (upper to_))
          subject_ preview_ source_file_ (checked_priority priority_) false.

(** The number of alerts of a mailbox that come from one source file. *)
Definition count_source (sf : string) (alerts : list Alert) : nat :=
  length (List.filter (fun a => String.eqb (source_file a) sf) alerts).

(** [s[n:]] *)
Fixpoint str_drop (n : nat) (s : string) : string :=
  match n, s with
  | S k, String _ s' => str_drop k s'
  | _, _ => s
  end.

(** Stripping one literal prefix, as the specification words it. *)
Definition strip_prefix (p s : string) : string :=
  if String.prefix p s then str_drop (String.length p) s else s.

(** The normalisation the specification describes: upper-case, then
    strip the prefix [CURSOR_], then the prefix [CLI_]. *)
Definition spec_normalize_agent (s : string) : string :=
  strip_prefix "CLI_" (strip_prefix "CURSOR_" (upper s)).

(** [old in s] *)
Fixpoint occurs (old s : string) : bool :=
  String.prefix old s ||
  match s with
  | EmptyString => false
  | String _ s' => occurs old s'
  end.

(** [removed old s r]: [r] is [s] without the occurrences of [old] met
    in a scan from the left. *)
Inductive removed (old : string) : string -> string -> Prop :=
| removed_end : removed old "" ""
| removed_hit s r : removed old s r -> removed old (old ++ s)%string r
| removed_keep c s r :
    String.prefix old (String c s) = false ->
    removed old s r -> removed old (String c s) (String c r).

(** A sample environment and the world without files. *)
Definition sample_env : Env :=
  mkEnv (fun name => "/alerts/" ++ name)%string true
        (fun n =>
           "2026-01-22T10:00:0" ++ String (ascii_of_nat (48 + n)) "")%string
        (fun t => "id-" ++ t)%string
        (fun _ => "<object>").

Definition empty_world : World := mkWorld ∅ 0 [].

(** An outcome without its value. *)
Definition outcome_kind {A} (o : outcome A) : outcome unit :=
  match o with
  | Ok _ => Ok tt
  | Raise e => Raise e
  | Untyped => Untyped
  end.

(** A mailbox file that is valid JSON but holds an alert record with
    missing fields, and one whose top level is a list. *)
Definition truncated_record_doc : FileContent :=
  Doc (JObj [("agent", JStr "ATLAS");
             ("alerts", JArr [JObj [("id", JStr "abc123")]])]).

Definition list_doc : FileContent := Doc (JArr []).

(** The world whose only file is the mailbox of [agent]. *)
Definition world_with_mailbox (env : Env) (agent : string) (c : FileContent)
    : World :=
  mkWorld {[ _get_alert_file env agent := c ]} 0 [].

(** The truncation the specification describes: a text of 100
    characters or more keeps its first 97 and gets the ellipsis. *)
Definition ellipsize (s : string) : string :=
  if Nat.leb 100 (String.length s) then (str_take 97 s ++ "...")%string else s.

(** The text a preview is derived from, when the content is text or a
    mapping whose chosen field is text. *)
Definition preview_source (env : Env) (content : json) : option string :=
  match content with
  | JStr s => Some s
  | JObj d =>
      match dict_get "announcement" d, dict_get "message" d,
            dict_get "summary" d with
      | Some v, _, _ | None, Some v, _ | None, None, Some v =>
          match v with
          | JStr s => Some s
          | _ => None
          end
      | None, None, None => Some (str_take 100 (py_str env content))
      end
  | _ => Some (str_take 100 (py_str env content))
  end.

(** The number of unread alerts of a mailbox. *)
Definition count_unread (alerts : list Alert) : nat :=
  length (List.filter (fun a => negb (read a)) alerts).

(** [a'] is [a], or [a] went from unread to read. *)
Definition kept_or_marked (a a' : Alert) : Prop :=
  a' = a \/ (read a = false /\ a' = set_read a).

(** [newer_first a b]: the timestamp of [a] is not smaller than the one
    of [b], in the order Python compares strings (character by
    character, a proper prefix being smaller). *)
Definition newer_first (a b : Alert) : Prop :=
  String.ltb (timestamp a) (timestamp b) = false.

(** The filter of [get_alerts] as the code applies it: the priority
    filter is used for a priority that is neither [None] nor empty. *)
Definition selected (unread_only : bool) (priority_ : option string)
    (a : Alert) : bool :=
  (if unread_only then negb (read a) else true) &&
  match priority_ with
  | Some (String c p) => String.eqb (priority a) (upper (String c p))
  | _ => true
  end.

(** The filter as the specification words it: every priority other
    than [None] is matched against the alerts. *)
Definition spec_selected (unread_only : bool) (priority_ : option string)
    (a : Alert) : bool :=
  (if unread_only then negb (read a) else true) &&
  match priority_ with
  | Some p => String.eqb (priority a) (upper p)
  | None => true
  end.

Definition has_timestamp (t : string) (a : Alert) : bool :=
  String.eqb (timestamp a) t.

(** The scenario of the specification: two alerts are created for a
    recipient without a mailbox file, from two source files; one is
    marked read through the id of either; the unread alerts are then
    exactly the other one. *)
Definition unread_after_marking_one (env : Env) : Prop :=
  forall to_ from1 subject1 content1 sf1 prio1
         from2 subject2 content2 sf2 prio2 w pv1 pv2 i,
    let box := normalize_agent (upper to_) in
    fs w !! _get_alert_file env box = None ->
    _extract_preview env content1 = Ok pv1 ->
    _extract_preview env content2 = Ok pv2 ->
    sf1 <> sf2 ->
    exists a1 w1 a2 w2,
      create_alert env (JStr to_) (JStr from1) subject1 content1 sf1
                   (JStr prio1) w = (Ok a1, w1) /\
      create_alert env (JStr to_) (JStr from2) subject2 content2 sf2
                   (JStr prio2) w1 = (Ok a2, w2) /\
      (i = id a1 \/ i = id a2 ->
       exists w3 w4 marked other,
         mark_read env box (Some i) w2 = (Ok 1, w3) /\
         id marked = i /\
         ((marked = a1 /\ other = a2) \/ (marked = a2 /\ other = a1)) /\
         get_alerts env box true None w3 = (Ok [other], w4) /\
         fs w4 = fs w3).

(** The strings of a list of JSON strings. *)
Fixpoint strings_of (l : list json) : option (list string) :=
  match l with
  | [] => Some []
  | JStr s :: l' =>
      match strings_of l' with
      | Some ss => Some (s :: ss)
      | None => None
      end
  | _ :: _ => None
  end.

(** The recipients a well-formed [to] or [cc] field names: the field is
    absent, a string, or a list of strings. *)
Definition recipient_list (field : option json) : option (list string) :=
  match field with
  | None => Some []
  | Some (JStr s) => Some [s]
  | Some (JArr l) => strings_of l
  | Some _ => None
  end.

(** The agents one recipient stands for. *)
Definition expand_recipient (r : string) : list string :=
  if str_in (upper r) ["ALL"; "TEAM_BRAIN"]
  then ["FORGE"; "ATLAS"; "CLIO"; "NEXUS"; "IRIS"; "PORTER"]
  else [r].

(** Every mailbox file of the world can be loaded. *)
Definition all_loadable (env : Env) (w : World) : Prop :=
  forall agent,
    exists l, fst (load_outcome agent (fs w !! _get_alert_file env agent)) = Ok l.

(** The broadcast message of the repository's tests, and the world that
    holds it and no mailbox. *)
Definition broadcast_message : json :=
  JObj [("msg_id", JStr "test_broadcast");
        ("from", JStr "FORGE");
        ("to", JArr [JStr "TEAM_BRAIN"]);
        ("subject", JStr "Broadcast");
        ("priority", JStr "NORMAL");
        ("body", JObj [("announcement", JStr "This is Broadcast")])].

Definition broadcast_world : World :=
  mkWorld {[ "/synapse/broadcast.json" := Doc broadcast_message ]} 0 [].

(** A mailbox of three alerts, two of them critical. *)
Definition alert_normal : Alert :=
  mkAlert "id1" "2026-01-22T10:00:01" "FORGE" "ATLAS" (JStr "Normal")
          (JStr "Test") "/normal.json" "NORMAL" false.

Definition alert_critical_old : Alert :=
  mkAlert "id2" "2026-01-22T10:00:02" "CLIO" "ATLAS" (JStr "Critical")
          (JStr "Test") "/critical.json" "CRITICAL" false.

Definition alert_critical_new : Alert :=
  mkAlert "id3" "2026-01-22T10:00:03" "CLIO" "ATLAS" (JStr "Critical again")
          (JStr "Test") "/critical2.json" "CRITICAL" true.

Definition three_alert_world : World :=
  world_with_mailbox sample_env "ATLAS"
    (Doc (mailbox_doc "ATLAS" "2026-01-22T10:00:04"
            [alert_normal; alert_critical_old; alert_critical_new])).

(** [c] with a space turned into an underscore. *)
Definition space_to_underscore (c : ascii) : ascii :=
  if Ascii.eqb c " "%char then "_"%char else c.

(** The alerts [clear_alerts] keeps. *)
Definition kept_alerts (keep_unread : bool) (alerts : list Alert)
    : list Alert :=
  if keep_unread then List.filter (fun a => negb (read a)) alerts else [].

(** The file content [c] loads as a mailbox that holds an alert of the
    source file [sf]. *)
Definition file_has_source (c : option FileContent) (sf : string) : Prop :=
  exists alerts,
    fst (load_outcome "" c) = Ok alerts /\ In sf (map source_file alerts).

(** A message with nothing but a recipient. *)
Definition bare_message_world : World :=
  mkWorld {[ "/synapse/bare.json" := Doc (JObj [("to", JStr "atlas")]) ]} 0 [].

(** A message whose second recipient is a number. *)
Definition bad_recipient_world : World :=
  mkWorld {[ "/synapse/bad.json" :=
               Doc (JObj [("to", JArr [JStr "ATLAS"; JInt 7; JStr "CLIO"]);
                          ("subject", JStr "Hello")]) ]} 0 [].

(** An alert whose subject and preview are text. *)
Definition text_alert (a : Alert) : Prop :=
  exists s p, subject a = JStr s /\ preview a = JStr p.

(** The first four and the last four lines of a report. *)
Definition report_head (agent : string) (n : nat) : list string :=
  [rule60;
   ("[!] " ++ str_of_nat n ++ " NEW MESSAGE(S) FOR " ++ agent)%string;
   rule60; ""].

Definition report_foot : list string :=
  [rule60;
   "Run: synapsenotify read <agent> - to mark all as read";
   "Run: synapsenotify clear <agent> - to clear alerts";
   rule60].

(** The agents [get_all_agents_status] asks about. *)
Definition status_roster : list string :=
  ["FORGE"; "ATLAS"; "CLIO"; "NEXUS"; "BOLT"; "GEMINI"; "IRIS"; "PORTER"].

(** The number of unread alerts in the mailbox file of an agent, 0 when
    the file does not load. *)
Definition unread_in (env : Env) (w : World) (agent : string) : nat :=
  match fst (load_outcome agent (fs w !! _get_alert_file env agent)) with
  | Ok l => count_unread l
  | _ => 0
  end.

(** A mailbox with one alert whose subject is a number. *)
Definition numeric_subject_alert : Alert :=
  mkAlert "id9" "2026-01-22T10:00:09" "FORGE" "ATLAS" (JInt 5)
          (JStr "Test") "/numeric.json" "NORMAL" false.

(** [r.get('status') == 'PENDING'] for an entry that is an object. *)
Definition has_pending_status (r : json) : bool :=
  match r with
  | JObj d => is_pending (dict_get_default "status" JNull d)
  | _ => false
  end.

Definition is_object (r : json) : Prop := exists d, r = JObj d.

(** The world whose only file is the master log of tool requests. *)
Definition world_with_log (c : FileContent) : World :=
  mkWorld {[ TOOL_REQUEST_LOG := c ]} 0 [].

Definition sample_log : FileContent :=
  Doc (JObj [("active_requests",
              JArr [JObj [("request_id", JInt 1); ("status", JStr "PENDING")];
                    JObj [("request_id", JInt 2); ("status", JStr "DONE")];
                    JObj [("request_id", JInt 3)];
                    JObj [("request_id", JInt 4);
                          ("status", JStr "PENDING")]])]).

(** The fields an alert record must have. *)
Definition required_fields : list string :=
  ["id"; "timestamp"; "from_agent"; "to_agent"; "subject"; "preview";
   "source_file"; "priority"].

(** * Properties *)

(** ** Running the monad *)

Lemma bind_ok {A B} (m : M A) (f : A -> M B) w a w' :
  m w = (Ok a, w') -> bind m f w = f a w'.
Proof. unfold bind. intros ->. reflexivity. Qed.

Lemma bind_lift_ok {A B} (a : A) (f : A -> M B) w :
  bind (lift (Ok a)) f w = f a w.
Proof. reflexivity. Qed.

Lemma mapM_lift {A B} (f : A -> outcome B) (l : list A) w :
  mapM (fun a => lift (f a)) l w = (mapO f l, w).
Proof.
  induction l as [|x l IH]; simpl; [reflexivity|].
  unfold bind, lift at 1. destruct (f x); try reflexivity.
  rewrite IH. destruct (mapO f l); reflexivity.
Qed.

(** ** Alerts survive a trip through their dictionary form *)

Lemma from_dict_to_dict (a : Alert) : from_dict (to_dict a) = Ok a.
Proof. destruct a. reflexivity. Qed.

Lemma mapO_from_dict_to_dict (l : list Alert) :
  mapO from_dict (map to_dict l) = Ok l.
Proof.
  induction l as [|a l IH]; cbn [mapO map]; [reflexivity|].
  rewrite from_dict_to_dict, IH. reflexivity.
Qed.

(** [from_dict] raises nothing but [TypeError]. *)
Lemma from_dict_raises data e : from_dict data = Raise e -> e = TypeError.
Proof.
  unfold from_dict. intros H.
  repeat match type of H with
         | match ?x with _ => _ end = _ => destruct x
         | (if ?b then _ else _) = _ => destruct b
         end; congruence.
Qed.

Lemma mapO_from_dict_raises l e :
  mapO from_dict l = Raise e -> e = TypeError.
Proof.
  induction l as [|x l IH]; simpl; [discriminate|].
  destruct (from_dict x) eqn:Hx; try discriminate.
  - destruct (mapO from_dict l); try discriminate.
    intros [= <-]. apply IH. reflexivity.
  - intros [= <-]. eapply from_dict_raises; eassumption.
Qed.

(** ** What loading a mailbox file amounts to *)

Lemma decode_mailbox_raises data e :
  decode_mailbox data = Raise e -> e = TypeError \/ e = AttributeError.
Proof.
  unfold decode_mailbox. destruct data; simpl; try (intros [= <-]; auto).
  destruct (dict_get_default _ _ _); simpl; try (intros [= <-]; auto);
    intros H; left; eapply mapO_from_dict_raises; eassumption.
Qed.

Lemma world_eta w : mkWorld (fs w) (ticks w) (out w) = w.
Proof. destruct w. reflexivity. Qed.

Section Load.

Variable env : Env.

Lemma _load_alerts_eq agent w :
  _load_alerts env agent w =
  (fst (load_outcome agent (fs w !! _get_alert_file env agent)),
   mkWorld (fs w) (ticks w)
     (out w ++ snd (load_outcome agent (fs w !! _get_alert_file env agent)))).
Proof.
  unfold _load_alerts, bind at 1, path_exists.
  destruct (fs w !! _get_alert_file env agent) as [c|] eqn:Hc; simpl.
  - unfold try_except, bind at 1, json_load. rewrite Hc.
    destruct c as [| |data]; simpl.
    + rewrite app_nil_r, world_eta. reflexivity.
    + reflexivity.
    + unfold bind at 1, lift at 1, decode_mailbox.
      destruct (py_get data "alerts" (JArr [])) as [items|e|] eqn:Hg;
        [| destruct data; simpl in Hg; try discriminate;
           injection Hg as <-; simpl; rewrite app_nil_r, world_eta; reflexivity
         | rewrite app_nil_r, world_eta; reflexivity ].
      unfold bind at 1, lift at 1.
      destruct (py_iter items) as [elems|e|] eqn:Hi;
        [| destruct items; simpl in Hi; try discriminate;
           injection Hi as <-; simpl; rewrite app_nil_r, world_eta; reflexivity
         | rewrite app_nil_r, world_eta; reflexivity ].
      rewrite mapM_lift, app_nil_r, world_eta.
      destruct (mapO from_dict elems) as [l|e|] eqn:Hm; try reflexivity.
      apply mapO_from_dict_raises in Hm as ->. reflexivity.
  - rewrite app_nil_r, world_eta. reflexivity.
Qed.

(** Loading never writes a file and never reads the clock. *)
Lemma _load_alerts_fs agent w : fs (snd (_load_alerts env agent w)) = fs w.
Proof. rewrite _load_alerts_eq. reflexivity. Qed.

Lemma _save_alerts_eq agent alerts w :
  _save_alerts env agent alerts w =
  (Ok tt,
   mkWorld (<[_get_alert_file env agent :=
                Doc (mailbox_doc agent (now_iso env (ticks w)) alerts)]> (fs w))
           (S (ticks w)) (out w)).
Proof. reflexivity. Qed.

Lemma decode_mailbox_doc agent t alerts :
  decode_mailbox (mailbox_doc agent t alerts) = Ok alerts.
Proof.
  unfold decode_mailbox, mailbox_doc. simpl.
  apply mapO_from_dict_to_dict.
Qed.

(** What was saved is what the next load returns. *)
Lemma _load_after_save agent alerts w :
  _load_alerts env agent (snd (_save_alerts env agent alerts w)) =
  (Ok alerts, snd (_save_alerts env agent alerts w)).
Proof.
  rewrite _load_alerts_eq, _save_alerts_eq. simpl.
  rewrite lookup_insert_eq. simpl.
  rewrite decode_mailbox_doc, app_nil_r. reflexivity.
Qed.

End Load.

(** ** Priority validation *)

Lemma validate_priority_str p w :
  validate_priority (JStr p) w = (Ok (checked_priority p), w).
Proof.
  unfold validate_priority, try_except, bind, lift, py_upper,
    Priority_of_value, checked_priority, str_in, existsb.
  destruct (String.eqb_spec (upper p) "LOW") as [->|_]; [reflexivity|].
  destruct (String.eqb_spec (upper p) "NORMAL") as [->|_]; [reflexivity|].
  destruct (String.eqb_spec (upper p) "HIGH") as [->|_]; [reflexivity|].
  destruct (String.eqb_spec (upper p) "CRITICAL") as [->|_]; reflexivity.
Qed.

Lemma checked_priority_cases p :
  checked_priority p = "LOW" \/ checked_priority p = "NORMAL" \/
  checked_priority p = "HIGH" \/ checked_priority p = "CRITICAL".
Proof.
  unfold checked_priority, str_in, existsb.
  destruct (String.eqb_spec (upper p) "LOW") as [->|_]; [auto|].
  destruct (String.eqb_spec (upper p) "NORMAL") as [->|_]; [auto|].
  destruct (String.eqb_spec (upper p) "HIGH") as [->|_]; [auto|].
  destruct (String.eqb_spec (upper p) "CRITICAL") as [->|_]; auto.
Qed.

(** ** One call of [create_alert], step by step *)

Section Create.

Variable env : Env.

Lemma create_alert_eq to_ from_ subject_ content source_file_ priority_ w
    preview_ :
  _extract_preview env content = Ok preview_ ->
  let t := ticks w in
  let box := normalize_agent (upper to_) in
  let a := new_alert env t to_ from_ subject_ preview_ source_file_ priority_ in
  let lo := load_outcome box (fs w !! _get_alert_file env box) in
  create_alert env (JStr to_) (JStr from_) subject_ content source_file_
               (JStr priority_) w =
  match fst lo with
  | Ok alerts =>
      if str_in source_file_ (map source_file alerts) then
        (Ok a, mkWorld (fs w) (S (S t))
                 ((out w ++ snd lo) ++ [PrintInfoExists source_file_]))
      else
        (Ok a,
         mkWorld (<[_get_alert_file env box :=
                      Doc (mailbox_doc box (now_iso env (S (S t)))
                                       (alerts ++ [a]))]> (fs w))
                 (S (S (S t)))
                 (((out w ++ snd lo) ++ bell_events env) ++
                  [PrintCreated box (normalize_agent (upper from_)) subject_]))
  | Raise e => (Raise e, mkWorld (fs w) (S (S t)) (out w ++ snd lo))
  | Untyped => (Untyped, mkWorld (fs w) (S (S t)) (out w ++ snd lo))
  end.
Proof.
  intros Hp t box a lo.
  unfold create_alert. cbn [py_upper].
  rewrite !bind_lift_ok.
  erewrite bind_ok by apply validate_priority_str.
  unfold _generate_alert_id.
  unfold bind at 1. unfold bind at 1. unfold now at 1, ret at 1.
  unfold bind at 1. unfold now at 1. cbn [ticks fs out].
  rewrite Hp, bind_lift_ok.
  unfold bind at 1. rewrite _load_alerts_eq. cbn [ticks fs out fst snd].
  fold box. fold lo. fold t.
  destruct (fst lo) as [alerts|e|]; try reflexivity.
  fold (new_alert env t to_ from_ subject_ preview_ source_file_ priority_).
  fold a.
  destruct (str_in source_file_ (map source_file alerts)).
  - reflexivity.
  - unfold bind at 1. rewrite _save_alerts_eq. cbn [ticks fs out].
    unfold bind at 1, _trigger_bell, bell_events.
    destruct (enable_bell env); cbn; rewrite ?app_nil_r; reflexivity.
Qed.

(** Without a preview, [create_alert] stops after reading the clock
    twice. *)
Lemma create_alert_no_preview to_ from_ subject_ content sf p w :
  (forall pv, _extract_preview env content <> Ok pv) ->
  create_alert env (JStr to_) (JStr from_) subject_ content sf (JStr p) w =
  (match _extract_preview env content with
   | Ok _ => Untyped
   | Raise e => Raise e
   | Untyped => Untyped
   end, mkWorld (fs w) (S (S (ticks w))) (out w)).
Proof.
  intros Hp. unfold create_alert. cbn [py_upper].
  rewrite !bind_lift_ok.
  erewrite bind_ok by apply validate_priority_str.
  unfold _generate_alert_id.
  unfold bind at 1. unfold bind at 1. unfold now at 1, ret at 1.
  unfold bind at 1. unfold now at 1. cbn [ticks fs out].
  unfold bind at 1, lift at 1.
  destruct (_extract_preview env content) as [pv|e|]; try reflexivity.
  destruct (Hp pv). reflexivity.
Qed.

End Create.

(** ** Deduplication on [source_file] *)

Lemma str_in_In x xs : str_in x xs = true <-> In x xs.
Proof.
  unfold str_in. rewrite existsb_exists. split.
  - intros (y & Hy & Heq). apply String.eqb_eq in Heq. subst. assumption.
  - intros H. exists x. split; [assumption | apply String.eqb_refl].
Qed.

Lemma str_in_not_In x xs : str_in x xs = false <-> ~ In x xs.
Proof.
  rewrite <- str_in_In. destruct (str_in x xs); split; congruence.
Qed.

Lemma count_source_app sf l1 l2 :
  count_source sf (l1 ++ l2) = count_source sf l1 + count_source sf l2.
Proof. unfold count_source. rewrite List.filter_app, length_app. reflexivity. Qed.

Lemma count_source_absent sf l :
  ~ In sf (map source_file l) -> count_source sf l = 0.
Proof.
  unfold count_source. induction l as [|a l IH]; simpl; [reflexivity|].
  intros H. destruct (String.eqb_spec (source_file a) sf) as [E|_].
  - exfalso. apply H. left. assumption.
  - apply IH. intros H'. apply H. right. assumption.
Qed.

Lemma count_source_present sf l :
  In sf (map source_file l) -> 1 <= count_source sf l.
Proof.
  unfold count_source. induction l as [|a l IH]; simpl; [intros []|].
  intros [E|H].
  - rewrite E, String.eqb_refl. simpl. lia.
  - destruct (String.eqb (source_file a) sf); simpl; [lia | auto].
Qed.

Section Dedup.

Variable env : Env.

Lemma load_fst agent w :
  fst (_load_alerts env agent w) =
  fst (load_outcome agent (fs w !! _get_alert_file env agent)).
Proof. rewrite _load_alerts_eq. reflexivity. Qed.

Lemma load_outcome_quiet agent c a l :
  fst (load_outcome agent c) = Ok (a :: l) -> snd (load_outcome agent c) = [].
Proof. destruct c as [[| |data]|]; simpl; congruence. Qed.

(** A duplicate: the alert is returned, one line is printed, the clock
    was read twice, and no file is touched. *)
Lemma create_alert_duplicate to_ from_ subject_ content sf prio w alerts pv :
  fst (_load_alerts env (normalize_agent (upper to_)) w) = Ok alerts ->
  _extract_preview env content = Ok pv ->
  In sf (map source_file alerts) ->
  create_alert env (JStr to_) (JStr from_) subject_ content sf (JStr prio) w =
  (Ok (new_alert env (ticks w) to_ from_ subject_ pv sf prio),
   mkWorld (fs w) (S (S (ticks w))) (out w ++ [PrintInfoExists sf])).
Proof.
  intros Hl Hp Hin. rewrite load_fst in Hl.
  rewrite (create_alert_eq env _ _ _ _ _ _ _ _ Hp). cbv zeta.
  rewrite Hl. apply str_in_In in Hin as Hin'. rewrite Hin'.
  destruct alerts as [|a l]; [destruct Hin|].
  rewrite (load_outcome_quiet _ _ _ _ Hl), app_nil_r. reflexivity.
Qed.

(** A new source file: the alert is appended and the mailbox saved. *)
Lemma create_alert_fresh to_ from_ subject_ content sf prio w alerts pv :
  fst (_load_alerts env (normalize_agent (upper to_)) w) = Ok alerts ->
  _extract_preview env content = Ok pv ->
  ~ In sf (map source_file alerts) ->
  exists w1,
    create_alert env (JStr to_) (JStr from_) subject_ content sf (JStr prio) w =
    (Ok (new_alert env (ticks w) to_ from_ subject_ pv sf prio), w1) /\
    _load_alerts env (normalize_agent (upper to_)) w1 =
    (Ok (alerts ++ [new_alert env (ticks w) to_ from_ subject_ pv sf prio]),
     w1) /\
    (forall p, p <> _get_alert_file env (normalize_agent (upper to_)) ->
               fs w1 !! p = fs w !! p).
Proof.
  intros Hl Hp Hin. rewrite load_fst in Hl.
  rewrite (create_alert_eq env _ _ _ _ _ _ _ _ Hp). cbv zeta.
  rewrite Hl. apply str_in_not_In in Hin as Hin'. rewrite Hin'.
  eexists. split; [reflexivity|]. split.
  - rewrite _load_alerts_eq. cbn [fs ticks out].
    rewrite lookup_insert_eq. cbn [load_outcome fst snd].
    rewrite decode_mailbox_doc, app_nil_r. reflexivity.
  - intros p Hne. cbn [fs]. rewrite lookup_insert_ne by congruence.
    reflexivity.
Qed.

(** A duplicate never causes a write, whatever the content. *)
Lemma create_alert_duplicate_fs to_ from_ subject_ content sf prio w alerts :
  fst (_load_alerts env (normalize_agent (upper to_)) w) = Ok alerts ->
  In sf (map source_file alerts) ->
  fs (snd (create_alert env (JStr to_) (JStr from_) subject_ content sf
             (JStr prio) w)) = fs w.
Proof.
  intros Hl Hin.
  destruct (_extract_preview env content) as [pv|e|] eqn:Hp.
  - rewrite (create_alert_duplicate _ _ _ _ _ _ _ _ _ Hl Hp Hin). reflexivity.
  - rewrite create_alert_no_preview by congruence. reflexivity.
  - rewrite create_alert_no_preview by congruence. reflexivity.
Qed.

(** A mailbox with at most one alert of each source file keeps that
    property through a call, whatever the call returns. *)
Lemma create_alert_keeps_unique to_ from_ subject_ content sf prio w alerts :
  fst (_load_alerts env (normalize_agent (upper to_)) w) = Ok alerts ->
  List.NoDup (map source_file alerts) ->
  exists alerts1,
    fst (_load_alerts env (normalize_agent (upper to_))
           (snd (create_alert env (JStr to_) (JStr from_) subject_ content sf
                   (JStr prio) w))) = Ok alerts1 /\
    List.NoDup (map source_file alerts1).
Proof.
  intros Hl Hnd.
  assert (Hsame : forall w1, fs w1 = fs w ->
            fst (_load_alerts env (normalize_agent (upper to_)) w1) = Ok alerts).
  { intros w1 E. rewrite load_fst, E, <- load_fst. exact Hl. }
  destruct (_extract_preview env content) as [pv|e|] eqn:Hp.
  - destruct (in_dec string_dec sf (map source_file alerts)) as [Hin|Hin].
    + exists alerts. split; [|exact Hnd].
      apply Hsame.
      apply (create_alert_duplicate_fs _ _ _ _ _ _ _ _ Hl Hin).
    + destruct (create_alert_fresh to_ from_ subject_ content sf prio w
                  alerts pv Hl Hp Hin) as (w1 & Hc & Hload & _).
      eexists. rewrite Hc. cbn [snd]. rewrite Hload. split; [reflexivity|].
      rewrite map_app. cbn [map new_alert source_file].
      apply NoDup_ListNoDup. apply NoDup_ListNoDup in Hnd.
      apply NoDup_app. split; [assumption|]. split.
      * intros x Hx Hx'. apply list_elem_of_In in Hx, Hx'.
        destruct Hx' as [<-|[]]. contradiction.
      * apply NoDup_singleton.
  - exists alerts. split; [|exact Hnd]. apply Hsame.
    rewrite create_alert_no_preview by congruence. reflexivity.
  - exists alerts. split; [|exact Hnd]. apply Hsame.
    rewrite create_alert_no_preview by congruence. reflexivity.
Qed.

(** C1. Deduplication on [source_file].  For a recipient whose mailbox
    loads as [alerts]:
    (1) when the mailbox already holds an alert of the source file,
        [create_alert] leaves every file as it was, whatever the content;
        with a content that has a preview it returns its alert (which
        carries the source file) and only prints the information line;
    (2) a mailbox with at most one alert of each source file still has
        at most one of each after the call;
    (3) two calls in a row with the same source file (contents with a
        preview) leave the same files as the first one alone, and the
        mailbox then holds exactly one alert of that source file if it
        held at most one before; starting from an empty mailbox, it holds
        the first call's alert and nothing else. *)
Theorem create_alert_idempotent_on_source_file
    to_ from_ subject_ content sf prio from2 subject2 content2 prio2
    w alerts :
  let box := normalize_agent (upper to_) in
  fst (_load_alerts env box w) = Ok alerts ->
  (In sf (map source_file alerts) ->
   fs (snd (create_alert env (JStr to_) (JStr from_) subject_ content sf
              (JStr prio) w)) = fs w /\
   forall pv,
     _extract_preview env content = Ok pv ->
     exists a,
       create_alert env (JStr to_) (JStr from_) subject_ content sf
                    (JStr prio) w
       = (Ok a, mkWorld (fs w) (S (S (ticks w)))
                        (out w ++ [PrintInfoExists sf])) /\
       source_file a = sf) /\
  (List.NoDup (map source_file alerts) ->
   exists alerts1,
     fst (_load_alerts env box
            (snd (create_alert env (JStr to_) (JStr from_) subject_ content sf
                    (JStr prio) w))) = Ok alerts1 /\
     List.NoDup (map source_file alerts1)) /\
  (forall pv pv2,
     _extract_preview env content = Ok pv ->
     _extract_preview env content2 = Ok pv2 ->
     exists a1 w1 a2 w2 alerts2,
       create_alert env (JStr to_) (JStr from_) subject_ content sf
                    (JStr prio) w = (Ok a1, w1) /\
       create_alert env (JStr to_) (JStr from2) subject2 content2 sf
                    (JStr prio2) w1 = (Ok a2, w2) /\
       fs w2 = fs w1 /\
       fst (_load_alerts env box w2) = Ok alerts2 /\
       count_source sf alerts2 = Nat.max 1 (count_source sf alerts) /\
       (alerts = [] -> alerts2 = [a1])).
Proof.
  intros box Hl. split; [|split].
  - intros Hin. split.
    + apply (create_alert_duplicate_fs _ _ _ _ _ _ _ _ Hl Hin).
    + intros pv Hp. eexists. split.
      * apply (create_alert_duplicate _ _ _ _ _ _ _ _ _ Hl Hp Hin).
      * reflexivity.
  - apply create_alert_keeps_unique. exact Hl.
  - intros pv pv2 Hp Hp2.
    destruct (in_dec string_dec sf (map source_file alerts)) as [Hin|Hin].
    + pose proof (create_alert_duplicate to_ from_ subject_ content sf prio
                    w alerts pv Hl Hp Hin) as Hc1.
      assert (Hl1 : fst (_load_alerts env box
                 (mkWorld (fs w) (S (S (ticks w)))
                          (out w ++ [PrintInfoExists sf]))) = Ok alerts).
      { rewrite load_fst. cbn [fs]. rewrite <- load_fst. exact Hl. }
      pose proof (create_alert_duplicate to_ from2 subject2 content2 sf prio2
                    _ _ _ Hl1 Hp2 Hin) as Hc2.
      do 5 eexists. split; [exact Hc1|]. split; [exact Hc2|].
      split; [reflexivity|]. split; [|split].
      * rewrite load_fst. cbn [fs]. rewrite <- load_fst. exact Hl.
      * pose proof (count_source_present _ _ Hin). lia.
      * intros ->. destruct Hin.
    + destruct (create_alert_fresh to_ from_ subject_ content sf prio w
                  alerts pv Hl Hp Hin) as (w1 & Hc1 & Hload & _).
      fold box in Hload.
      assert (Hl1 : fst (_load_alerts env box w1) =
                    Ok (alerts ++
                        [new_alert env (ticks w) to_ from_ subject_ pv sf prio]))
        by (rewrite Hload; reflexivity).
      assert (Hin1 : In sf (map source_file
                 (alerts ++
                  [new_alert env (ticks w) to_ from_ subject_ pv sf prio]))).
      { rewrite map_app. apply in_or_app. right. left. reflexivity. }
      pose proof (create_alert_duplicate to_ from2 subject2 content2 sf prio2
                    _ _ _ Hl1 Hp2 Hin1) as Hc2.
      do 5 eexists. split; [exact Hc1|]. split; [exact Hc2|].
      split; [reflexivity|]. split; [|split].
      * rewrite load_fst. cbn [fs]. rewrite <- load_fst. exact Hl1.
      * rewrite count_source_app, (count_source_absent _ _ Hin).
        unfold count_source. cbn [List.filter new_alert source_file].
        rewrite String.eqb_refl. reflexivity.
      * intros ->. reflexivity.
Qed.

End Dedup.

(** ** Agent-name normalisation *)

Lemma append_cons c (s t : string) :
  (String c s ++ t)%string = String c (s ++ t)%string.
Proof. reflexivity. Qed.

Lemma prefix_split old s :
  String.prefix old s = true ->
  s = (old ++ str_drop (String.length old) s)%string.
Proof.
  revert s. induction old as [|c old IH]; intros s.
  - destruct s; reflexivity.
  - destruct s as [|d s]; [discriminate|]. cbn [String.prefix].
    destruct (ascii_dec c d) as [->|]; [|discriminate].
    intros H. rewrite append_cons. cbn [String.length str_drop].
    f_equal. apply IH. assumption.
Qed.

Lemma replace_from_skip old new p s :
  replace_from old new (String.length p) (p ++ s)%string =
  replace_from old new 0 s.
Proof.
  induction p as [|c p IH].
  - reflexivity.
  - rewrite append_cons. exact IH.
Qed.

Lemma str_replace_hit old new s :
  old <> "" ->
  str_replace old new (old ++ s)%string = (new ++ str_replace old new s)%string.
Proof.
  unfold str_replace. destruct old as [|c old]; [congruence|]. intros _.
  rewrite append_cons. cbn [replace_from].
  assert (H : String.prefix (String c old) (String c (old ++ s)%string) = true).
  { cbn [String.prefix]. destruct (ascii_dec c c); [|congruence].
    clear. induction old as [|d old IH].
    - destruct s; reflexivity.
    - rewrite append_cons. cbn [String.prefix].
      destruct (ascii_dec d d); [assumption | congruence]. }
  rewrite H.
  replace (String.length (String c old) - 1) with (String.length old)
    by (cbn [String.length]; lia).
  rewrite replace_from_skip. reflexivity.
Qed.

Lemma str_replace_keep old new c s :
  String.prefix old (String c s) = false ->
  str_replace old new (String c s) = String c (str_replace old new s).
Proof. unfold str_replace. cbn [replace_from]. intros ->. reflexivity. Qed.

Lemma str_drop_length n s :
  String.length (str_drop n s) <= String.length s.
Proof.
  revert s. induction n as [|n IH]; intros [|c s]; simpl; try lia.
  specialize (IH s). lia.
Qed.

(** [str.replace(old, "")] removes the occurrences of [old] a scan from
    the left meets. *)
Lemma str_replace_removed old s :
  old <> "" -> removed old s (str_replace old "" s).
Proof.
  intros Hold.
  remember (String.length s) as n eqn:Hn.
  revert s Hn. induction n as [n IH] using lt_wf_ind. intros s Hn.
  destruct s as [|c s].
  - apply removed_end.
  - destruct (String.prefix old (String c s)) eqn:Hp.
    + rewrite (prefix_split _ _ Hp). rewrite str_replace_hit by assumption.
      apply removed_hit.
      eapply IH; [|reflexivity]. subst n.
      destruct old as [|d old]; [congruence|].
      cbn [String.length str_drop].
      pose proof (str_drop_length (String.length old) s). simpl. lia.
    + rewrite str_replace_keep by assumption. apply removed_keep; [assumption|].
      eapply IH; [|reflexivity]. subst n. simpl. lia.
Qed.

Lemma str_replace_absent old new s :
  occurs old s = false -> str_replace old new s = s.
Proof.
  induction s as [|c s IH].
  - reflexivity.
  - cbn [occurs]. intros H. apply orb_false_iff in H as [Hp Ho].
    rewrite str_replace_keep by assumption. f_equal. auto.
Qed.

Lemma strip_prefix_replace p s :
  p <> "" -> occurs p (strip_prefix p s) = false ->
  str_replace p "" s = strip_prefix p s.
Proof.
  unfold strip_prefix. intros Hp. destruct (String.prefix p s) eqn:E.
  - intros Ho. rewrite (prefix_split _ _ E) at 1.
    rewrite str_replace_hit by assumption.
    apply str_replace_absent. assumption.
  - apply str_replace_absent.
Qed.

(** Where the two substrings occur as prefixes only, the code strips
    what the specification strips. *)
Lemma normalize_agent_prefix_only u :
  occurs "CURSOR_" (strip_prefix "CURSOR_" u) = false ->
  occurs "CLI_" (strip_prefix "CLI_" (strip_prefix "CURSOR_" u)) = false ->
  normalize_agent u = strip_prefix "CLI_" (strip_prefix "CURSOR_" u).
Proof.
  intros H1 H2. unfold normalize_agent.
  rewrite (strip_prefix_replace "CURSOR_") by (assumption || discriminate).
  apply strip_prefix_replace; [discriminate | assumption].
Qed.

Lemma prefix_append old s : String.prefix old (old ++ s)%string = true.
Proof.
  induction old as [|c old IH].
  - destruct s; reflexivity.
  - rewrite append_cons. cbn [String.prefix].
    destruct (ascii_dec c c); [assumption | congruence].
Qed.

Lemma append_inj_l (p s t : string) : (p ++ s)%string = (p ++ t)%string -> s = t.
Proof.
  induction p as [|c p IH]; [exact (fun H => H)|].
  rewrite !append_cons. intros [= H]. auto.
Qed.

(** The scan has one result. *)
Lemma removed_functional old s r1 r2 :
  old <> "" -> removed old s r1 -> removed old s r2 -> r1 = r2.
Proof.
  intros Hold H1. revert r2.
  induction H1 as [|s r H1 IH|c s r Hp H1 IH]; intros r2 H2.
  - inversion H2 as [|s' r' H' E|]; [reflexivity|].
    destruct old; [congruence | discriminate].
  - remember (old ++ s)%string as u eqn:Eu.
    destruct H2 as [|s' r' H'|c s' r' Hp' H'].
    + destruct old; [congruence | discriminate].
    + apply append_inj_l in Eu as ->. auto.
    + rewrite Eu, prefix_append in Hp'. discriminate.
  - remember (String c s) as u eqn:Eu.
    destruct H2 as [|s' r' H'|c' s' r' Hp' H'].
    + discriminate.
    + rewrite prefix_append in Hp. discriminate.
    + injection Eu as -> ->. f_equal. auto.
Qed.

Section Normalisation.

Variable env : Env.

(** With a loadable mailbox and a content that has a preview,
    [create_alert] returns the alert it built. *)
Lemma create_alert_returns to_ from_ subject_ content sf prio w alerts pv :
  fst (_load_alerts env (normalize_agent (upper to_)) w) = Ok alerts ->
  _extract_preview env content = Ok pv ->
  exists w',
    create_alert env (JStr to_) (JStr from_) subject_ content sf (JStr prio) w =
    (Ok (new_alert env (ticks w) to_ from_ subject_ pv sf prio), w').
Proof.
  intros Hl Hp.
  destruct (in_dec string_dec sf (map source_file alerts)) as [Hin|Hin].
  - eexists. apply (create_alert_duplicate env _ _ _ _ _ _ _ _ _ Hl Hp Hin).
  - destruct (create_alert_fresh env to_ from_ subject_ content sf prio w
                alerts pv Hl Hp Hin) as (w1 & Hc & _).
    eexists. exact Hc.
Qed.

(** C2, as the code has it.  For agent names given as strings (the
    mailbox loading and the content having a preview), the alert's
    [to_agent] and [from_agent] are the upper-cased names from which a
    left-to-right scan has removed every occurrence of [CURSOR_] and then
    every occurrence of [CLI_].  Where the two substrings occur only as
    the prefixes the specification strips, the result is the one the
    specification describes. *)
Theorem create_alert_normalizes_agent_names
    to_ from_ subject_ content sf prio w alerts pv :
  fst (_load_alerts env (normalize_agent (upper to_)) w) = Ok alerts ->
  _extract_preview env content = Ok pv ->
  exists a w',
    create_alert env (JStr to_) (JStr from_) subject_ content sf (JStr prio) w =
    (Ok a, w') /\
    (exists m, removed "CURSOR_" (upper to_) m /\
               removed "CLI_" m (to_agent a)) /\
    (exists m, removed "CURSOR_" (upper from_) m /\
               removed "CLI_" m (from_agent a)) /\
    (occurs "CURSOR_" (strip_prefix "CURSOR_" (upper to_)) = false ->
     occurs "CLI_" (spec_normalize_agent to_) = false ->
     to_agent a = spec_normalize_agent to_) /\
    (occurs "CURSOR_" (strip_prefix "CURSOR_" (upper from_)) = false ->
     occurs "CLI_" (spec_normalize_agent from_) = false ->
     from_agent a = spec_normalize_agent from_).
Proof.
  intros Hl Hp.
  destruct (create_alert_returns to_ from_ subject_ content sf prio w alerts pv
              Hl Hp) as (w' & Hc).
  do 2 eexists. split; [exact Hc|].
  cbn [new_alert to_agent from_agent]. unfold normalize_agent.
  split; [|split; [|split]].
  - eexists. split; apply str_replace_removed; discriminate.
  - eexists. split; apply str_replace_removed; discriminate.
  - apply normalize_agent_prefix_only.
  - apply normalize_agent_prefix_only.
Qed.

End Normalisation.

(** The test case of the repository: [CURSOR_FORGE] and [CLI_CLIO]. *)
Lemma create_alert_normalizes_agent_names_witness :
  exists a,
    fst (create_alert sample_env (JStr "CURSOR_FORGE") (JStr "CLI_CLIO")
           (JStr "Test") (JStr "Test") "/test.json" (JStr "NORMAL")
           empty_world) = Ok a /\
    to_agent a = "FORGE" /\ from_agent a = "CLIO".
Proof.
  destruct (create_alert_normalizes_agent_names sample_env
              "CURSOR_FORGE" "CLI_CLIO" (JStr "Test") (JStr "Test")
              "/test.json" "NORMAL" empty_world [] (JStr "Test")
              eq_refl eq_refl)
    as (a & w' & Hc & _ & _ & Hto & Hfrom).
  exists a. rewrite Hc. split; [reflexivity|]. split.
  - apply Hto; reflexivity.
  - apply Hfrom; reflexivity.
Defined.

(** C2 as the specification words it fails: [CLI_] inside a name, and a
    repeated [CURSOR_], are removed as well. *)
Lemma create_alert_normalization_counterexample :
  exists a,
    fst (create_alert sample_env (JStr "my_cli_agent") (JStr "cursor_cursor_x")
           (JStr "Test") (JStr "Test") "/test.json" (JStr "NORMAL")
           empty_world) = Ok a /\
    to_agent a = "MY_AGENT" /\
    spec_normalize_agent "my_cli_agent" = "MY_CLI_AGENT" /\
    from_agent a = "X" /\
    spec_normalize_agent "cursor_cursor_x" = "CURSOR_X".
Proof.
  eexists. split; [vm_compute; reflexivity|].
  repeat split; reflexivity.
Qed.

(** The repository's duplicate test: the same message file twice for
    [ATLAS], starting without a mailbox file. *)
Lemma create_alert_idempotent_on_source_file_witness :
  exists a1 w1 a2 w2,
    create_alert sample_env (JStr "ATLAS") (JStr "FORGE") (JStr "No Duplicates")
      (JStr "Test") "/nodupe.json" (JStr "NORMAL") empty_world = (Ok a1, w1) /\
    create_alert sample_env (JStr "ATLAS") (JStr "FORGE") (JStr "No Duplicates")
      (JStr "Test") "/nodupe.json" (JStr "NORMAL") w1 = (Ok a2, w2) /\
    fs w2 = fs w1 /\
    fst (_load_alerts sample_env "ATLAS" w2) = Ok [a1].
Proof.
  destruct (create_alert_idempotent_on_source_file sample_env
              "ATLAS" "FORGE" (JStr "No Duplicates") (JStr "Test")
              "/nodupe.json" "NORMAL" "FORGE" (JStr "No Duplicates")
              (JStr "Test") "NORMAL" empty_world [] eq_refl)
    as (_ & _ & Htwice).
  destruct (Htwice (JStr "Test") (JStr "Test") eq_refl eq_refl)
    as (a1 & w1 & a2 & w2 & alerts2 & H1 & H2 & Hfs & Hl & _ & He).
  exists a1, w1, a2, w2.
  rewrite (He eq_refl) in Hl.
  repeat split; assumption.
Defined.

(** ** Loading a mailbox: what is recovered and what is not *)

Section LoadErrors.

Variable env : Env.

(** No file: the empty mailbox, silently. *)
Lemma _load_alerts_missing agent w :
  fs w !! _get_alert_file env agent = None ->
  _load_alerts env agent w = (Ok [], w).
Proof.
  intros H. rewrite _load_alerts_eq, H. cbn [load_outcome fst snd].
  rewrite app_nil_r, world_eta. reflexivity.
Qed.

(** Text that is not JSON: the empty mailbox, with a warning. *)
Lemma _load_alerts_not_json agent w :
  fs w !! _get_alert_file env agent = Some NotJson ->
  _load_alerts env agent w =
  (Ok [], mkWorld (fs w) (ticks w)
                  (out w ++ [PrintWarning agent JSONDecodeError])).
Proof. intros H. rewrite _load_alerts_eq, H. reflexivity. Qed.

(** Bytes that are not UTF-8 text: the decoding error is not caught. *)
Lemma _load_alerts_not_utf8 agent w :
  fs w !! _get_alert_file env agent = Some NotUtf8 ->
  _load_alerts env agent w = (Raise UnicodeDecodeError, w).
Proof.
  intros H. rewrite _load_alerts_eq, H. cbn [load_outcome fst snd].
  rewrite app_nil_r, world_eta. reflexivity.
Qed.

(** C3 fails on the code.  A mailbox file that is valid JSON but not of
    the expected structure makes [_load_alerts] raise: an alert record
    with missing fields is a [TypeError], a top-level list is an
    [AttributeError]; a file that is not UTF-8 text is a
    [UnicodeDecodeError].  None of them is among the exceptions the
    handler catches. *)
Theorem load_alerts_raises_on_malformed_structure :
  _load_alerts env "ATLAS" (world_with_mailbox env "ATLAS" truncated_record_doc)
  = (Raise TypeError, world_with_mailbox env "ATLAS" truncated_record_doc) /\
  _load_alerts env "ATLAS" (world_with_mailbox env "ATLAS" list_doc)
  = (Raise AttributeError, world_with_mailbox env "ATLAS" list_doc) /\
  _load_alerts env "ATLAS" (world_with_mailbox env "ATLAS" NotUtf8)
  = (Raise UnicodeDecodeError, world_with_mailbox env "ATLAS" NotUtf8).
Proof.
  repeat split; rewrite _load_alerts_eq; unfold world_with_mailbox;
    cbn [fs ticks out]; rewrite lookup_singleton_eq; reflexivity.
Qed.

End LoadErrors.

(** ** The query operations do not write *)

Section ReadOnly.

Variable env : Env.

(** C10. [get_alerts] and [get_alert_count] leave the file system as it
    is, whatever they return or raise: no mailbox file is changed and
    none is created. *)
Theorem queries_are_read_only agent unread_only priority_ w :
  fs (snd (get_alerts env agent unread_only priority_ w)) = fs w /\
  fs (snd (get_alert_count env agent unread_only w)) = fs w.
Proof.
  unfold get_alert_count, get_alerts, bind.
  rewrite _load_alerts_eq.
  destruct (fst (load_outcome agent (fs w !! _get_alert_file env agent)));
    split; reflexivity.
Qed.

End ReadOnly.

(** ** Fan-out: the message that cannot be read *)

Section FanoutErrors.

Variable env : Env.


End FanoutErrors.



(** ** Previews *)

Lemma str_take_length n s :
  String.length (str_take n s) = Nat.min n (String.length s).
Proof.
  revert s. induction n as [|n IH]; intros [|c s]; simpl; try reflexivity.
  rewrite IH. reflexivity.
Qed.

Lemma str_take_all n s : String.length s <= n -> str_take n s = s.
Proof.
  revert s. induction n as [|n IH]; intros [|c s]; simpl; try reflexivity.
  - lia.
  - intros H. f_equal. apply IH. lia.
Qed.

Lemma str_take_take n m s : n <= m -> str_take n (str_take m s) = str_take n s.
Proof.
  revert m s. induction n as [|n IH]; intros [|m] [|c s] H; simpl;
    try reflexivity; try lia.
  f_equal. apply IH. lia.
Qed.

Lemma append_length (s t : string) :
  String.length (s ++ t)%string = String.length s + String.length t.
Proof.
  induction s as [|c s IH]; [reflexivity|].
  rewrite append_cons. simpl. rewrite IH. reflexivity.
Qed.

Lemma ellipsize_length s : String.length (ellipsize s) <= 100.
Proof.
  unfold ellipsize. destruct (Nat.leb_spec 100 (String.length s)).
  - rewrite append_length, str_take_length, Nat.min_l by lia.
    cbn [String.length]. lia.
  - lia.
Qed.

Lemma ellipsize_take_100 s : ellipsize (str_take 100 s) = ellipsize s.
Proof.
  unfold ellipsize. rewrite str_take_length.
  destruct (Nat.leb_spec 100 (String.length s)) as [H|H].
  - rewrite Nat.min_l by assumption. cbn [Nat.leb].
    rewrite str_take_take by lia. reflexivity.
  - rewrite Nat.min_r by lia.
    destruct (Nat.leb_spec 100 (String.length s)); [lia|].
    apply str_take_all. lia.
Qed.

Section Preview.

Variable env : Env.

Lemma _extract_preview_of_field s :
  match py_len (JStr s) with
  | Ok n => if Nat.leb 100 n then py_ellipsis (JStr s) else Ok (JStr s)
  | Raise e => Raise e
  | Untyped => Untyped
  end = Ok (JStr (ellipsize s)).
Proof.
  unfold ellipsize. cbn [py_len py_ellipsis].
  destruct (Nat.leb 100 (String.length s)); reflexivity.
Qed.

(** The part of C6 the code keeps.  For a content that is text, or a
    mapping whose first present field among [announcement], [message],
    [summary] is text, or a mapping with none of them, or any other
    value: the preview is the source text cut as the specification
    says, and has at most 100 characters. *)
Lemma _extract_preview_of_text content s :
  preview_source env content = Some s ->
  _extract_preview env content = Ok (JStr (ellipsize s)) /\
  String.length (ellipsize s) <= 100.
Proof.
  intros H. split; [|apply ellipsize_length].
  unfold _extract_preview, preview_source, dict_get_default in *.
  assert (Hsome : forall x y : string, Some x = Some y -> x = y)
    by congruence.
  destruct content as [| b | z | lit | t | items | d];
    try (apply Hsome in H as <-; rewrite _extract_preview_of_field;
         rewrite ?ellipsize_take_100; reflexivity).
  destruct (dict_get "announcement" d) as [v|].
  { destruct v; try discriminate. apply Hsome in H as <-.
    apply _extract_preview_of_field. }
  destruct (dict_get "message" d) as [v|].
  { destruct v; try discriminate. apply Hsome in H as <-.
    apply _extract_preview_of_field. }
  destruct (dict_get "summary" d) as [v|].
  { destruct v; try discriminate. apply Hsome in H as <-.
    apply _extract_preview_of_field. }
  apply Hsome in H as <-. rewrite _extract_preview_of_field.
  rewrite ellipsize_take_100. reflexivity.
Qed.

(** C6 fails on the code where the chosen field is not text: a number
    has no length, so [_extract_preview] raises [TypeError]; a short list
    is returned as it is, which is not a text of at most 100 characters;
    a list of 100 items or more cannot take the ellipsis. *)
Theorem extract_preview_of_non_text_field :
  _extract_preview env (JObj [("announcement", JInt 5)]) = Raise TypeError /\
  _extract_preview env (JObj [("summary", JArr [JStr "a"; JStr "b"])]) =
  Ok (JArr [JStr "a"; JStr "b"]) /\
  _extract_preview env (JObj [("message", JArr (repeat JNull 100))]) =
  Raise TypeError.
Proof. repeat split; reflexivity. Qed.

End Preview.

(** The repository's tests: 200 times the same character, and a mapping
    with an announcement. *)
Lemma _extract_preview_examples :
  _extract_preview sample_env (JObj [("announcement", JStr "X")]) =
  Ok (JStr "X") /\
  (exists r,
     _extract_preview sample_env
       (JStr (string_of_list_ascii (repeat "x"%char 200))) = Ok (JStr r) /\
     String.length r = 100 /\
     r = (string_of_list_ascii (repeat "x"%char 97) ++ "...")%string).
Proof.
  split; [reflexivity|]. eexists. split; [vm_compute; reflexivity|].
  split; reflexivity.
Qed.

(** ** Priority fallback *)

Section PriorityFallback.

Variable env : Env.

(** After validation, the priority is only stored: it does not decide
    whether [create_alert] returns or raises. *)
Lemma create_alert_kind_any_priority
    to_ from_ subject_ content sf (p q : string) w :
  outcome_kind
    (fst (create_alert env to_ from_ subject_ content sf (JStr p) w)) =
  outcome_kind
    (fst (create_alert env to_ from_ subject_ content sf (JStr q) w)).
Proof.
  destruct to_ as [| | | | t | |]; try reflexivity.
  destruct from_ as [| | | | f | |]; try reflexivity.
  destruct (_extract_preview env content) as [pv|e|] eqn:Hp.
  - rewrite !(create_alert_eq env _ _ _ _ _ _ _ _ Hp). cbv zeta.
    destruct (fst (load_outcome _ _)) as [alerts|e|]; try reflexivity.
    destruct (str_in sf (map source_file alerts)); reflexivity.
  - rewrite !create_alert_no_preview by congruence. reflexivity.
  - rewrite !create_alert_no_preview by congruence. reflexivity.
Qed.

Lemma create_alert_priority_field
    to_ from_ subject_ content sf (p : string) w a w' :
  create_alert env to_ from_ subject_ content sf (JStr p) w = (Ok a, w') ->
  priority a = checked_priority p.
Proof.
  destruct to_ as [| | | | t | |]; try discriminate.
  destruct from_ as [| | | | f | |]; try discriminate.
  destruct (_extract_preview env content) as [pv|e|] eqn:Hp.
  - rewrite (create_alert_eq env _ _ _ _ _ _ _ _ Hp). cbv zeta.
    destruct (fst (load_outcome _ _)) as [alerts|e|]; try discriminate.
    destruct (str_in sf (map source_file alerts)); intros [= <- _];
      reflexivity.
  - rewrite create_alert_no_preview by congruence. rewrite Hp. discriminate.
  - rewrite create_alert_no_preview by congruence. rewrite Hp. discriminate.
Qed.

(** C7. For every priority string:
    - the validation step itself returns, in any world and without an
      effect, the upper-cased string when that is one of [LOW],
      [NORMAL], [HIGH], [CRITICAL], and [NORMAL] otherwise;
    - whether [create_alert] returns or raises is the same as with the
      priority [NORMAL], whatever the other arguments and the world;
    - the created alert carries the validated priority. *)
Theorem create_alert_priority_fallback
    to_ from_ subject_ content sf (p : string) w :
  validate_priority (JStr p) w =
    (Ok (if str_in (upper p) ["LOW"; "NORMAL"; "HIGH"; "CRITICAL"]
         then upper p else "NORMAL"), w) /\
  outcome_kind
    (fst (create_alert env to_ from_ subject_ content sf (JStr p) w)) =
  outcome_kind
    (fst (create_alert env to_ from_ subject_ content sf (JStr "NORMAL") w)) /\
  (forall a w',
     create_alert env to_ from_ subject_ content sf (JStr p) w = (Ok a, w') ->
     priority a = if str_in (upper p) ["LOW"; "NORMAL"; "HIGH"; "CRITICAL"]
                  then upper p else "NORMAL").
Proof.
  split; [apply validate_priority_str|].
  split; [apply create_alert_kind_any_priority|].
  intros a w'. apply create_alert_priority_field.
Qed.

End PriorityFallback.

(** The repository's test: the priority [INVALID] gives [NORMAL]; and a
    lower-case [high] gives [HIGH]. *)
Lemma create_alert_priority_fallback_witness :
  (exists a w',
     create_alert sample_env (JStr "ATLAS") (JStr "FORGE") (JStr "Test")
       (JStr "Test") "/test.json" (JStr "INVALID") empty_world = (Ok a, w') /\
     priority a = "NORMAL") /\
  (exists a w',
     create_alert sample_env (JStr "ATLAS") (JStr "FORGE") (JStr "Test")
       (JStr "Test") "/test.json" (JStr "high") empty_world = (Ok a, w') /\
     priority a = "HIGH").
Proof.
  split.
  - do 2 eexists. split; [vm_compute; reflexivity|].
    eapply (proj2 (proj2 (create_alert_priority_fallback sample_env
              (JStr "ATLAS") (JStr "FORGE") (JStr "Test") (JStr "Test")
              "/test.json" "INVALID" empty_world))).
    vm_compute; reflexivity.
  - do 2 eexists. split; [vm_compute; reflexivity|].
    eapply (proj2 (proj2 (create_alert_priority_fallback sample_env
              (JStr "ATLAS") (JStr "FORGE") (JStr "Test") (JStr "Test")
              "/test.json" "high" empty_world))).
    vm_compute; reflexivity.
Defined.

(** ** Marking alerts as read *)

Lemma set_read_of_read a : read a = true -> set_read a = a.
Proof. destruct a. simpl. intros ->. reflexivity. Qed.

Lemma mark_loop_acc alert_id alerts c :
  mark_loop alert_id alerts c =
  (fst (mark_loop alert_id alerts 0), c + snd (mark_loop alert_id alerts 0)).
Proof.
  revert c. induction alerts as [|a l IH]; intros c; cbn [mark_loop].
  - simpl. f_equal. lia.
  - destruct ((match alert_id with
               | Some i => String.eqb (id a) i
               | None => true
               end) && negb (read a)).
    + destruct alert_id as [i|].
      * simpl. f_equal. lia.
      * rewrite (IH (S c)), (IH 1). simpl. f_equal. lia.
    + rewrite (IH c), (IH 0). simpl. reflexivity.
Qed.

(** Without an id, every alert ends up read and the unread ones are
    counted. *)
Lemma mark_loop_all alerts :
  mark_loop None alerts 0 = (map set_read alerts, count_unread alerts).
Proof.
  unfold count_unread.
  induction alerts as [|a l IH]; cbn [mark_loop]; [reflexivity|].
  cbn [andb]. destruct (read a) eqn:Hr; cbn [negb List.filter map].
  - rewrite Hr, IH. cbn [negb]. rewrite set_read_of_read by assumption.
    reflexivity.
  - rewrite Hr, mark_loop_acc, IH. reflexivity.
Qed.

(** With an id, the first unread alert of that id is marked, and
    nothing else. *)
Lemma mark_loop_one i alerts :
  (exists pre a post,
     alerts = pre ++ a :: post /\ id a = i /\ read a = false /\
     (forall b, In b pre -> id b = i -> read b = true) /\
     mark_loop (Some i) alerts 0 = (pre ++ set_read a :: post, 1)) \/
  ((forall b, In b alerts -> id b = i -> read b = true) /\
   mark_loop (Some i) alerts 0 = (alerts, 0)).
Proof.
  induction alerts as [|a l IH]; cbn [mark_loop].
  - right. split; [intros b []|reflexivity].
  - destruct (String.eqb_spec (id a) i) as [Hi|Hi]; cbn [andb].
    + destruct (read a) eqn:Hr; cbn [negb].
      * destruct IH as [(pre & x & post & -> & Hx & Hrx & Hpre & Hm)|[Hall Hm]].
        -- left. exists (a :: pre), x, post.
           rewrite Hm. repeat split; try assumption.
           intros b [<-|Hb] Hb'; auto.
        -- right. rewrite Hm. split; [|reflexivity].
           intros b [<-|Hb] Hb'; auto.
      * left. exists [], a, l. repeat split; try assumption.
        intros b [].
    + destruct IH as [(pre & x & post & -> & Hx & Hrx & Hpre & Hm)|[Hall Hm]].
      * left. exists (a :: pre), x, post.
        rewrite Hm. repeat split; try assumption.
        intros b [<-|Hb] Hb'; [contradiction|auto].
      * right. rewrite Hm. split; [|reflexivity].
        intros b [<-|Hb] Hb'; [contradiction|auto].
Qed.

Lemma Forall2_kept l : Forall2 kept_or_marked l l.
Proof. induction l; constructor; [left; reflexivity | assumption]. Qed.

(** Whatever the id, alerts only go from unread to read, and the count is
    the number of alerts that did. *)
Lemma mark_loop_transitions alert_id alerts :
  Forall2 kept_or_marked alerts (fst (mark_loop alert_id alerts 0)) /\
  snd (mark_loop alert_id alerts 0) +
  count_unread (fst (mark_loop alert_id alerts 0)) = count_unread alerts.
Proof.
  destruct alert_id as [i|].
  - destruct (mark_loop_one i alerts)
      as [(pre & a & post & -> & _ & Hr & _ & ->)|[_ ->]]; cbn [fst snd].
    + split.
      * apply Forall2_app; [apply Forall2_kept|].
        constructor; [right; auto | apply Forall2_kept].
      * unfold count_unread. rewrite !List.filter_app, !length_app.
        cbn [List.filter set_read read negb]. rewrite Hr. cbn [negb length].
        lia.
    + split; [apply Forall2_kept | reflexivity].
  - rewrite mark_loop_all. cbn [fst snd]. split.
    + induction alerts as [|a l IH]; cbn [map]; constructor; [|assumption].
      destruct (read a) eqn:Hr.
      * left. apply set_read_of_read. assumption.
      * right. auto.
    + unfold count_unread.
      replace (List.filter (fun a => negb (read a)) (map set_read alerts))
        with (@nil Alert); [simpl; lia|].
      induction alerts as [|a l IH]; [reflexivity|]. exact IH.
Qed.

Section MarkRead.

Variable env : Env.

(** The run of [mark_read] on a mailbox that loads. *)
Lemma mark_read_eq agent alert_id w alerts :
  fst (_load_alerts env agent w) = Ok alerts ->
  let r := mark_loop alert_id alerts 0 in
  let lo := load_outcome agent (fs w !! _get_alert_file env agent) in
  mark_read env agent alert_id w =
  (Ok (snd r),
   mkWorld (<[_get_alert_file env agent :=
                Doc (mailbox_doc agent (now_iso env (ticks w)) (fst r))]> (fs w))
           (S (ticks w))
           ((out w ++ snd lo) ++
            (if Nat.ltb 0 (snd r) then [PrintMarked (snd r) agent] else []))).
Proof.
  intros Hl r lo. rewrite load_fst in Hl.
  unfold mark_read, bind at 1. rewrite _load_alerts_eq. rewrite Hl.
  fold r. destruct r as [alerts' count]. cbn [fst snd].
  unfold bind at 1. rewrite _save_alerts_eq. cbn [fs ticks out].
  unfold bind at 1. fold lo.
  destruct (Nat.ltb 0 count); cbn; rewrite ?app_nil_r; reflexivity.
Qed.

(** C8. On a mailbox that loads as [alerts], [mark_read] returns a
    count and saves a mailbox [alerts'] (the next load returns it), also
    when the count is 0, such that:
    - each alert is unchanged or went from unread to read, and the count
      is the number of alerts that went from unread to read;
    - without an id, every alert is read afterwards and the count is the
      number of alerts that were unread;
    - with an id, either the first unread alert with that id (in load
      order) is the only one marked and the count is 1, or there is no
      unread alert with that id, nothing changes and the count is 0. *)
Theorem mark_read_marks_and_counts agent alert_id w alerts :
  fst (_load_alerts env agent w) = Ok alerts ->
  exists alerts' count w',
    mark_read env agent alert_id w = (Ok count, w') /\
    fs w' = <[_get_alert_file env agent :=
                Doc (mailbox_doc agent (now_iso env (ticks w)) alerts')]> (fs w) /\
    _load_alerts env agent w' = (Ok alerts', w') /\
    Forall2 kept_or_marked alerts alerts' /\
    count + count_unread alerts' = count_unread alerts /\
    match alert_id with
    | None =>
        alerts' = map set_read alerts /\ count = count_unread alerts
    | Some i =>
        (exists pre a post,
           alerts = pre ++ a :: post /\ id a = i /\ read a = false /\
           (forall b, In b pre -> id b = i -> read b = true) /\
           alerts' = pre ++ set_read a :: post /\ count = 1) \/
        ((forall b, In b alerts -> id b = i -> read b = true) /\
         alerts' = alerts /\ count = 0)
    end.
Proof.
  intros Hl.
  exists (fst (mark_loop alert_id alerts 0)), (snd (mark_loop alert_id alerts 0)).
  eexists. split; [apply (mark_read_eq _ _ _ _ Hl)|].
  split; [reflexivity|]. split.
  { rewrite _load_alerts_eq. cbn [fs ticks out].
    rewrite lookup_insert_eq. cbn [load_outcome fst snd].
    rewrite decode_mailbox_doc, app_nil_r. reflexivity. }
  destruct (mark_loop_transitions alert_id alerts) as [Hf Hc].
  split; [exact Hf|]. split; [exact Hc|].
  destruct alert_id as [i|].
  - destruct (mark_loop_one i alerts)
      as [(pre & a & post & E & Hi & Hr & Hpre & Hm)|[Hall Hm]];
      rewrite Hm; cbn [fst snd].
    + left. exists pre, a, post. auto 10.
    + right. auto.
  - rewrite mark_loop_all. auto.
Qed.

End MarkRead.

(** Two alerts in a mailbox, the second one marked by its id: the count
    is 1, and the saved mailbox has the second alert read. *)
Lemma mark_read_marks_and_counts_witness :
  let a1 := mkAlert "id1" "2026-01-22T10:00:01" "FORGE" "ATLAS" (JStr "First")
              (JStr "First message") "/first.json" "NORMAL" false in
  let a2 := mkAlert "id2" "2026-01-22T10:00:02" "CLIO" "ATLAS" (JStr "Second")
              (JStr "Second message") "/second.json" "NORMAL" false in
  let w := world_with_mailbox sample_env "ATLAS"
             (Doc (mailbox_doc "ATLAS" "2026-01-22T10:00:03" [a1; a2])) in
  exists w',
    mark_read sample_env "ATLAS" (Some "id2") w = (Ok 1, w') /\
    _load_alerts sample_env "ATLAS" w' = (Ok [a1; set_read a2], w').
Proof.
  intros a1 a2 w.
  destruct (mark_read_marks_and_counts sample_env "ATLAS" (Some "id2") w
              [a1; a2] eq_refl)
    as (alerts' & count & w' & Hm & _ & Hl & _ & _ & Hcase).
  destruct Hcase as [(pre & a & post & E & Hi & Hr & Hpre & -> & ->)
                    |(Hall & _ & _)].
  - exists w'. split; [exact Hm|].
    destruct pre as [|b pre].
    + injection E as <- <-. discriminate Hi.
    + injection E as <- E. destruct pre as [|c pre].
      * injection E as <- <-. exact Hl.
      * injection E as _ E. destruct pre; discriminate E.
  - exfalso.
    discriminate (Hall a2 (or_intror (or_introl eq_refl)) eq_refl).
Defined.

(** ** The order of timestamps *)

Lemma compare_refl s : String.compare s s = Eq.
Proof.
  induction s as [|c s IH]; [reflexivity|]. cbn [String.compare].
  unfold Ascii.compare. rewrite N.compare_refl. assumption.
Qed.

Lemma ltb_irrefl s : String.ltb s s = false.
Proof. unfold String.ltb. rewrite compare_refl. reflexivity. Qed.

Lemma ltb_asym s t : String.ltb s t = true -> String.ltb t s = false.
Proof.
  unfold String.ltb. rewrite (String.compare_antisym t s).
  destruct (String.compare s t); simpl; congruence.
Qed.

(** "Not smaller" is "at least": the order is total. *)
Lemma ltb_false_leb s t : String.ltb s t = false <-> String.leb t s = true.
Proof.
  unfold String.ltb, String.leb. rewrite (String.compare_antisym s t).
  destruct (String.compare t s); simpl; split; congruence.
Qed.

Lemma compare_not_lt_trans s t u :
  String.compare s t <> Lt -> String.compare t u <> Lt ->
  String.compare s u <> Lt.
Proof.
  revert t u. induction s as [|c s IH]; intros [|d t] [|e u];
    cbn [String.compare]; try congruence.
  unfold Ascii.compare.
  destruct (N.compare_spec (N_of_ascii c) (N_of_ascii d)) as [E1|L1|G1];
    destruct (N.compare_spec (N_of_ascii d) (N_of_ascii e)) as [E2|L2|G2];
    destruct (N.compare_spec (N_of_ascii c) (N_of_ascii e)) as [E3|L3|G3];
    try congruence; try lia.
  apply IH.
Qed.

Lemma ltb_false_trans s t u :
  String.ltb s t = false -> String.ltb t u = false -> String.ltb s u = false.
Proof.
  unfold String.ltb. intros H1 H2.
  pose proof (compare_not_lt_trans s t u) as H.
  destruct (String.compare s t), (String.compare t u), (String.compare s u);
    try reflexivity; try discriminate; exfalso; apply H; congruence.
Qed.

(** ** The sort of [get_alerts] *)

Lemma insert_desc_perm a l : Permutation (a :: l) (insert_desc a l).
Proof.
  induction l as [|b l IH]; cbn [insert_desc]; [reflexivity|].
  destruct (String.ltb (timestamp a) (timestamp b)); [|reflexivity].
  rewrite perm_swap. apply perm_skip. assumption.
Qed.

Lemma sort_desc_perm l : Permutation l (sort_desc l).
Proof.
  induction l as [|a l IH]; cbn [sort_desc]; [reflexivity|].
  rewrite <- insert_desc_perm. apply perm_skip. assumption.
Qed.

Lemma insert_desc_sorted a l :
  StronglySorted newer_first l -> StronglySorted newer_first (insert_desc a l).
Proof.
  induction 1 as [|b l Hs IH Hb]; cbn [insert_desc].
  - constructor; constructor.
  - destruct (String.ltb (timestamp a) (timestamp b)) eqn:E.
    + constructor; [assumption|].
      rewrite List.Forall_forall. intros x Hx.
      apply (Permutation_in _ (Permutation_sym (insert_desc_perm a l))) in Hx.
      destruct Hx as [<-|Hx].
      * apply ltb_asym. assumption.
      * rewrite List.Forall_forall in Hb. auto.
    + constructor; [constructor; assumption|].
      constructor; [exact E|].
      rewrite List.Forall_forall in *. intros x Hx.
      eapply ltb_false_trans; [exact E | apply Hb; assumption].
Qed.

Lemma sort_desc_sorted l : StronglySorted newer_first (sort_desc l).
Proof.
  induction l as [|a l IH]; cbn [sort_desc]; [constructor|].
  apply insert_desc_sorted. assumption.
Qed.

(** Alerts of one timestamp keep their order: the sort is stable. *)
Lemma insert_desc_stable t a l :
  List.filter (has_timestamp t) (insert_desc a l) =
  List.filter (has_timestamp t) (a :: l).
Proof.
  induction l as [|b l IH]; cbn [insert_desc]; [reflexivity|].
  destruct (String.ltb (timestamp a) (timestamp b)) eqn:E; [|reflexivity].
  cbn [List.filter] in *. rewrite IH. unfold has_timestamp.
  destruct (String.eqb_spec (timestamp b) t) as [Hb|Hb]; [|reflexivity].
  destruct (String.eqb_spec (timestamp a) t) as [Ha|Ha]; [|reflexivity].
  rewrite Ha, Hb, ltb_irrefl in E. discriminate.
Qed.

Lemma sort_desc_stable t l :
  List.filter (has_timestamp t) (sort_desc l) = List.filter (has_timestamp t) l.
Proof.
  induction l as [|a l IH]; cbn [sort_desc]; [reflexivity|].
  rewrite insert_desc_stable. cbn [List.filter]. rewrite IH. reflexivity.
Qed.

Lemma filter_filter_and {A} (f g : A -> bool) l :
  List.filter f (List.filter g l) = List.filter (fun a => g a && f a) l.
Proof.
  induction l as [|a l IH]; [reflexivity|]. cbn [List.filter].
  destruct (g a); cbn [List.filter andb]; rewrite IH; reflexivity.
Qed.

Lemma filter_all {A} (f : A -> bool) l :
  (forall a, f a = true) -> List.filter f l = l.
Proof.
  intros H. induction l as [|a l IH]; [reflexivity|].
  cbn [List.filter]. rewrite H, IH. reflexivity.
Qed.

Section GetAlerts.

Variable env : Env.

(** The run of [get_alerts] on a mailbox that loads. *)
Lemma get_alerts_eq agent unread_only priority_ w alerts :
  fst (_load_alerts env agent w) = Ok alerts ->
  get_alerts env agent unread_only priority_ w =
  (Ok (sort_desc (List.filter (selected unread_only priority_) alerts)),
   snd (_load_alerts env agent w)).
Proof.
  intros Hl. unfold get_alerts, bind.
  destruct (_load_alerts env agent w) as [r w'] eqn:E. cbn [fst snd] in *.
  subst r. unfold ret. do 3 f_equal.
  unfold selected.
  destruct unread_only, priority_ as [[|c p]|]; cbn [truthy andb].
  - apply List.filter_ext. intros a. rewrite andb_true_r. reflexivity.
  - apply filter_filter_and.
  - apply List.filter_ext. intros a. rewrite andb_true_r. reflexivity.
  - symmetry. apply filter_all. reflexivity.
  - reflexivity.
  - symmetry. apply filter_all. reflexivity.
Qed.

End GetAlerts.

Section Scenario.

Variable env : Env.

(** [mark_read] returns and saves what its loop computed. *)
Lemma mark_read_run agent alert_id w alerts :
  fst (_load_alerts env agent w) = Ok alerts ->
  exists w',
    mark_read env agent alert_id w =
    (Ok (snd (mark_loop alert_id alerts 0)), w') /\
    _load_alerts env agent w' = (Ok (fst (mark_loop alert_id alerts 0)), w').
Proof.
  intros Hl. eexists. split; [apply (mark_read_eq env _ _ _ _ Hl)|].
  rewrite _load_alerts_eq. cbn [fs ticks out].
  rewrite lookup_insert_eq. cbn [load_outcome fst snd].
  rewrite decode_mailbox_doc, app_nil_r. reflexivity.
Qed.

Lemma unread_after_marking_one_holds : unread_after_marking_one env.
Proof.
  intros to_ from1 subject1 content1 sf1 prio1 from2 subject2 content2 sf2
         prio2 w pv1 pv2 i box Hnone Hp1 Hp2 Hsf.
  assert (Hl0 : fst (_load_alerts env box w) = Ok []).
  { rewrite load_fst, Hnone. reflexivity. }
  destruct (create_alert_fresh env to_ from1 subject1 content1 sf1 prio1 w
              [] pv1 Hl0 Hp1 (fun H => H)) as (w1 & Hc1 & Hl1 & _).
  fold box in Hl1. cbn [app] in Hl1.
  set (a1 := new_alert env (ticks w) to_ from1 subject1 pv1 sf1 prio1) in *.
  assert (Hl1' : fst (_load_alerts env box w1) = Ok [a1])
    by (rewrite Hl1; reflexivity).
  assert (Hin : ~ In sf2 (map source_file [a1])).
  { intros [H|[]]. apply Hsf. exact H. }
  destruct (create_alert_fresh env to_ from2 subject2 content2 sf2 prio2 w1
              [a1] pv2 Hl1' Hp2 Hin) as (w2 & Hc2 & Hl2 & _).
  fold box in Hl2. cbn [app] in Hl2.
  set (a2 := new_alert env (ticks w1) to_ from2 subject2 pv2 sf2 prio2) in *.
  exists a1, w1, a2, w2. split; [exact Hc1|]. split; [exact Hc2|].
  intros Hi.
  assert (Hl2' : fst (_load_alerts env box w2) = Ok [a1; a2])
    by (rewrite Hl2; reflexivity).
  destruct (mark_read_run box (Some i) w2 [a1; a2] Hl2') as (w3 & Hm & Hl3).
  assert (Hl3' : fst (_load_alerts env box w3) =
                 Ok (fst (mark_loop (Some i) [a1; a2] 0)))
    by (rewrite Hl3; reflexivity).
  pose proof (get_alerts_eq env box true None w3 _ Hl3') as Hg.
  rewrite Hl3 in Hg. cbn [snd] in Hg.
  destruct (String.eqb_spec (id a1) i) as [E1|E1].
  - (* the first alert carries the id *)
    assert (Hloop : mark_loop (Some i) [a1; a2] 0 = ([set_read a1; a2], 1)).
    { cbn [mark_loop]. destruct (String.eqb_spec (id a1) i); [|contradiction].
      reflexivity. }
    rewrite Hloop in Hm, Hg. cbn [fst snd] in Hm, Hg.
    exists w3, w3, a1, a2. split; [exact Hm|]. split; [exact E1|].
    split; [left; auto|]. split; [exact Hg | reflexivity].
  - (* only the second one does *)
    assert (E2 : id a2 = i) by (destruct Hi; congruence).
    assert (Hloop : mark_loop (Some i) [a1; a2] 0 = ([a1; set_read a2], 1)).
    { cbn [mark_loop]. destruct (String.eqb_spec (id a1) i); [contradiction|].
      destruct (String.eqb_spec (id a2) i); [|contradiction].
      reflexivity. }
    rewrite Hloop in Hm, Hg. cbn [fst snd] in Hm, Hg.
    exists w3, w3, a2, a1. split; [exact Hm|]. split; [exact E2|].
    split; [right; auto|]. split; [exact Hg | reflexivity].
Qed.

(** C9, as the code has it.  On a mailbox that loads as [alerts],
    [get_alerts] returns, without touching a file, the alerts that pass
    the filters: unread alerts only when [unread_only] is set, and, for
    a priority that is neither [None] nor the empty string, the alerts
    whose priority is the upper-cased filter value.  The result is a
    permutation of the selected alerts, every alert's timestamp is at
    least that of each alert after it, and alerts of equal timestamp
    keep their load order.  The scenario of the specification holds. *)
Theorem get_alerts_filters_and_sorts agent unread_only priority_ w alerts :
  fst (_load_alerts env agent w) = Ok alerts ->
  (exists result w',
     get_alerts env agent unread_only priority_ w = (Ok result, w') /\
     fs w' = fs w /\
     Permutation (List.filter (selected unread_only priority_) alerts) result /\
     StronglySorted newer_first result /\
     (forall t,
        List.filter (has_timestamp t) result =
        List.filter (has_timestamp t)
          (List.filter (selected unread_only priority_) alerts))) /\
  unread_after_marking_one env.
Proof.
  intros Hl. split; [|apply unread_after_marking_one_holds].
  do 2 eexists. split; [apply (get_alerts_eq env _ _ _ _ _ Hl)|].
  split; [apply _load_alerts_fs|]. split; [apply sort_desc_perm|].
  split; [apply sort_desc_sorted|]. intros t. apply sort_desc_stable.
Qed.

End Scenario.

(** ** Fan-out *)

Lemma strings_of_map l ss : strings_of l = Some ss -> l = map JStr ss.
Proof.
  revert ss. induction l as [|x l IH]; intros ss; cbn [strings_of].
  - intros [= <-]. reflexivity.
  - destruct x; try discriminate.
    destruct (strings_of l) as [ss'|]; [|discriminate].
    intros [= <-]. cbn [map]. f_equal. apply IH. reflexivity.
Qed.

Lemma recipient_list_wrap key d rs :
  recipient_list (dict_get key d) = Some rs ->
  wrap_str (dict_get_default key (JArr []) d) = JArr (map JStr rs).
Proof.
  unfold recipient_list, dict_get_default.
  destruct (dict_get key d) as [v|].
  - destruct v; try discriminate.
    + intros [= <-]. reflexivity.
    + intros H. apply strings_of_map in H as ->. reflexivity.
  - intros [= <-]. reflexivity.
Qed.

Lemma mapM_app {A B} (f : A -> M B) l1 l2 w :
  mapM f (l1 ++ l2) w =
  (x <- mapM f l1 ;; y <- mapM f l2 ;; ret (x ++ y)) w.
Proof.
  revert w. induction l1 as [|a l1 IH]; intros w; cbn [mapM app].
  - unfold bind at 1, ret at 1. unfold bind, ret.
    destruct (mapM f l2 w) as [[ys|e|] w']; reflexivity.
  - unfold bind, ret in *.
    destruct (f a w) as [[y|e|] w1]; try reflexivity.
    rewrite IH.
    destruct (mapM f l1 w1) as [[ys|e|] w2]; try reflexivity.
    destruct (mapM f l2 w2) as [[zs|e|] w3]; reflexivity.
Qed.

Section Fanout.

Variable env : Env.

(** The loop of the fan-out calls [create_alert] once for each expanded
    recipient, in order, and appends the alerts. *)
Lemma fanout_loop_mapM rs from_ subject_ body path prio created w :
  fanout_loop env (map JStr rs) from_ subject_ body path prio created w =
  (new <- mapM (fun r => create_alert env (JStr r) from_ subject_ body
                                      path prio)
               (flat_map expand_recipient rs) ;;
   ret (created ++ new)) w.
Proof.
  revert created w. induction rs as [|r rs IH]; intros created w.
  - cbn. rewrite app_nil_r. reflexivity.
  - cbn [map fanout_loop flat_map py_upper]. rewrite bind_lift_ok.
    replace ((new <- mapM (fun r0 => create_alert env (JStr r0) from_ subject_
                                       body path prio)
                       (expand_recipient r ++ flat_map expand_recipient rs) ;;
              ret (created ++ new)) w)
      with (match mapM (fun r0 => create_alert env (JStr r0) from_ subject_
                                    body path prio)
                       (expand_recipient r ++ flat_map expand_recipient rs) w
            with
            | (Ok new, w') => (Ok (created ++ new), w')
            | (Raise e, w') => (Raise e, w')
            | (Untyped, w') => (Untyped, w')
            end) by reflexivity.
    rewrite mapM_app.
    unfold expand_recipient at 1. unfold broadcast_agents.
    destruct (str_in (upper r) ["ALL"; "TEAM_BRAIN"]).
    + unfold bind, ret.
      destruct (mapM _ _ w) as [[new|e|] w1]; try reflexivity.
      rewrite IH. unfold bind, ret.
      destruct (mapM _ _ w1) as [[n2|e|] w2]; try reflexivity.
      rewrite app_assoc. reflexivity.
    + cbn [mapM]. unfold bind, ret.
      destruct (create_alert env (JStr r) from_ subject_ body path prio w)
        as [[a|e|] w1]; try reflexivity.
      rewrite IH. unfold bind, ret.
      destruct (mapM _ _ w1) as [[n2|e|] w2]; try reflexivity.
      rewrite <- app_assoc. reflexivity.
Qed.

(** What a returned alert says about the call that made it. *)
Lemma create_alert_result r from_ subject_ content sf prio w a w' :
  create_alert env (JStr r) from_ subject_ content sf prio w = (Ok a, w') ->
  to_agent a = normalize_agent (upper r) /\ source_file a = sf.
Proof.
  destruct from_ as [| | | | f | |]; try discriminate.
  destruct prio as [| | | | p | |]; try discriminate.
  destruct (_extract_preview env content) as [pv|e|] eqn:Hp.
  - rewrite (create_alert_eq env _ _ _ _ _ _ _ _ Hp). cbv zeta.
    destruct (fst (load_outcome _ _)) as [alerts|e|]; try discriminate.
    destruct (str_in sf (map source_file alerts)); intros [= <- _];
      split; reflexivity.
  - rewrite create_alert_no_preview by congruence. rewrite Hp. discriminate.
  - rewrite create_alert_no_preview by congruence. rewrite Hp. discriminate.
Qed.

Lemma mapM_create_alert_result rs from_ subject_ content sf prio w alerts w' :
  mapM (fun r => create_alert env (JStr r) from_ subject_ content sf prio)
       rs w = (Ok alerts, w') ->
  map to_agent alerts = map (fun r => normalize_agent (upper r)) rs /\
  Forall (fun a => source_file a = sf) alerts.
Proof.
  revert w alerts w'.
  induction rs as [|r rs IH]; intros w alerts w'; cbn [mapM].
  - intros [= <- _]. split; [reflexivity | constructor].
  - unfold bind at 1.
    destruct (create_alert env (JStr r) from_ subject_ content sf prio w)
      as [[a|e|] w1] eqn:Hc; try discriminate.
    unfold bind at 1.
    destruct (mapM _ rs w1) as [[l|e|] w2] eqn:Hm; try discriminate.
    intros [= <- _].
    destruct (create_alert_result _ _ _ _ _ _ _ _ _ Hc) as [Hto Hsf].
    destruct (IH _ _ _ Hm) as [IH1 IH2].
    cbn [map]. split; [congruence | constructor; assumption].
Qed.

(** One call on a world whose mailboxes load returns, and the mailboxes
    still load afterwards. *)
Lemma create_alert_keeps_loadable r f subject_ content sf p w pv :
  _extract_preview env content = Ok pv ->
  all_loadable env w ->
  exists a w',
    create_alert env (JStr r) (JStr f) subject_ content sf (JStr p) w =
    (Ok a, w') /\ all_loadable env w'.
Proof.
  intros Hp Hall.
  rewrite (create_alert_eq env _ _ _ _ _ _ _ _ Hp). cbv zeta.
  destruct (Hall (normalize_agent (upper r))) as [alerts ->].
  destruct (str_in sf (map source_file alerts)).
  - do 2 eexists. split; [reflexivity|]. exact Hall.
  - do 2 eexists. split; [reflexivity|].
    intros agent. cbn [fs].
    destruct (decide (_get_alert_file env (normalize_agent (upper r)) =
                      _get_alert_file env agent)) as [E|E].
    + rewrite E, lookup_insert_eq. cbn [load_outcome fst].
      rewrite decode_mailbox_doc. eauto.
    + rewrite lookup_insert_ne by assumption. apply Hall.
Qed.

Lemma mapM_create_alert_returns rs f subject_ content sf p w pv :
  _extract_preview env content = Ok pv ->
  all_loadable env w ->
  exists alerts w',
    mapM (fun r => create_alert env (JStr r) (JStr f) subject_ content sf
                                (JStr p)) rs w = (Ok alerts, w') /\
    length alerts = length rs /\ all_loadable env w'.
Proof.
  intros Hp. revert w. induction rs as [|r rs IH]; intros w Hall; cbn [mapM].
  - exists [], w. auto.
  - destruct (create_alert_keeps_loadable r f subject_ content sf p w pv
                Hp Hall) as (a & w1 & Hc & Hall1).
    destruct (IH w1 Hall1) as (l & w2 & Hm & Hlen & Hall2).
    exists (a :: l), w2. unfold bind at 1. rewrite Hc.
    unfold bind at 1. rewrite Hm. cbn [length]. auto.
Qed.

End Fanout.

Lemma bind_ret_id {A} (m : M A) w : (x <- m ;; ret x) w = m w.
Proof. unfold bind, ret. destruct (m w) as [[a|e|] w']; reflexivity. Qed.

Section FanoutSpec.

Variable env : Env.

(** The fan-out on a message whose [to] and [cc] are well formed. *)
Lemma fanout_eq message_path w d tos ccs :
  fs w !! message_path = Some (Doc (JObj d)) ->
  recipient_list (dict_get "to" d) = Some tos ->
  recipient_list (dict_get "cc" d) = Some ccs ->
  create_alerts_from_synapse_message env message_path w =
  mapM (fun r =>
          create_alert env (JStr r)
            (dict_get_default "from" (JStr "UNKNOWN") d)
            (dict_get_default "subject" (JStr "No Subject") d)
            (dict_get_default "body"
               (dict_get_default "content" (JStr "") d) d)
            message_path
            (dict_get_default "priority" (JStr "NORMAL") d))
       (flat_map expand_recipient (tos ++ ccs)) w.
Proof.
  intros Hf Hto Hcc. unfold create_alerts_from_synapse_message.
  erewrite bind_ok
    by (unfold try_except, bind, json_load; rewrite Hf; reflexivity).
  cbn [py_get]. rewrite !bind_lift_ok.
  rewrite (recipient_list_wrap "to" d tos Hto).
  rewrite (recipient_list_wrap "cc" d ccs Hcc).
  cbn [py_extend py_iter]. rewrite !bind_lift_ok.
  rewrite <- map_app, fanout_loop_mapM.
  cbn [app]. apply bind_ret_id.
Qed.

(** C5. For a message file holding an object whose [to] and [cc] are
    each absent, a string or a list of strings:
    - the fan-out is the sequence of [create_alert] calls, one for each
      agent of [FORGE, ATLAS, CLIO, NEXUS, IRIS, PORTER] where a
      recipient upper-cases to [ALL] or [TEAM_BRAIN] and one for the
      recipient itself otherwise, over the recipients of [to] followed by
      those of [cc], in that order;
    - the list it returns has one alert for each of these calls, in
      order, addressed to the (normalised) recipient and carrying the
      message path;
    - it does return when [from] and [priority] are strings, the body
      has a preview and the mailboxes of the world load. *)
Theorem fanout_expands_recipients message_path w d tos ccs :
  fs w !! message_path = Some (Doc (JObj d)) ->
  recipient_list (dict_get "to" d) = Some tos ->
  recipient_list (dict_get "cc" d) = Some ccs ->
  let from_ := dict_get_default "from" (JStr "UNKNOWN") d in
  let subject_ := dict_get_default "subject" (JStr "No Subject") d in
  let body :=
    dict_get_default "body" (dict_get_default "content" (JStr "") d) d in
  let prio := dict_get_default "priority" (JStr "NORMAL") d in
  let recipients := flat_map expand_recipient (tos ++ ccs) in
  create_alerts_from_synapse_message env message_path w =
  mapM (fun r => create_alert env (JStr r) from_ subject_ body message_path
                              prio) recipients w /\
  (forall alerts w',
     create_alerts_from_synapse_message env message_path w = (Ok alerts, w') ->
     map to_agent alerts =
     map (fun r => normalize_agent (upper r)) recipients /\
     Forall (fun a => source_file a = message_path) alerts) /\
  (forall f p pv,
     from_ = JStr f -> prio = JStr p -> _extract_preview env body = Ok pv ->
     all_loadable env w ->
     exists alerts w',
       create_alerts_from_synapse_message env message_path w = (Ok alerts, w')
       /\ length alerts = length recipients).
Proof.
  intros Hf Hto Hcc from_ subject_ body prio recipients.
  pose proof (fanout_eq message_path w d tos ccs Hf Hto Hcc) as Heq.
  fold from_ subject_ body prio recipients in Heq.
  split; [exact Heq|]. split.
  - intros alerts w' Hr. rewrite Heq in Hr.
    apply (mapM_create_alert_result env _ _ _ _ _ _ _ _ _ Hr).
  - intros f p pv Ef Ep Hp Hall. rewrite Heq, Ef, Ep.
    destruct (mapM_create_alert_returns env recipients f subject_ body
                message_path p w pv Hp Hall) as (alerts & w' & Hm & Hlen & _).
    exists alerts, w'. auto.
Qed.

End FanoutSpec.

Lemma broadcast_world_loadable : all_loadable sample_env broadcast_world.
Proof.
  intros agent. exists []. unfold broadcast_world. cbn [fs].
  rewrite lookup_singleton_ne; [reflexivity|].
  unfold _get_alert_file. cbn [alerts_path sample_env]. discriminate.
Defined.

(** The broadcast test of the repository: [to = [TEAM_BRAIN]] gives one
    alert for each of the six agents, and no other. *)
Lemma fanout_expands_recipients_witness :
  exists alerts w',
    create_alerts_from_synapse_message sample_env "/synapse/broadcast.json"
      broadcast_world = (Ok alerts, w') /\
    map to_agent alerts = ["FORGE"; "ATLAS"; "CLIO"; "NEXUS"; "IRIS"; "PORTER"].
Proof.
  destruct (fanout_expands_recipients sample_env "/synapse/broadcast.json"
              broadcast_world _ ["TEAM_BRAIN"] [] eq_refl eq_refl eq_refl)
    as (_ & Hres & Hret).
  destruct (Hret "FORGE" "NORMAL" (JStr "This is Broadcast")
              eq_refl eq_refl eq_refl broadcast_world_loadable)
    as (alerts & w' & Hc & _).
  exists alerts, w'. split; [exact Hc|].
  exact (proj1 (Hres alerts w' Hc)).
Defined.

(** The priority filter on the three-alert mailbox, through the
    theorem; by evaluation, the result is the two critical alerts,
    newest first. *)
Lemma get_alerts_filters_and_sorts_witness :
  (exists result w',
     get_alerts sample_env "ATLAS" false (Some "critical") three_alert_world
     = (Ok result, w') /\
     fs w' = fs three_alert_world /\
     Permutation [alert_critical_old; alert_critical_new] result /\
     StronglySorted newer_first result) /\
  fst (get_alerts sample_env "ATLAS" false (Some "critical") three_alert_world)
  = Ok [alert_critical_new; alert_critical_old].
Proof.
  split; [|vm_compute; reflexivity].
  destruct (get_alerts_filters_and_sorts sample_env "ATLAS" false
              (Some "critical") three_alert_world
              [alert_normal; alert_critical_old; alert_critical_new] eq_refl)
    as [(result & w' & Hg & Hfs & Hperm & Hsorted & _) _].
  exists result, w'. repeat split; assumption.
Defined.

(** C9 as the specification words it fails for the empty priority
    string: it is not [None], no alert has the priority [""], and yet
    [get_alerts] returns every alert. *)
Lemma get_alerts_empty_priority_counterexample :
  fst (get_alerts sample_env "ATLAS" false (Some "") three_alert_world)
  = Ok [alert_critical_new; alert_critical_old; alert_normal] /\
  List.filter (spec_selected false (Some ""))
    [alert_normal; alert_critical_old; alert_critical_new] = [].
Proof. split; vm_compute; reflexivity. Qed.

(** * Further properties of the mailbox store *)

(** ** Saving and loading *)

Section Store.

Variable env : Env.

(** X2. A missing mailbox file and one that is UTF-8 text but not JSON
    both load as the empty mailbox; only the second prints a warning.  A
    file that is not UTF-8 text is not recovered: the load raises
    [UnicodeDecodeError], without a warning.  None of the three changes
    a file. *)
Theorem load_alerts_recovers agent w :
  (fs w !! _get_alert_file env agent = None ->
   _load_alerts env agent w = (Ok [], w)) /\
  (fs w !! _get_alert_file env agent = Some NotJson ->
   _load_alerts env agent w =
   (Ok [], mkWorld (fs w) (ticks w)
                   (out w ++ [PrintWarning agent JSONDecodeError]))) /\
  (fs w !! _get_alert_file env agent = Some NotUtf8 ->
   _load_alerts env agent w = (Raise UnicodeDecodeError, w)).
Proof.
  split; [|split].
  - apply _load_alerts_missing.
  - apply _load_alerts_not_json.
  - apply _load_alerts_not_utf8.
Qed.

End Store.

Lemma load_alerts_recovers_witness :
  _load_alerts sample_env "ATLAS" empty_world = (Ok [], empty_world) /\
  _load_alerts sample_env "ATLAS"
    (world_with_mailbox sample_env "ATLAS" NotJson) =
  (Ok [], mkWorld (fs (world_with_mailbox sample_env "ATLAS" NotJson)) 0
            [PrintWarning "ATLAS" JSONDecodeError]) /\
  _load_alerts sample_env "ATLAS"
    (world_with_mailbox sample_env "ATLAS" NotUtf8) =
  (Raise UnicodeDecodeError, world_with_mailbox sample_env "ATLAS" NotUtf8).
Proof.
  split; [|split].
  - apply (proj1 (load_alerts_recovers sample_env "ATLAS" empty_world)).
    reflexivity.
  - exact (proj1 (proj2 (load_alerts_recovers sample_env "ATLAS"
                           (world_with_mailbox sample_env "ATLAS" NotJson)))
             (lookup_singleton_eq _ _)).
  - exact (proj2 (proj2 (load_alerts_recovers sample_env "ATLAS"
                           (world_with_mailbox sample_env "ATLAS" NotUtf8)))
             (lookup_singleton_eq _ _)).
Defined.

(** ** The file of a mailbox *)

Lemma upper_ascii_idem c : upper_ascii (upper_ascii c) = upper_ascii c.
Proof.
  destruct c as [[|] [|] [|] [|] [|] [|] [|] [|]]; reflexivity.
Qed.

Lemma upper_idem s : upper (upper s) = upper s.
Proof.
  induction s as [|c s IH]; [reflexivity|].
  cbn [upper]. rewrite upper_ascii_idem, IH. reflexivity.
Qed.

Lemma str_replace_space s :
  str_replace " " "_" s = str_map space_to_underscore s.
Proof.
  unfold str_replace. induction s as [|c s IH]; [reflexivity|].
  cbn [replace_from str_map String.prefix]. unfold space_to_underscore.
  destruct (Ascii.eqb_spec c " "%char) as [->|Hc].
  - destruct (ascii_dec " " " "); [|congruence].
    replace (String.prefix "" s) with true by (destruct s; reflexivity).
    cbn [String.length Nat.sub]. rewrite append_cons. f_equal. exact IH.
  - destruct (ascii_dec " " c); [congruence|]. f_equal. exact IH.
Qed.

Lemma upper_space_to_underscore c :
  upper_ascii (space_to_underscore c) = space_to_underscore (upper_ascii c).
Proof.
  destruct c as [[|] [|] [|] [|] [|] [|] [|] [|]]; reflexivity.
Qed.

Lemma space_to_underscore_idem c :
  space_to_underscore (space_to_underscore c) = space_to_underscore c.
Proof.
  destruct c as [[|] [|] [|] [|] [|] [|] [|] [|]]; reflexivity.
Qed.

Lemma upper_str_map_space s :
  upper (str_map space_to_underscore s) =
  str_map space_to_underscore (upper s).
Proof.
  induction s as [|c s IH]; [reflexivity|].
  cbn [upper str_map]. rewrite upper_space_to_underscore, IH. reflexivity.
Qed.

Lemma str_map_space_idem s :
  str_map space_to_underscore (str_map space_to_underscore s) =
  str_map space_to_underscore s.
Proof.
  induction s as [|c s IH]; [reflexivity|].
  cbn [str_map]. rewrite space_to_underscore_idem, IH. reflexivity.
Qed.

Section AlertFile.

Variable env : Env.

(** X3. The mailbox file does not depend on the case of the agent name
    nor on whether words are separated by spaces or underscores: an
    agent name, its upper-case form and its form with underscores for
    spaces all name the same file. *)
Theorem alert_file_ignores_case_and_spaces agent :
  _get_alert_file env (upper agent) = _get_alert_file env agent /\
  _get_alert_file env (str_replace " " "_" agent) = _get_alert_file env agent.
Proof.
  unfold _get_alert_file. split.
  - rewrite upper_idem. reflexivity.
  - rewrite !str_replace_space, upper_str_map_space, str_map_space_idem.
    reflexivity.
Qed.

End AlertFile.

(** ** Clearing a mailbox *)

Lemma filter_length_split {A} (f : A -> bool) l :
  length l = length (List.filter f l) +
             length (List.filter (fun a => negb (f a)) l).
Proof.
  induction l as [|a l IH]; [reflexivity|]. cbn [List.filter].
  destruct (f a); cbn [negb length]; lia.
Qed.

Lemma kept_alerts_length keep_unread alerts :
  length (kept_alerts keep_unread alerts) <= length alerts.
Proof.
  destruct keep_unread; cbn [kept_alerts]; [apply List.filter_length_le|].
  cbn. lia.
Qed.

Lemma filter_unread_idem alerts :
  List.filter (fun a => negb (read a))
    (List.filter (fun a => negb (read a)) alerts) =
  List.filter (fun a => negb (read a)) alerts.
Proof.
  rewrite filter_filter_and. apply List.filter_ext.
  intros a. destruct (negb (read a)); reflexivity.
Qed.

Lemma filter_unread_set_read alerts :
  List.filter (fun a => negb (read a)) (map set_read alerts) = [].
Proof. induction alerts as [|a l IH]; [reflexivity | exact IH]. Qed.

Section Clear.

Variable env : Env.

(** The run of [clear_alerts] on a mailbox that loads. *)
Lemma clear_alerts_eq agent keep_unread w alerts :
  fst (_load_alerts env agent w) = Ok alerts ->
  let kept := kept_alerts keep_unread alerts in
  let n := length alerts - length kept in
  let lo := load_outcome agent (fs w !! _get_alert_file env agent) in
  clear_alerts env agent keep_unread w =
  (Ok n,
   mkWorld (<[_get_alert_file env agent :=
                Doc (mailbox_doc agent (now_iso env (ticks w)) kept)]> (fs w))
           (S (ticks w))
           ((out w ++ snd lo) ++
            (if Nat.ltb 0 n then [PrintCleared n agent] else []))).
Proof.
  intros Hl kept n lo. rewrite load_fst in Hl.
  unfold clear_alerts, bind at 1. rewrite _load_alerts_eq. rewrite Hl.
  fold (kept_alerts keep_unread alerts). fold kept. fold n.
  unfold bind at 1. rewrite _save_alerts_eq. cbn [fs ticks out].
  unfold bind at 1. fold lo.
  destruct (Nat.ltb 0 n); cbn; rewrite ?app_nil_r; reflexivity.
Qed.

Lemma clear_alerts_run agent keep_unread w alerts :
  fst (_load_alerts env agent w) = Ok alerts ->
  exists w',
    clear_alerts env agent keep_unread w =
    (Ok (length alerts - length (kept_alerts keep_unread alerts)), w') /\
    _load_alerts env agent w' = (Ok (kept_alerts keep_unread alerts), w').
Proof.
  intros Hl. eexists. split; [apply (clear_alerts_eq _ _ _ _ Hl)|].
  rewrite _load_alerts_eq. cbn [fs ticks out].
  rewrite lookup_insert_eq. cbn [load_outcome fst snd].
  rewrite decode_mailbox_doc, app_nil_r. reflexivity.
Qed.

(** X4. On a mailbox that loads, [clear_alerts] saves the alerts it
    keeps (the next load returns them) and returns the number it
    removed: with [keep_unread] the unread alerts stay, in load order,
    and the count is the number of read alerts; without it nothing stays
    and the count is the size of the mailbox. *)
Theorem clear_alerts_removes_and_counts agent keep_unread w alerts :
  fst (_load_alerts env agent w) = Ok alerts ->
  exists n kept w',
    clear_alerts env agent keep_unread w = (Ok n, w') /\
    _load_alerts env agent w' = (Ok kept, w') /\
    n + length kept = length alerts /\
    (if keep_unread
     then kept = List.filter (fun a => negb (read a)) alerts /\
          n = length (List.filter read alerts)
     else kept = [] /\ n = length alerts).
Proof.
  intros Hl.
  destruct (clear_alerts_run agent keep_unread w alerts Hl) as (w' & Hc & Hl').
  do 3 eexists. split; [exact Hc|]. split; [exact Hl'|].
  pose proof (kept_alerts_length keep_unread alerts) as Hle.
  split; [lia|].
  destruct keep_unread; cbn [kept_alerts] in *.
  - split; [reflexivity|].
    rewrite (filter_length_split read alerts). lia.
  - split; [reflexivity|]. cbn. lia.
Qed.

(** X5. Clearing twice in the same mode removes nothing the second time:
    the second call returns 0 and saves the same alerts again. *)
Theorem clear_alerts_twice agent keep_unread w alerts :
  fst (_load_alerts env agent w) = Ok alerts ->
  exists n w1 w2 kept,
    clear_alerts env agent keep_unread w = (Ok n, w1) /\
    _load_alerts env agent w1 = (Ok kept, w1) /\
    clear_alerts env agent keep_unread w1 = (Ok 0, w2) /\
    _load_alerts env agent w2 = (Ok kept, w2).
Proof.
  intros Hl.
  destruct (clear_alerts_run agent keep_unread w alerts Hl) as (w1 & Hc & Hl1).
  assert (Hl1' : fst (_load_alerts env agent w1) =
                 Ok (kept_alerts keep_unread alerts))
    by (rewrite Hl1; reflexivity).
  destruct (clear_alerts_run agent keep_unread w1 _ Hl1') as (w2 & Hc2 & Hl2).
  assert (Hk : kept_alerts keep_unread (kept_alerts keep_unread alerts) =
               kept_alerts keep_unread alerts).
  { destruct keep_unread; cbn [kept_alerts];
      [apply filter_unread_idem | reflexivity]. }
  rewrite Hk, Nat.sub_diag in Hc2. rewrite Hk in Hl2.
  do 4 eexists. split; [exact Hc|]. split; [exact Hl1|].
  split; [exact Hc2 | exact Hl2].
Qed.

(** X6. Marking every alert read and then clearing with [keep_unread]
    empties the mailbox: [mark_read] returns the number of unread
    alerts, [clear_alerts] the size of the mailbox, and the next load is
    empty. *)
Theorem mark_all_then_clear_read agent w alerts :
  fst (_load_alerts env agent w) = Ok alerts ->
  exists w1 w2,
    mark_read env agent None w = (Ok (count_unread alerts), w1) /\
    clear_alerts env agent true w1 = (Ok (length alerts), w2) /\
    _load_alerts env agent w2 = (Ok [], w2).
Proof.
  intros Hl.
  destruct (mark_read_run env agent None w alerts Hl) as (w1 & Hm & Hl1).
  rewrite mark_loop_all in Hm, Hl1. cbn [fst snd] in Hm, Hl1.
  assert (Hl1' : fst (_load_alerts env agent w1) = Ok (map set_read alerts))
    by (rewrite Hl1; reflexivity).
  destruct (clear_alerts_run agent true w1 _ Hl1') as (w2 & Hc & Hl2).
  cbn [kept_alerts] in Hc, Hl2.
  rewrite filter_unread_set_read in Hc, Hl2.
  cbn [length] in Hc. rewrite Nat.sub_0_r, length_map in Hc.
  exists w1, w2. auto.
Qed.

End Clear.

Lemma clear_alerts_removes_and_counts_witness :
  exists w',
    clear_alerts sample_env "ATLAS" true three_alert_world = (Ok 1, w') /\
    _load_alerts sample_env "ATLAS" w' =
    (Ok [alert_normal; alert_critical_old], w').
Proof.
  destruct (clear_alerts_removes_and_counts sample_env "ATLAS" true
              three_alert_world
              [alert_normal; alert_critical_old; alert_critical_new] eq_refl)
    as (n & kept & w' & Hc & Hl & _ & -> & ->).
  exists w'. split; [exact Hc | exact Hl].
Defined.

Lemma clear_alerts_twice_witness :
  exists n w1 w2 kept,
    clear_alerts sample_env "ATLAS" false three_alert_world = (Ok n, w1) /\
    _load_alerts sample_env "ATLAS" w1 = (Ok kept, w1) /\
    clear_alerts sample_env "ATLAS" false w1 = (Ok 0, w2) /\
    _load_alerts sample_env "ATLAS" w2 = (Ok kept, w2).
Proof.
  exact (clear_alerts_twice sample_env "ATLAS" false three_alert_world
           [alert_normal; alert_critical_old; alert_critical_new] eq_refl).
Defined.

Lemma mark_all_then_clear_read_witness :
  exists w1 w2,
    mark_read sample_env "ATLAS" None three_alert_world = (Ok 2, w1) /\
    clear_alerts sample_env "ATLAS" true w1 = (Ok 3, w2) /\
    _load_alerts sample_env "ATLAS" w2 = (Ok [], w2).
Proof.
  exact (mark_all_then_clear_read sample_env "ATLAS" three_alert_world
           [alert_normal; alert_critical_old; alert_critical_new] eq_refl).
Defined.

(** ** Counting, and what the mutators do to the files *)

Lemma selected_unread_filter alerts :
  List.filter (selected true None) alerts =
  List.filter (fun a => negb (read a)) alerts.
Proof.
  apply List.filter_ext. intros a. unfold selected.
  rewrite andb_true_r. reflexivity.
Qed.

Lemma selected_all_filter alerts :
  List.filter (selected false None) alerts = alerts.
Proof. apply filter_all. reflexivity. Qed.

Section Counting.

Variable env : Env.

Lemma get_alert_count_eq agent unread_only w alerts :
  fst (_load_alerts env agent w) = Ok alerts ->
  get_alert_count env agent unread_only w =
  (Ok (if unread_only then count_unread alerts else length alerts),
   snd (_load_alerts env agent w)).
Proof.
  intros Hl. unfold get_alert_count, bind.
  rewrite (get_alerts_eq env _ _ _ _ _ Hl). unfold ret. do 2 f_equal.
  rewrite <- (Permutation_length (sort_desc_perm _)).
  destruct unread_only.
  - rewrite selected_unread_filter. reflexivity.
  - rewrite selected_all_filter. reflexivity.
Qed.

(** X7. On a mailbox that loads, [get_alert_count] is the number of
    unread alerts, or with [unread_only] off the size of the mailbox;
    and it is the length of what [get_alerts] returns for the same
    filter. *)
Theorem get_alert_count_counts agent unread_only w alerts :
  fst (_load_alerts env agent w) = Ok alerts ->
  fst (get_alert_count env agent unread_only w) =
  Ok (if unread_only then count_unread alerts else length alerts) /\
  exists result,
    fst (get_alerts env agent unread_only None w) = Ok result /\
    fst (get_alert_count env agent unread_only w) = Ok (length result).
Proof.
  intros Hl. rewrite (get_alert_count_eq _ _ _ _ Hl). split; [reflexivity|].
  rewrite (get_alerts_eq env _ _ _ _ _ Hl). eexists. split; [reflexivity|].
  cbn [fst]. f_equal.
  rewrite <- (Permutation_length (sort_desc_perm _)).
  destruct unread_only.
  - rewrite selected_unread_filter. reflexivity.
  - rewrite selected_all_filter. reflexivity.
Qed.

(** X8. After [mark_read] without an id no unread alert is left: it
    returns the number of alerts that were unread, the unread query is
    then empty, the unread count 0, and a second [mark_read] returns 0
    while the mailbox keeps all its alerts. *)
Theorem mark_read_all_leaves_no_unread agent w alerts :
  fst (_load_alerts env agent w) = Ok alerts ->
  exists w1 w2,
    mark_read env agent None w = (Ok (count_unread alerts), w1) /\
    fst (get_alerts env agent true None w1) = Ok [] /\
    fst (get_alert_count env agent true w1) = Ok 0 /\
    fst (get_alert_count env agent false w1) = Ok (length alerts) /\
    mark_read env agent None w1 = (Ok 0, w2).
Proof.
  intros Hl.
  destruct (mark_read_run env agent None w alerts Hl) as (w1 & Hm & Hl1).
  rewrite mark_loop_all in Hm, Hl1. cbn [fst snd] in Hm, Hl1.
  assert (Hl1' : fst (_load_alerts env agent w1) = Ok (map set_read alerts))
    by (rewrite Hl1; reflexivity).
  destruct (mark_read_run env agent None w1 _ Hl1') as (w2 & Hm2 & _).
  rewrite mark_loop_all in Hm2. cbn [snd] in Hm2.
  unfold count_unread in Hm2 at 1.
  rewrite filter_unread_set_read in Hm2. cbn [length] in Hm2.
  exists w1, w2. split; [exact Hm|].
  rewrite (get_alerts_eq env _ _ _ _ _ Hl1').
  rewrite !(get_alert_count_eq _ _ _ _ Hl1'). cbn [fst].
  rewrite selected_unread_filter, filter_unread_set_read.
  unfold count_unread. rewrite filter_unread_set_read, length_map.
  auto.
Qed.

(** X1. When [_save_alerts] returns, [_load_alerts] reads back what it
    wrote: the same alerts, field for field and in the same order,
    without a warning.  The [alert_count] and [unread_count] fields of
    the file are the numbers [get_alert_count] then reports for all
    alerts and for the unread ones.  The save reads the clock once,
    prints nothing and touches no other file.  (That the save returns
    is a hypothesis: the program's write can fail where the model's
    cannot.) *)
Theorem save_then_load_round_trip agent alerts w :
  let w' := snd (_save_alerts env agent alerts w) in
  fst (_save_alerts env agent alerts w) = Ok tt ->
  _load_alerts env agent w' = (Ok alerts, w') /\
  (exists d n_all n_unread,
     fs w' !! _get_alert_file env agent = Some (Doc (JObj d)) /\
     dict_get "alert_count" d = Some (JInt (Z.of_nat n_all)) /\
     dict_get "unread_count" d = Some (JInt (Z.of_nat n_unread)) /\
     fst (get_alert_count env agent false w') = Ok n_all /\
     fst (get_alert_count env agent true w') = Ok n_unread) /\
  delete (_get_alert_file env agent) (fs w') =
  delete (_get_alert_file env agent) (fs w) /\
  ticks w' = S (ticks w) /\ out w' = out w.
Proof.
  cbv zeta. intros _.
  pose proof (_load_after_save env agent alerts w) as Hl.
  split; [exact Hl|].
  assert (Hl' : fst (_load_alerts env agent
                       (snd (_save_alerts env agent alerts w))) = Ok alerts)
    by (rewrite Hl; reflexivity).
  split.
  - rewrite !(get_alert_count_eq _ _ _ _ Hl').
    rewrite _save_alerts_eq. cbn [snd fs fst].
    eexists _, (length alerts), (count_unread alerts).
    split; [apply lookup_insert_eq|].
    repeat split; reflexivity.
  - rewrite _save_alerts_eq. cbn [snd fs ticks out].
    split; [apply delete_insert_eq | split; reflexivity].
Qed.

(** X9. Unlike the queries, [mark_read] and [clear_alerts] write the
    mailbox file even when there is nothing to load: for an agent whose
    file is missing, or is UTF-8 text but not JSON, both return 0 and,
    provided the write returns, leave a file holding the empty mailbox
    (the file that was not JSON is overwritten).  A file that is not
    UTF-8 text is not recovered: both raise [UnicodeDecodeError] and
    leave the file and the console as they were. *)
Theorem mutators_write_empty_mailbox agent alert_id keep_unread w :
  (fs w !! _get_alert_file env agent = None \/
   fs w !! _get_alert_file env agent = Some NotJson ->
   fst (_save_alerts env agent [] w) = Ok tt ->
   (exists w1,
      mark_read env agent alert_id w = (Ok 0, w1) /\
      fs w1 !! _get_alert_file env agent =
      Some (Doc (mailbox_doc agent (now_iso env (ticks w)) [])) /\
      _load_alerts env agent w1 = (Ok [], w1)) /\
   (exists w2,
      clear_alerts env agent keep_unread w = (Ok 0, w2) /\
      fs w2 !! _get_alert_file env agent =
      Some (Doc (mailbox_doc agent (now_iso env (ticks w)) [])) /\
      _load_alerts env agent w2 = (Ok [], w2))) /\
  (fs w !! _get_alert_file env agent = Some NotUtf8 ->
   mark_read env agent alert_id w = (Raise UnicodeDecodeError, w) /\
   clear_alerts env agent keep_unread w = (Raise UnicodeDecodeError, w)).
Proof.
  split.
  - intros H _.
    assert (Hl : fst (_load_alerts env agent w) = Ok []).
    { rewrite load_fst. destruct H as [-> | ->]; reflexivity. }
    split.
    + destruct (mark_read_run env agent alert_id w [] Hl) as (w1 & Hm & Hl1).
      assert (E : mark_loop alert_id [] 0 = ([], 0)) by reflexivity.
      rewrite E in Hm, Hl1. cbn [fst snd] in Hm, Hl1.
      exists w1. split; [exact Hm|]. split; [|exact Hl1].
      rewrite (mark_read_eq env _ _ _ _ Hl) in Hm. rewrite E in Hm.
      injection Hm as <-. cbn [fs fst]. apply lookup_insert_eq.
    + destruct (clear_alerts_run env agent keep_unread w [] Hl)
        as (w2 & Hc & Hl2).
      assert (E : kept_alerts keep_unread [] = [])
        by (destruct keep_unread; reflexivity).
      rewrite E in Hc, Hl2. cbn [length Nat.sub] in Hc.
      exists w2. split; [exact Hc|]. split; [|exact Hl2].
      rewrite (clear_alerts_eq env _ _ _ _ Hl) in Hc. rewrite E in Hc.
      injection Hc as <-. cbn [fs]. apply lookup_insert_eq.
  - intros H. split.
    + unfold mark_read, bind at 1.
      rewrite (_load_alerts_not_utf8 env agent w H). reflexivity.
    + unfold clear_alerts, bind at 1.
      rewrite (_load_alerts_not_utf8 env agent w H). reflexivity.
Qed.

(** X10. [create_alert], [mark_read] and [clear_alerts] write at most
    one file, the mailbox of the agent they are called for: every other
    file is as before, whatever the arguments and whether they return or
    raise. *)
Theorem mutators_touch_one_file
    to_ from_ subject_ content sf prio agent alert_id keep_unread w :
  delete (_get_alert_file env (normalize_agent (upper to_)))
    (fs (snd (create_alert env (JStr to_) from_ subject_ content sf prio w))) =
  delete (_get_alert_file env (normalize_agent (upper to_))) (fs w) /\
  delete (_get_alert_file env agent)
    (fs (snd (mark_read env agent alert_id w))) =
  delete (_get_alert_file env agent) (fs w) /\
  delete (_get_alert_file env agent)
    (fs (snd (clear_alerts env agent keep_unread w))) =
  delete (_get_alert_file env agent) (fs w).
Proof.
  split; [|split].
  - destruct from_ as [| | | | f | |]; try reflexivity.
    destruct prio as [| | | | p | |]; try reflexivity.
    destruct (_extract_preview env content) as [pv|e|] eqn:Hp.
    + rewrite (create_alert_eq env _ _ _ _ _ _ _ _ Hp). cbv zeta.
      destruct (fst (load_outcome _ _)) as [alerts|e|]; try reflexivity.
      destruct (str_in sf (map source_file alerts)); [reflexivity|].
      cbn [snd fs]. apply delete_insert_eq.
    + rewrite create_alert_no_preview by congruence. reflexivity.
    + rewrite create_alert_no_preview by congruence. reflexivity.
  - destruct (fst (_load_alerts env agent w)) as [alerts|e|] eqn:Hl.
    + rewrite (mark_read_eq env _ _ _ _ Hl). cbn [snd fs].
      apply delete_insert_eq.
    + unfold mark_read, bind at 1. rewrite _load_alerts_eq.
      rewrite load_fst in Hl. rewrite Hl. reflexivity.
    + unfold mark_read, bind at 1. rewrite _load_alerts_eq.
      rewrite load_fst in Hl. rewrite Hl. reflexivity.
  - destruct (fst (_load_alerts env agent w)) as [alerts|e|] eqn:Hl.
    + rewrite (clear_alerts_eq env _ _ _ _ Hl). cbn [snd fs].
      apply delete_insert_eq.
    + unfold clear_alerts, bind at 1. rewrite _load_alerts_eq.
      rewrite load_fst in Hl. rewrite Hl. reflexivity.
    + unfold clear_alerts, bind at 1. rewrite _load_alerts_eq.
      rewrite load_fst in Hl. rewrite Hl. reflexivity.
Qed.

(** X11. A call for a source file the mailbox does not hold yet appends
    the new, unread alert at the end of the mailbox and keeps the alerts
    that were there, in order; the unread count grows by one; the bell
    rings when it is enabled, just before the line that reports the
    creation. *)
Theorem create_alert_appends to_ from_ subject_ content sf prio w alerts pv :
  let box := normalize_agent (upper to_) in
  fst (_load_alerts env box w) = Ok alerts ->
  _extract_preview env content = Ok pv ->
  ~ In sf (map source_file alerts) ->
  exists a w',
    create_alert env (JStr to_) (JStr from_) subject_ content sf (JStr prio) w
    = (Ok a, w') /\
    _load_alerts env box w' = (Ok (alerts ++ [a]), w') /\
    read a = false /\ source_file a = sf /\ subject a = subject_ /\
    preview a = pv /\
    fst (get_alert_count env box true w') = Ok (S (count_unread alerts)) /\
    out w' =
    ((out w ++ snd (load_outcome box (fs w !! _get_alert_file env box))) ++
     (if enable_bell env then [Bell] else [])) ++
    [PrintCreated box (normalize_agent (upper from_)) subject_].
Proof.
  intros box Hl Hp Hin.
  destruct (create_alert_fresh env to_ from_ subject_ content sf prio w alerts
              pv Hl Hp Hin) as (w' & Hc & Hl' & _).
  fold box in Hl'.
  do 2 eexists. split; [exact Hc|]. split; [exact Hl'|].
  repeat (split; [reflexivity|]).
  assert (Hl'' : fst (_load_alerts env box w') =
                 Ok (alerts ++
                     [new_alert env (ticks w) to_ from_ subject_ pv sf prio]))
    by (rewrite Hl'; reflexivity).
  split.
  - rewrite (get_alert_count_eq _ _ _ _ Hl''). cbn [fst]. f_equal.
    unfold count_unread. rewrite List.filter_app, length_app.
    cbn [List.filter new_alert read negb length]. lia.
  - rewrite load_fst in Hl.
    rewrite (create_alert_eq env _ _ _ _ _ _ _ _ Hp) in Hc. cbv zeta in Hc.
    fold box in Hc. rewrite Hl in Hc.
    apply str_in_not_In in Hin. rewrite Hin in Hc.
    injection Hc as <-. reflexivity.
Qed.

End Counting.

Lemma get_alert_count_counts_witness :
  fst (get_alert_count sample_env "ATLAS" true three_alert_world) = Ok 2 /\
  fst (get_alert_count sample_env "ATLAS" false three_alert_world) = Ok 3.
Proof.
  split.
  - exact (proj1 (get_alert_count_counts sample_env "ATLAS" true
                    three_alert_world
                    [alert_normal; alert_critical_old; alert_critical_new]
                    eq_refl)).
  - exact (proj1 (get_alert_count_counts sample_env "ATLAS" false
                    three_alert_world
                    [alert_normal; alert_critical_old; alert_critical_new]
                    eq_refl)).
Defined.

Lemma mark_read_all_leaves_no_unread_witness :
  exists w1 w2,
    mark_read sample_env "ATLAS" None three_alert_world = (Ok 2, w1) /\
    fst (get_alerts sample_env "ATLAS" true None w1) = Ok [] /\
    fst (get_alert_count sample_env "ATLAS" true w1) = Ok 0 /\
    fst (get_alert_count sample_env "ATLAS" false w1) = Ok 3 /\
    mark_read sample_env "ATLAS" None w1 = (Ok 0, w2).
Proof.
  exact (mark_read_all_leaves_no_unread sample_env "ATLAS" three_alert_world
           [alert_normal; alert_critical_old; alert_critical_new] eq_refl).
Defined.

Lemma save_then_load_round_trip_witness :
  _load_alerts sample_env "ATLAS"
    (snd (_save_alerts sample_env "ATLAS"
            [alert_normal; alert_critical_old; alert_critical_new]
            empty_world)) =
  (Ok [alert_normal; alert_critical_old; alert_critical_new],
   snd (_save_alerts sample_env "ATLAS"
          [alert_normal; alert_critical_old; alert_critical_new]
          empty_world)) /\
  fst (get_alert_count sample_env "ATLAS" true
         (snd (_save_alerts sample_env "ATLAS"
                 [alert_normal; alert_critical_old; alert_critical_new]
                 empty_world))) = Ok 2.
Proof.
  destruct (save_then_load_round_trip sample_env "ATLAS"
              [alert_normal; alert_critical_old; alert_critical_new]
              empty_world eq_refl) as (Hl & _).
  split; [exact Hl|].
  vm_compute. reflexivity.
Defined.

Lemma mutators_write_empty_mailbox_witness :
  (exists w1,
     mark_read sample_env "ATLAS" None
       (world_with_mailbox sample_env "ATLAS" NotJson) = (Ok 0, w1) /\
     _load_alerts sample_env "ATLAS" w1 = (Ok [], w1)) /\
  clear_alerts sample_env "ATLAS" false
    (world_with_mailbox sample_env "ATLAS" NotUtf8) =
  (Raise UnicodeDecodeError, world_with_mailbox sample_env "ATLAS" NotUtf8).
Proof.
  split.
  - destruct (proj1 (mutators_write_empty_mailbox sample_env "ATLAS" None false
                       (world_with_mailbox sample_env "ATLAS" NotJson))
                (or_intror (lookup_singleton_eq _ _)) eq_refl)
      as [(w1 & Hm & _ & Hl) _].
    exists w1. split; [exact Hm | exact Hl].
  - exact (proj2 (proj2 (mutators_write_empty_mailbox sample_env "ATLAS" None
                           false
                           (world_with_mailbox sample_env "ATLAS" NotUtf8))
                    (lookup_singleton_eq _ _))).
Defined.

Lemma create_alert_appends_witness :
  exists a w',
    create_alert sample_env (JStr "ATLAS") (JStr "FORGE") (JStr "Fourth")
      (JStr "Test") "/fourth.json" (JStr "LOW") three_alert_world = (Ok a, w') /\
    _load_alerts sample_env "ATLAS" w' =
    (Ok [alert_normal; alert_critical_old; alert_critical_new; a], w') /\
    fst (get_alert_count sample_env "ATLAS" true w') = Ok 3.
Proof.
  destruct (create_alert_appends sample_env "ATLAS" "FORGE" (JStr "Fourth")
              (JStr "Test") "/fourth.json" "LOW" three_alert_world
              [alert_normal; alert_critical_old; alert_critical_new]
              (JStr "Test") eq_refl eq_refl)
    as (a & w' & Hc & Hl & _ & _ & _ & _ & Hn & _).
  - cbn. intros [H|[H|[H|[]]]]; discriminate H.
  - exists a, w'. split; [exact Hc|]. split; [exact Hl | exact Hn].
Defined.

(** * Further properties of the fan-out *)

Lemma load_outcome_any_agent a b c :
  fst (load_outcome a c) = fst (load_outcome b c).
Proof. destruct c as [[| |data]|]; reflexivity. Qed.

Section FanoutMore.

Variable env : Env.

(** One call on a world whose mailboxes load: it returns the alert it
    built, the mailboxes still load, the recipient's file now holds the
    source file, files that held it still do, and no other file
    changed. *)
Lemma create_alert_step r f subject_ content sf p w pv :
  _extract_preview env content = Ok pv ->
  all_loadable env w ->
  exists w',
    create_alert env (JStr r) (JStr f) subject_ content sf (JStr p) w =
    (Ok (new_alert env (ticks w) r f subject_ pv sf p), w') /\
    all_loadable env w' /\
    file_has_source
      (fs w' !! _get_alert_file env (normalize_agent (upper r))) sf /\
    (forall q, file_has_source (fs w !! q) sf ->
               file_has_source (fs w' !! q) sf) /\
    (forall q, q <> _get_alert_file env (normalize_agent (upper r)) ->
               fs w' !! q = fs w !! q).
Proof.
  intros Hp Hall.
  set (box := normalize_agent (upper r)).
  destruct (Hall box) as [alerts Hlo].
  assert (Hl : fst (_load_alerts env box w) = Ok alerts)
    by (rewrite load_fst; exact Hlo).
  destruct (in_dec string_dec sf (map source_file alerts)) as [Hin|Hin].
  - eexists. split.
    { apply (create_alert_duplicate env _ _ _ _ _ _ _ _ _ Hl Hp Hin). }
    cbn [fs]. split; [exact Hall|]. split; [|split; auto].
    exists alerts. split; [|exact Hin].
    rewrite (load_outcome_any_agent "" box). exact Hlo.
  - destruct (create_alert_fresh env r f subject_ content sf p w alerts pv
                Hl Hp Hin) as (w' & Hc & Hl' & Hframe).
    fold box in Hl', Hframe.
    assert (Hhas : file_has_source (fs w' !! _get_alert_file env box) sf).
    { eexists. split.
      - rewrite (load_outcome_any_agent "" box), <- load_fst, Hl'.
        reflexivity.
      - rewrite map_app. apply in_or_app. right. left. reflexivity. }
    exists w'. split; [exact Hc|]. split; [|split; [exact Hhas|split]].
    + intros agent.
      destruct (decide (_get_alert_file env agent = _get_alert_file env box))
        as [E|E].
      * eexists. rewrite E, (load_outcome_any_agent agent box), <- load_fst, Hl'.
        reflexivity.
      * rewrite (Hframe _ E). apply Hall.
    + intros q Hq.
      destruct (decide (q = _get_alert_file env box)) as [->|E];
        [exact Hhas|]. rewrite (Hframe _ E). exact Hq.
    + exact Hframe.
Qed.

Lemma mapM_create_alert_step rs f subject_ content sf p w pv :
  _extract_preview env content = Ok pv ->
  all_loadable env w ->
  exists alerts w',
    mapM (fun r => create_alert env (JStr r) (JStr f) subject_ content sf
                                (JStr p)) rs w = (Ok alerts, w') /\
    all_loadable env w' /\
    Forall2 (fun r a =>
               to_agent a = normalize_agent (upper r) /\
               from_agent a = normalize_agent (upper f) /\
               subject a = subject_ /\ preview a = pv /\
               source_file a = sf /\ priority a = checked_priority p /\
               read a = false) rs alerts /\
    (forall r, In r rs ->
       file_has_source
         (fs w' !! _get_alert_file env (normalize_agent (upper r))) sf) /\
    (forall q, file_has_source (fs w !! q) sf ->
               file_has_source (fs w' !! q) sf) /\
    (forall q, (forall r, In r rs ->
                  q <> _get_alert_file env (normalize_agent (upper r))) ->
               fs w' !! q = fs w !! q).
Proof.
  intros Hp. revert w. induction rs as [|r rs IH]; intros w Hall.
  - exists [], w. cbn [mapM]. split; [reflexivity|]. split; [exact Hall|].
    split; [constructor|]. split; [intros r []|]. split; auto.
  - destruct (create_alert_step r f subject_ content sf p w pv Hp Hall)
      as (w1 & Hc & Hall1 & Hhas & Hkeep & Hframe).
    destruct (IH w1 Hall1)
      as (l & w2 & Hm & Hall2 & Hfields & Hhas2 & Hkeep2 & Hframe2).
    exists (new_alert env (ticks w) r f subject_ pv sf p :: l), w2.
    cbn [mapM]. unfold bind at 1. rewrite Hc. unfold bind at 1. rewrite Hm.
    split; [reflexivity|]. split; [exact Hall2|]. split; [|split; [|split]].
    + constructor; [|exact Hfields]. cbn. repeat split.
    + intros r' [<-|Hr]; [apply Hkeep2; exact Hhas | apply Hhas2; exact Hr].
    + intros q Hq. apply Hkeep2, Hkeep, Hq.
    + intros q Hq. rewrite Hframe2, Hframe; [reflexivity| |].
      * apply Hq. left. reflexivity.
      * intros r' Hr'. apply Hq. right. exact Hr'.
Qed.

(** Where every recipient's file holds the source file already, the
    calls return and write nothing. *)
Lemma mapM_create_alert_all_duplicates rs f subject_ content sf p w pv :
  _extract_preview env content = Ok pv ->
  (forall r, In r rs ->
     file_has_source
       (fs w !! _get_alert_file env (normalize_agent (upper r))) sf) ->
  exists alerts w',
    mapM (fun r => create_alert env (JStr r) (JStr f) subject_ content sf
                                (JStr p)) rs w = (Ok alerts, w') /\
    fs w' = fs w /\ length alerts = length rs.
Proof.
  intros Hp. revert w. induction rs as [|r rs IH]; intros w Hhas.
  - exists [], w. auto.
  - destruct (Hhas r (or_introl eq_refl)) as (alerts & Hlo & Hin).
    assert (Hl : fst (_load_alerts env (normalize_agent (upper r)) w) =
                 Ok alerts).
    { rewrite load_fst,
        (load_outcome_any_agent (normalize_agent (upper r)) ""). exact Hlo. }
    pose proof (create_alert_duplicate env r f subject_ content sf p w alerts
                  pv Hl Hp Hin) as Hc.
    set (w1 := mkWorld (fs w) (S (S (ticks w)))
                       (out w ++ [PrintInfoExists sf])) in *.
    destruct (IH w1) as (l & w2 & Hm & Hfs & Hlen).
    { intros r' Hr'. cbn [w1 fs]. apply Hhas. right. exact Hr'. }
    eexists _, w2. cbn [mapM]. unfold bind at 1. rewrite Hc.
    unfold bind at 1. rewrite Hm. split; [reflexivity|].
    split; [exact Hfs|]. cbn [length]. rewrite Hlen. reflexivity.
Qed.

(** X12. Fanning the same message out a second time writes nothing.  For
    a well-formed message (recipients as strings or lists of strings,
    [from] and [priority] strings, a body with a preview) in a world
    whose mailboxes load, and whose own path is not the path of a
    mailbox: both runs return one alert for each expanded recipient, and
    the second run leaves every file as the first one left it. *)
Theorem fanout_twice_writes_once message_path w d tos ccs f p pv :
  fs w !! message_path = Some (Doc (JObj d)) ->
  recipient_list (dict_get "to" d) = Some tos ->
  recipient_list (dict_get "cc" d) = Some ccs ->
  dict_get_default "from" (JStr "UNKNOWN") d = JStr f ->
  dict_get_default "priority" (JStr "NORMAL") d = JStr p ->
  _extract_preview env
    (dict_get_default "body" (dict_get_default "content" (JStr "") d) d)
  = Ok pv ->
  all_loadable env w ->
  (forall agent, _get_alert_file env agent <> message_path) ->
  exists alerts1 w1 alerts2 w2,
    create_alerts_from_synapse_message env message_path w = (Ok alerts1, w1) /\
    create_alerts_from_synapse_message env message_path w1 = (Ok alerts2, w2) /\
    fs w2 = fs w1 /\
    length alerts1 = length (flat_map expand_recipient (tos ++ ccs)) /\
    length alerts2 = length alerts1.
Proof.
  intros Hf Hto Hcc Ef Ep Hp Hall Hpath.
  rewrite (fanout_eq env message_path w d tos ccs Hf Hto Hcc), Ef, Ep.
  destruct (mapM_create_alert_step
              (flat_map expand_recipient (tos ++ ccs)) f
              (dict_get_default "subject" (JStr "No Subject") d)
              (dict_get_default "body"
                 (dict_get_default "content" (JStr "") d) d)
              message_path p w pv Hp Hall)
    as (alerts1 & w1 & Hm & Hall1 & Hfields & Hhas & _ & Hframe).
  assert (Hf1 : fs w1 !! message_path = Some (Doc (JObj d))).
  { rewrite Hframe; [exact Hf|]. intros r _ E. apply (Hpath _ (eq_sym E)). }
  pose proof (fanout_eq env message_path w1 d tos ccs Hf1 Hto Hcc) as Heq1.
  rewrite Ef, Ep in Heq1.
  destruct (mapM_create_alert_all_duplicates
              (flat_map expand_recipient (tos ++ ccs)) f
              (dict_get_default "subject" (JStr "No Subject") d)
              (dict_get_default "body"
                 (dict_get_default "content" (JStr "") d) d)
              message_path p w1 pv Hp Hhas)
    as (alerts2 & w2 & Hm2 & Hfs & Hlen2).
  exists alerts1, w1, alerts2, w2.
  split; [exact Hm|]. split; [rewrite Heq1; exact Hm2|]. split; [exact Hfs|].
  apply Forall2_length in Hfields. split; [lia|]. lia.
Qed.

(** X13. Every alert of a fan-out carries the fields of the message: the
    normalised [from], the subject as it is, the preview of [body] (of
    [content] when there is no body), the validated priority, the message
    path as source file, and it is unread.  Absent fields count as
    [UNKNOWN], [No Subject], the empty text and [NORMAL]. *)
Theorem fanout_alert_fields message_path w d tos ccs f p pv :
  fs w !! message_path = Some (Doc (JObj d)) ->
  recipient_list (dict_get "to" d) = Some tos ->
  recipient_list (dict_get "cc" d) = Some ccs ->
  dict_get_default "from" (JStr "UNKNOWN") d = JStr f ->
  dict_get_default "priority" (JStr "NORMAL") d = JStr p ->
  _extract_preview env
    (dict_get_default "body" (dict_get_default "content" (JStr "") d) d)
  = Ok pv ->
  all_loadable env w ->
  exists alerts w',
    create_alerts_from_synapse_message env message_path w = (Ok alerts, w') /\
    Forall2 (fun r a =>
               to_agent a = normalize_agent (upper r) /\
               from_agent a = normalize_agent (upper f) /\
               subject a = dict_get_default "subject" (JStr "No Subject") d /\
               preview a = pv /\
               source_file a = message_path /\
               priority a = checked_priority p /\
               read a = false)
            (flat_map expand_recipient (tos ++ ccs)) alerts.
Proof.
  intros Hf Hto Hcc Ef Ep Hp Hall.
  rewrite (fanout_eq env message_path w d tos ccs Hf Hto Hcc), Ef, Ep.
  destruct (mapM_create_alert_step
              (flat_map expand_recipient (tos ++ ccs)) f
              (dict_get_default "subject" (JStr "No Subject") d)
              (dict_get_default "body"
                 (dict_get_default "content" (JStr "") d) d)
              message_path p w pv Hp Hall)
    as (alerts & w' & Hm & _ & Hfields & _).
  exists alerts, w'. split; [exact Hm | exact Hfields].
Qed.

(** X14. A message object that names no recipient (no [to] and no [cc],
    or empty lists) creates nothing: the result is the empty list and
    the world is unchanged, nothing is printed. *)
Theorem fanout_without_recipients message_path w d :
  fs w !! message_path = Some (Doc (JObj d)) ->
  recipient_list (dict_get "to" d) = Some [] ->
  recipient_list (dict_get "cc" d) = Some [] ->
  create_alerts_from_synapse_message env message_path w = (Ok [], w).
Proof.
  intros Hf Hto Hcc.
  rewrite (fanout_eq env message_path w d [] [] Hf Hto Hcc). reflexivity.
Qed.

End FanoutMore.

Section FanoutPartial.

Variable env : Env.

Lemma fanout_loop_prefix rs l2 from_ subject_ body path prio created w :
  fanout_loop env (map JStr rs ++ l2) from_ subject_ body path prio created w =
  match mapM (fun r => create_alert env (JStr r) from_ subject_ body
                                    path prio)
             (flat_map expand_recipient rs) w with
  | (Ok new, w') =>
      fanout_loop env l2 from_ subject_ body path prio (created ++ new) w'
  | (Raise e, w') => (Raise e, w')
  | (Untyped, w') => (Untyped, w')
  end.
Proof.
  revert created w. induction rs as [|r rs IH]; intros created w.
  - cbn. rewrite app_nil_r. reflexivity.
  - cbn [map app fanout_loop flat_map py_upper]. rewrite bind_lift_ok.
    rewrite mapM_app.
    unfold expand_recipient at 1. unfold broadcast_agents.
    destruct (str_in (upper r) ["ALL"; "TEAM_BRAIN"]).
    + unfold bind, ret.
      destruct (mapM _ _ w) as [[new|e|] w1]; try reflexivity.
      rewrite IH.
      destruct (mapM _ _ w1) as [[n2|e|] w2]; try reflexivity.
      rewrite app_assoc. reflexivity.
    + cbn [mapM]. unfold bind, ret.
      destruct (create_alert env (JStr r) from_ subject_ body path prio w)
        as [[a|e|] w1]; try reflexivity.
      rewrite IH.
      destruct (mapM _ _ w1) as [[n2|e|] w2]; try reflexivity.
      rewrite <- app_assoc. reflexivity.
Qed.

(** X15. The fan-out is not all-or-nothing.  When the [to] list holds a
    recipient that is not a string after some that are, the call raises
    [AttributeError] and returns no list, but the alerts of the
    recipients before it have been created and saved: each of their
    mailboxes holds an alert of the message. *)
Theorem fanout_keeps_alerts_before_bad_recipient
    message_path w d rs bad rest ccl f p pv :
  fs w !! message_path = Some (Doc (JObj d)) ->
  dict_get "to" d = Some (JArr (map JStr rs ++ bad :: rest)) ->
  (forall s, bad <> JStr s) ->
  py_iter (wrap_str (dict_get_default "cc" (JArr []) d)) = Ok ccl ->
  dict_get_default "from" (JStr "UNKNOWN") d = JStr f ->
  dict_get_default "priority" (JStr "NORMAL") d = JStr p ->
  _extract_preview env
    (dict_get_default "body" (dict_get_default "content" (JStr "") d) d)
  = Ok pv ->
  all_loadable env w ->
  exists w',
    create_alerts_from_synapse_message env message_path w =
    (Raise AttributeError, w') /\
    forall r, In r (flat_map expand_recipient rs) ->
      file_has_source
        (fs w' !! _get_alert_file env (normalize_agent (upper r)))
        message_path.
Proof.
  intros Hf Hto Hbad Hcc Ef Ep Hp Hall.
  destruct (mapM_create_alert_step env
              (flat_map expand_recipient rs) f
              (dict_get_default "subject" (JStr "No Subject") d)
              (dict_get_default "body"
                 (dict_get_default "content" (JStr "") d) d)
              message_path p w pv Hp Hall)
    as (alerts & w' & Hm & _ & _ & Hhas & _).
  exists w'. split; [|exact Hhas].
  unfold create_alerts_from_synapse_message.
  erewrite bind_ok
    by (unfold try_except, bind, json_load; rewrite Hf; reflexivity).
  cbn [py_get]. rewrite !bind_lift_ok.
  unfold dict_get_default at 1. rewrite Hto. cbn [wrap_str].
  unfold py_extend. rewrite Hcc. rewrite bind_lift_ok.
  rewrite Ef, Ep, !bind_lift_ok, <- app_assoc, fanout_loop_prefix, Hm.
  cbn [app fanout_loop]. unfold bind, lift.
  destruct bad; try reflexivity. destruct (Hbad s). reflexivity.
Qed.

End FanoutPartial.

Lemma sample_alert_file_not_synapse agent rest :
  _get_alert_file sample_env agent <> String "/" (String "s" rest).
Proof. unfold _get_alert_file. cbn [alerts_path sample_env]. discriminate. Defined.

Lemma synapse_world_loadable rest c :
  all_loadable sample_env
    (mkWorld {[ String "/" (String "s" rest) := c ]} 0 []).
Proof.
  intros agent. exists []. cbn [fs].
  rewrite lookup_singleton_ne; [reflexivity|].
  intros E. exact (sample_alert_file_not_synapse agent rest (eq_sym E)).
Defined.

Lemma fanout_twice_writes_once_witness :
  exists alerts1 w1 alerts2 w2,
    create_alerts_from_synapse_message sample_env "/synapse/broadcast.json"
      broadcast_world = (Ok alerts1, w1) /\
    create_alerts_from_synapse_message sample_env "/synapse/broadcast.json" w1
    = (Ok alerts2, w2) /\
    fs w2 = fs w1 /\ length alerts1 = 6 /\ length alerts2 = length alerts1.
Proof.
  refine (fanout_twice_writes_once sample_env "/synapse/broadcast.json"
            broadcast_world _ ["TEAM_BRAIN"] [] "FORGE" "NORMAL"
            (JStr "This is Broadcast") eq_refl eq_refl eq_refl eq_refl eq_refl
            eq_refl broadcast_world_loadable _).
  intros agent. apply sample_alert_file_not_synapse.
Defined.

(** A message with a recipient and nothing else. *)
Lemma fanout_alert_fields_witness :
  exists a w',
    create_alerts_from_synapse_message sample_env "/synapse/bare.json"
      bare_message_world = (Ok [a], w') /\
    to_agent a = "ATLAS" /\ from_agent a = "UNKNOWN" /\
    subject a = JStr "No Subject" /\ preview a = JStr "" /\
    source_file a = "/synapse/bare.json" /\ priority a = "NORMAL" /\
    read a = false.
Proof.
  destruct (fanout_alert_fields sample_env "/synapse/bare.json"
              bare_message_world _ ["atlas"] [] "UNKNOWN" "NORMAL" (JStr "")
              eq_refl eq_refl eq_refl eq_refl eq_refl eq_refl
              (synapse_world_loadable _ _))
    as (alerts & w' & Hc & Hfields).
  inversion Hfields as [|r a rs' l Ha Hrest]; subst.
  inversion Hrest; subst.
  exists a, w'. split; [exact Hc | exact Ha].
Defined.

Lemma fanout_without_recipients_witness :
  let w := mkWorld {[ "/synapse/none.json" :=
                        Doc (JObj [("subject", JStr "For nobody");
                                   ("cc", JArr [])]) ]} 0 [] in
  create_alerts_from_synapse_message sample_env "/synapse/none.json" w
  = (Ok [], w).
Proof.
  intros w.
  exact (fanout_without_recipients sample_env "/synapse/none.json" w _
           eq_refl eq_refl eq_refl).
Defined.

Lemma fanout_keeps_alerts_before_bad_recipient_witness :
  exists w',
    create_alerts_from_synapse_message sample_env "/synapse/bad.json"
      bad_recipient_world = (Raise AttributeError, w') /\
    file_has_source (fs w' !! _get_alert_file sample_env "ATLAS")
                    "/synapse/bad.json".
Proof.
  destruct (fanout_keeps_alerts_before_bad_recipient sample_env
              "/synapse/bad.json" bad_recipient_world _ ["ATLAS"] (JInt 7)
              [JStr "CLIO"] [] "UNKNOWN" "NORMAL" (JStr "")
              eq_refl eq_refl)
    as (w' & Hc & Hhas); try reflexivity.
  - intros s. discriminate.
  - apply synapse_world_loadable.
  - exists w'. split; [exact Hc|]. apply (Hhas "ATLAS"). left. reflexivity.
Defined.

(** * The session-start report *)

Lemma str_map_length f s : String.length (str_map f s) = String.length s.
Proof. induction s as [|c s IH]; [reflexivity|]. cbn. rewrite IH. reflexivity. Qed.

Lemma ascii_replace_encodable c : cp1252_encodable (ascii_replace c) = true.
Proof. destruct c as [[|] [|] [|] [|] [|] [|] [|] [|]]; reflexivity. Qed.

Lemma str_map_replace_encodable s :
  str_forallb cp1252_encodable (str_map ascii_replace s) = true.
Proof.
  induction s as [|c s IH]; [reflexivity|].
  cbn [str_map str_forallb]. rewrite ascii_replace_encodable, IH. reflexivity.
Qed.

(** X16. [_safe_str] returns, for every text, a text of the same length
    that the cp1252 codec can encode; a text that can be encoded already
    is returned unchanged; a value that is not text raises
    [AttributeError]. *)
Theorem safe_str_is_encodable (s : string) :
  exists r,
    _safe_str (JStr s) = Ok r /\
    str_forallb cp1252_encodable r = true /\
    String.length r = String.length s /\
    (str_forallb cp1252_encodable s = true -> r = s) /\
    _safe_str JNull = Raise AttributeError /\
    (forall z, _safe_str (JInt z) = Raise AttributeError) /\
    (forall l, _safe_str (JArr l) = Raise AttributeError).
Proof.
  cbn [_safe_str].
  destruct (str_forallb cp1252_encodable s) eqn:E.
  - exists s. auto 10.
  - exists (str_map ascii_replace s). split; [reflexivity|].
    split; [apply str_map_replace_encodable|].
    split; [apply str_map_length|]. split; [discriminate|]. auto.
Qed.

Lemma safe_str_is_encodable_witness :
  _safe_str (JStr "Build report: done") = Ok "Build report: done".
Proof.
  destruct (safe_str_is_encodable "Build report: done")
    as (r & Hr & _ & _ & Hsame & _).
  rewrite Hr, (Hsame eq_refl). reflexivity.
Defined.

Lemma safe_str_text s : exists r, _safe_str (JStr s) = Ok r.
Proof. cbn. destruct (str_forallb cp1252_encodable s); eauto. Qed.

Lemma critical_lines_text a :
  text_alert a -> exists ls, critical_lines a = Ok ls.
Proof.
  intros (s & p & Hs & Hp). unfold critical_lines. rewrite Hs, Hp.
  destruct (safe_str_text s) as [r ->]. destruct (safe_str_text p) as [q ->].
  eauto.
Qed.

Lemma high_lines_text a : text_alert a -> exists ls, high_lines a = Ok ls.
Proof.
  intros (s & p & Hs & Hp). unfold high_lines. rewrite Hs, Hp.
  destruct (safe_str_text s) as [r ->]. cbn [py_slice_50].
  destruct (safe_str_text (str_take 50 p)) as [q ->]. eauto.
Qed.

Lemma normal_lines_text a : text_alert a -> exists ls, normal_lines a = Ok ls.
Proof.
  intros (s & p & Hs & Hp). unfold normal_lines. rewrite Hs.
  destruct (safe_str_text s) as [r ->]. eauto.
Qed.

Lemma group_lines_text f l :
  (forall a, text_alert a -> exists ls, f a = Ok ls) ->
  Forall text_alert l -> exists ls, group_lines f l = Ok ls.
Proof.
  intros Hf. induction 1 as [|a l Ha _ [ls IH]]; cbn [group_lines].
  - eauto.
  - destruct (Hf a Ha) as [la ->]. rewrite IH. eauto.
Qed.

Lemma Forall_filter_keep {A} (P : A -> Prop) f (l : list A) :
  Forall P l -> Forall P (List.filter f l).
Proof.
  induction 1 as [|a l Ha _ IH]; cbn [List.filter]; [constructor|].
  destruct (f a); [constructor|]; assumption.
Qed.

(** With text subjects and previews the report is built, between its
    fixed first and last lines. *)
Lemma build_report_text agent alerts :
  Forall text_alert alerts ->
  exists body,
    build_report agent alerts =
    Ok (join_lines (report_head agent (length alerts) ++ body ++ report_foot)).
Proof.
  intros Ht. unfold build_report, report_head, report_foot.
  generalize rule60 as rule.
  generalize (str_of_nat (length alerts)) as count. intros count rule.
  destruct (group_lines_text critical_lines _ critical_lines_text
              (Forall_filter_keep _
                 (fun a => String.eqb (priority a) "CRITICAL") _ Ht))
    as [cl ->].
  destruct (group_lines_text high_lines _ high_lines_text
              (Forall_filter_keep _
                 (fun a => String.eqb (priority a) "HIGH") _ Ht))
    as [hl ->].
  destruct (group_lines_text normal_lines _ normal_lines_text
              (Forall_filter_keep _
                 (fun a => str_in (priority a) ["NORMAL"; "LOW"]) _ Ht))
    as [nl ->].
  exists
    (match List.filter (fun a => String.eqb (priority a) "CRITICAL") alerts
     with [] => [] | _ :: _ => "[!!!] CRITICAL MESSAGES:" :: cl end ++
     match List.filter (fun a => String.eqb (priority a) "HIGH") alerts
     with [] => [] | _ :: _ => "[!] HIGH PRIORITY:" :: hl end ++
     match List.filter (fun a => str_in (priority a) ["NORMAL"; "LOW"]) alerts
     with [] => [] | _ :: _ => "[i] NORMAL MESSAGES:" :: nl ++ [""] end).
  do 2 f_equal. rewrite <- !app_assoc. reflexivity.
Qed.

(** A group fails as soon as one of its alerts does. *)
Lemma group_lines_raises f l a :
  (forall b, f b <> Untyped) ->
  In a l -> (exists e, f a = Raise e /\ (e = AttributeError \/ e = TypeError)) ->
  (forall b e, f b = Raise e -> e = AttributeError \/ e = TypeError) ->
  exists e, group_lines f l = Raise e /\ (e = AttributeError \/ e = TypeError).
Proof.
  intros Hu Hin (e & He & Hk) Hkinds.
  induction l as [|b l IH]; [destruct Hin|]. cbn [group_lines].
  destruct (f b) as [ls|e'|] eqn:Hb.
  - destruct Hin as [->|Hin]; [congruence|].
    destruct (IH Hin) as (e2 & -> & Hk2). eauto.
  - eauto.
  - destruct (Hu b Hb).
Qed.

Lemma safe_str_outcome x :
  _safe_str x <> Untyped /\ forall e, _safe_str x = Raise e -> e = AttributeError.
Proof.
  destruct x; cbn; try (split; [discriminate | intros e [= <-]; reflexivity]).
  destruct (str_forallb cp1252_encodable s); split; discriminate.
Qed.

Lemma py_slice_50_outcome x :
  py_slice_50 x <> Untyped /\ forall e, py_slice_50 x = Raise e -> e = TypeError.
Proof.
  destruct x; cbn; split; try discriminate; intros e [= <-]; reflexivity.
Qed.

Lemma critical_lines_outcome a :
  critical_lines a <> Untyped /\
  forall e, critical_lines a = Raise e -> e = AttributeError \/ e = TypeError.
Proof.
  unfold critical_lines.
  destruct (safe_str_outcome (subject a)) as [U1 R1].
  destruct (safe_str_outcome (preview a)) as [U2 R2].
  destruct (_safe_str (subject a)); [|split; [discriminate|]|contradiction].
  - destruct (_safe_str (preview a)); [split; discriminate| |contradiction].
    split; [discriminate|]. intros e' [= <-]. left. auto.
  - intros e' [= <-]. left. auto.
Qed.

Lemma high_lines_outcome a :
  high_lines a <> Untyped /\
  forall e, high_lines a = Raise e -> e = AttributeError \/ e = TypeError.
Proof.
  unfold high_lines.
  destruct (safe_str_outcome (subject a)) as [U1 R1].
  destruct (py_slice_50_outcome (preview a)) as [U2 R2].
  destruct (_safe_str (subject a)); [|split; [discriminate|]|contradiction].
  - destruct (py_slice_50 (preview a)) as [p50|e|];
      [|split; [discriminate|]|contradiction].
    + destruct (safe_str_outcome p50) as [U3 R3].
      destruct (_safe_str p50); [split; discriminate| |contradiction].
      split; [discriminate|]. intros e' [= <-]. left. auto.
    + intros e' [= <-]. right. auto.
  - intros e' [= <-]. left. auto.
Qed.

Lemma normal_lines_outcome a :
  normal_lines a <> Untyped /\
  forall e, normal_lines a = Raise e -> e = AttributeError \/ e = TypeError.
Proof.
  unfold normal_lines.
  destruct (safe_str_outcome (subject a)) as [U1 R1].
  destruct (_safe_str (subject a)); [split; discriminate| |contradiction].
  split; [discriminate|]. intros e' [= <-]. left. auto.
Qed.

Lemma group_lines_outcome f l :
  (forall b, f b <> Untyped /\
             forall e, f b = Raise e -> e = AttributeError \/ e = TypeError) ->
  group_lines f l <> Untyped /\
  forall e, group_lines f l = Raise e -> e = AttributeError \/ e = TypeError.
Proof.
  intros Hf. induction l as [|b l [IU IR]]; cbn [group_lines].
  - split; discriminate.
  - destruct (Hf b) as [U R].
    destruct (f b); [|split; [discriminate|]|contradiction].
    + destruct (group_lines f l); [split; discriminate| |contradiction].
      split; [discriminate|]. intros e' [= <-]. auto.
    + intros e' [= <-]. auto.
Qed.

(** An alert that is listed in a section and has a subject that is not
    text makes the report fail. *)
Lemma build_report_raises agent alerts a :
  In a alerts ->
  str_in (priority a) ["CRITICAL"; "HIGH"; "NORMAL"; "LOW"] = true ->
  (forall s, subject a <> JStr s) ->
  exists e, build_report agent alerts = Raise e /\
            (e = AttributeError \/ e = TypeError).
Proof.
  intros Hin Hprio Hsub.
  assert (Hsafe : _safe_str (subject a) = Raise AttributeError).
  { destruct (subject a) eqn:E; try reflexivity. destruct (Hsub s). reflexivity. }
  unfold build_report.
  destruct (group_lines_outcome critical_lines
              (List.filter (fun a => String.eqb (priority a) "CRITICAL") alerts)
              critical_lines_outcome) as [CU CR].
  destruct (group_lines_outcome high_lines
              (List.filter (fun a => String.eqb (priority a) "HIGH") alerts)
              high_lines_outcome) as [HU HR].
  destruct (group_lines_outcome normal_lines
              (List.filter (fun a => str_in (priority a) ["NORMAL"; "LOW"])
                 alerts) normal_lines_outcome) as [NU NR].
  destruct (group_lines critical_lines _) as [cl|e|] eqn:Ec;
    [|eauto|contradiction].
  destruct (group_lines high_lines _) as [hl|e|] eqn:Eh;
    [|eauto|contradiction].
  destruct (group_lines normal_lines _) as [nl|e|] eqn:En;
    [|eauto|contradiction].
  exfalso.
  unfold str_in, existsb in Hprio.
  destruct (String.eqb (priority a) "CRITICAL") eqn:P1.
  { assert (Hr : exists e,
              group_lines critical_lines
                (List.filter (fun a => String.eqb (priority a) "CRITICAL")
                   alerts) = Raise e /\
              (e = AttributeError \/ e = TypeError)).
    { apply (group_lines_raises critical_lines _ a).
      - intros b. apply critical_lines_outcome.
      - apply List.filter_In. auto.
      - exists AttributeError. unfold critical_lines. rewrite Hsafe. auto.
      - intros b. apply critical_lines_outcome. }
    destruct Hr as (e & He & _). congruence. }
  destruct (String.eqb (priority a) "HIGH") eqn:P2.
  { assert (Hr : exists e,
              group_lines high_lines
                (List.filter (fun a => String.eqb (priority a) "HIGH")
                   alerts) = Raise e /\
              (e = AttributeError \/ e = TypeError)).
    { apply (group_lines_raises high_lines _ a).
      - intros b. apply high_lines_outcome.
      - apply List.filter_In. auto.
      - exists AttributeError. unfold high_lines. rewrite Hsafe. auto.
      - intros b. apply high_lines_outcome. }
    destruct Hr as (e & He & _). congruence. }
  assert (Hr : exists e,
            group_lines normal_lines
              (List.filter (fun a => str_in (priority a) ["NORMAL"; "LOW"])
                 alerts) = Raise e /\
            (e = AttributeError \/ e = TypeError)).
  { apply (group_lines_raises normal_lines _ a).
    - intros b. apply normal_lines_outcome.
    - apply List.filter_In. split; [exact Hin|].
      unfold str_in, existsb. cbn [orb] in Hprio. exact Hprio.
    - exists AttributeError. unfold normal_lines. rewrite Hsafe. auto.
    - intros b. apply normal_lines_outcome. }
  destruct Hr as (e & He & _). congruence.
Qed.

Section Report.

Variable env : Env.

Lemma get_alerts_world agent unread_only priority_ w :
  snd (get_alerts env agent unread_only priority_ w) =
  snd (_load_alerts env agent w).
Proof.
  unfold get_alerts, bind.
  destruct (_load_alerts env agent w) as [[l|e|] w']; reflexivity.
Qed.

Lemma get_alert_count_world agent unread_only w :
  snd (get_alert_count env agent unread_only w) =
  snd (_load_alerts env agent w).
Proof.
  unfold get_alert_count, bind.
  pose proof (get_alerts_world agent unread_only None w) as H.
  destruct (get_alerts env agent unread_only None w) as [[l|e|] w'];
    exact H.
Qed.

Lemma status_loop_fs agents status w :
  fs (snd (status_loop env agents status w)) = fs w.
Proof.
  revert status w. induction agents as [|a rest IH]; intros status w;
    cbn [status_loop]; [reflexivity|].
  destruct (negb (str_in a ["ALL"; "TEAM_BRAIN"; "LOGAN"; "LOGAN_SMITH"]));
    [|apply IH].
  unfold bind.
  pose proof (get_alert_count_world a true w) as Hw.
  destruct (get_alert_count env a true w) as [[n|e|] w1]; cbn [snd] in *;
    subst w1; try apply _load_alerts_fs.
  destruct (Nat.ltb 0 n); rewrite IH; apply _load_alerts_fs.
Qed.

(** X17. [check_and_report] and [get_all_agents_status] leave every
    file as it is, whatever they return or raise: reporting does not
    mark anything read. *)
Theorem report_and_status_are_read_only agent bell w :
  fs (snd (check_and_report env agent bell w)) = fs w /\
  fs (snd (get_all_agents_status env w)) = fs w.
Proof.
  split; [|apply status_loop_fs].
  unfold check_and_report, bind at 1.
  pose proof (get_alerts_world agent true None w) as Hw.
  destruct (get_alerts env agent true None w) as [[l|e|] w1]; cbn [snd] in *;
    subst w1; try apply _load_alerts_fs.
  destruct l as [|a l]; [apply _load_alerts_fs|].
  unfold bind, _trigger_bell, print, ret, lift.
  destruct (bell && enable_bell env); [destruct (enable_bell env)|];
    cbn [snd fs]; apply _load_alerts_fs.
Qed.

(** X18. With no unread alert (in particular with no mailbox file)
    [check_and_report] returns the one line that says so and does not
    ring the bell. *)
Theorem check_and_report_nothing_new agent bell w alerts :
  fst (_load_alerts env agent w) = Ok alerts ->
  count_unread alerts = 0 ->
  check_and_report env agent bell w =
  (Ok ("[OK] No new messages for " ++ agent)%string,
   snd (_load_alerts env agent w)).
Proof.
  intros Hl H0. unfold check_and_report, bind at 1.
  rewrite (get_alerts_eq env _ _ _ _ _ Hl), selected_unread_filter.
  unfold count_unread in H0. apply length_zero_iff_nil in H0. rewrite H0.
  reflexivity.
Qed.

(** X19. With unread alerts whose subjects and previews are text,
    [check_and_report] returns a report that starts with the banner
    giving the number of unread alerts and ends with the two follow-up
    commands; the bell rings exactly when it is asked for and enabled. *)
Theorem check_and_report_reports agent bell w alerts :
  fst (_load_alerts env agent w) = Ok alerts ->
  0 < count_unread alerts ->
  Forall text_alert (List.filter (fun a => negb (read a)) alerts) ->
  exists body w',
    check_and_report env agent bell w =
    (Ok (join_lines (report_head agent (count_unread alerts) ++ body ++
                     report_foot)), w') /\
    fs w' = fs w /\
    out w' = out (snd (_load_alerts env agent w)) ++
             (if bell && enable_bell env then [Bell] else []).
Proof.
  intros Hl Hpos Ht. unfold check_and_report, bind at 1.
  rewrite (get_alerts_eq env _ _ _ _ _ Hl), selected_unread_filter.
  set (unread := List.filter (fun a => negb (read a)) alerts) in *.
  assert (Hlen : length (sort_desc unread) = count_unread alerts).
  { rewrite <- (Permutation_length (sort_desc_perm unread)). reflexivity. }
  assert (Ht' : Forall text_alert (sort_desc unread)).
  { eapply Permutation_Forall; [apply sort_desc_perm | exact Ht]. }
  destruct (build_report_text agent _ Ht') as [body Hb].
  rewrite Hlen in Hb.
  destruct (sort_desc unread) as [|a l] eqn:Es.
  { cbn in Hlen. lia. }
  exists body. unfold bind, _trigger_bell, print, ret, lift. rewrite Hb.
  destruct (bell && enable_bell env) eqn:Eb.
  - apply andb_true_iff in Eb. destruct Eb as [_ Eb]. rewrite Eb. eexists.
    split; [reflexivity|]. split; [apply _load_alerts_fs | reflexivity].
  - eexists. split; [reflexivity|].
    split; [apply _load_alerts_fs | rewrite app_nil_r; reflexivity].
Qed.

(** X20. An unread alert of a known priority whose subject is not text
    (a number, a list, ...) makes [check_and_report] raise; and such an
    alert comes into being through [create_alert], which takes any
    subject: after the call the recipient's report raises. *)
Theorem non_text_subject_breaks_report
    to_ from_ subject_ content sf prio bell w alerts pv agent a0 :
  (fst (_load_alerts env agent w) = Ok alerts ->
   In a0 alerts -> read a0 = false ->
   str_in (priority a0) ["CRITICAL"; "HIGH"; "NORMAL"; "LOW"] = true ->
   (forall s, subject a0 <> JStr s) ->
   exists e w',
     check_and_report env agent bell w = (Raise e, w') /\
     (e = AttributeError \/ e = TypeError)) /\
  (fst (_load_alerts env (normalize_agent (upper to_)) w) = Ok alerts ->
   _extract_preview env content = Ok pv ->
   ~ In sf (map source_file alerts) ->
   (forall s, subject_ <> JStr s) ->
   exists a w1 e w2,
     create_alert env (JStr to_) (JStr from_) subject_ content sf (JStr prio) w
     = (Ok a, w1) /\
     check_and_report env (normalize_agent (upper to_)) bell w1
     = (Raise e, w2)).
Proof.
  assert (Hgen : forall agent' w' l a,
            fst (_load_alerts env agent' w') = Ok l ->
            In a l -> read a = false ->
            str_in (priority a) ["CRITICAL"; "HIGH"; "NORMAL"; "LOW"] = true ->
            (forall s, subject a <> JStr s) ->
            exists e w'',
              check_and_report env agent' bell w' = (Raise e, w'') /\
              (e = AttributeError \/ e = TypeError)).
  { intros agent' w' l a Hl Hin Hr Hprio Hsub.
    unfold check_and_report, bind at 1.
    rewrite (get_alerts_eq env _ _ _ _ _ Hl), selected_unread_filter.
    set (unread := List.filter (fun a => negb (read a)) l).
    assert (Hin' : In a (sort_desc unread)).
    { apply (Permutation_in _ (sort_desc_perm unread)).
      apply List.filter_In. rewrite Hr. auto. }
    destruct (build_report_raises agent' _ a Hin' Hprio Hsub)
      as (e & He & Hk).
    destruct (sort_desc unread) as [|b l'] eqn:Es; [destruct Hin'|].
    exists e. unfold bind, _trigger_bell, print, ret, lift. rewrite He.
    destruct (bell && enable_bell env); [destruct (enable_bell env)|];
      eauto. }
  split.
  - intros Hl Hin Hr Hprio Hsub. eapply Hgen; eassumption.
  - intros Hl Hp Hin Hsub.
    destruct (create_alert_fresh env to_ from_ subject_ content sf prio w
                alerts pv Hl Hp Hin) as (w1 & Hc & Hl1 & _).
    assert (Hl1' : fst (_load_alerts env (normalize_agent (upper to_)) w1) =
                   Ok (alerts ++
                       [new_alert env (ticks w) to_ from_ subject_ pv sf prio]))
      by (rewrite Hl1; reflexivity).
    destruct (Hgen _ _ _ (new_alert env (ticks w) to_ from_ subject_ pv sf prio)
                Hl1') as (e & w2 & Hr & _).
    + apply in_or_app. right. left. reflexivity.
    + reflexivity.
    + cbn [new_alert priority]. unfold str_in, existsb.
      destruct (checked_priority_cases prio) as [E | [E | [E | E]]];
        rewrite E; reflexivity.
    + exact Hsub.
    + do 4 eexists. split; [exact Hc | exact Hr].
Qed.

End Report.

Lemma check_and_report_nothing_new_witness :
  check_and_report sample_env "NONEXISTENT" true empty_world =
  (Ok "[OK] No new messages for NONEXISTENT", empty_world).
Proof.
  exact (check_and_report_nothing_new sample_env "NONEXISTENT" true
           empty_world [] eq_refl eq_refl).
Defined.

Lemma three_alert_world_unread_text :
  Forall text_alert
    (List.filter (fun a => negb (read a))
       [alert_normal; alert_critical_old; alert_critical_new]).
Proof.
  repeat constructor; do 2 eexists; split; reflexivity.
Defined.

Lemma check_and_report_reports_witness :
  exists body w',
    check_and_report sample_env "ATLAS" true three_alert_world =
    (Ok (join_lines (report_head "ATLAS" 2 ++ body ++ report_foot)), w') /\
    out w' = [Bell].
Proof.
  destruct (check_and_report_reports sample_env "ATLAS" true
              three_alert_world
              [alert_normal; alert_critical_old; alert_critical_new]
              eq_refl (le_S 1 1 (le_n 1)) three_alert_world_unread_text)
    as (body & w' & Hc & _ & Hout).
  exists body, w'. split; [exact Hc | exact Hout].
Defined.

Lemma non_text_subject_breaks_report_witness :
  exists a w1 e w2,
    create_alert sample_env (JStr "ATLAS") (JStr "FORGE") (JInt 5)
      (JStr "Test") "/numeric.json" (JStr "NORMAL") empty_world = (Ok a, w1) /\
    check_and_report sample_env "ATLAS" true w1 = (Raise e, w2).
Proof.
  destruct (non_text_subject_breaks_report sample_env "ATLAS" "FORGE"
              (JInt 5) (JStr "Test") "/numeric.json" "NORMAL" true
              empty_world [] (JStr "Test") "ATLAS" numeric_subject_alert)
    as [_ H].
  apply H.
  - reflexivity.
  - reflexivity.
  - intros [].
  - intros s. discriminate.
Defined.

(** * The status of all agents *)

Section Status.

Variable env : Env.

Lemma unread_in_fs w w' agent :
  fs w' = fs w -> unread_in env w' agent = unread_in env w agent.
Proof. unfold unread_in. intros ->. reflexivity. Qed.

Lemma str_in_cons a x l : str_in a (x :: l) = String.eqb a x || str_in a l.
Proof. reflexivity. Qed.

Lemma status_loop_lookup agents status w :
  (forall a, In a agents ->
     str_in a ["ALL"; "TEAM_BRAIN"; "LOGAN"; "LOGAN_SMITH"] = false ->
     exists l, fst (_load_alerts env a w) = Ok l) ->
  exists m w',
    status_loop env agents status w = (Ok m, w') /\
    forall a,
      m !! a =
      if str_in a agents &&
         negb (str_in a ["ALL"; "TEAM_BRAIN"; "LOGAN"; "LOGAN_SMITH"]) &&
         Nat.ltb 0 (unread_in env w a)
      then Some (unread_in env w a) else status !! a.
Proof.
  revert status w. induction agents as [|agent rest IH]; intros status w Hl.
  - exists status, w. split; [reflexivity|]. intros a. reflexivity.
  - cbn [status_loop].
    assert (Hrest : forall w1, fs w1 = fs w ->
              forall a, In a rest ->
                str_in a ["ALL"; "TEAM_BRAIN"; "LOGAN"; "LOGAN_SMITH"] = false ->
                exists l, fst (_load_alerts env a w1) = Ok l).
    { intros w1 E a Ha Hx. destruct (Hl a (or_intror Ha) Hx) as [l Hal].
      exists l. rewrite load_fst, E, <- load_fst. exact Hal. }
    destruct (str_in agent ["ALL"; "TEAM_BRAIN"; "LOGAN"; "LOGAN_SMITH"])
      eqn:Ex; cbn [negb].
    + destruct (IH status w (Hrest w eq_refl)) as (m & w' & Hs & Hm).
      exists m, w'. split; [exact Hs|]. intros a. rewrite Hm.
      rewrite (str_in_cons a agent rest).
      destruct (String.eqb_spec a agent) as [->|Hne]; [|reflexivity].
      rewrite Ex. cbn [negb andb orb]. rewrite !andb_false_r. reflexivity.
    + destruct (Hl agent (or_introl eq_refl) Ex) as [l Hal].
      unfold bind at 1. rewrite (get_alert_count_eq env _ _ _ _ Hal).
      set (w1 := snd (_load_alerts env agent w)).
      assert (E1 : fs w1 = fs w) by apply _load_alerts_fs.
      assert (Hcount : count_unread l = unread_in env w agent).
      { unfold unread_in. rewrite <- load_fst, Hal. reflexivity. }
      rewrite Hcount.
      destruct (Nat.ltb 0 (unread_in env w agent)) eqn:Epos.
      * destruct (IH (<[agent := unread_in env w agent]> status) w1
                    (Hrest w1 E1)) as (m & w' & Hs & Hm).
        exists m, w'. split; [exact Hs|]. intros a. rewrite Hm.
        rewrite (unread_in_fs w w1 a E1).
        rewrite (str_in_cons a agent rest).
        destruct (String.eqb_spec a agent) as [->|Hne].
        -- rewrite Ex, Epos, lookup_insert_eq. cbn [negb andb orb].
           destruct (str_in agent rest); reflexivity.
        -- rewrite lookup_insert_ne by congruence. reflexivity.
      * destruct (IH status w1 (Hrest w1 E1)) as (m & w' & Hs & Hm).
        exists m, w'. split; [exact Hs|]. intros a. rewrite Hm.
        rewrite (unread_in_fs w w1 a E1).
        rewrite (str_in_cons a agent rest).
        destruct (String.eqb_spec a agent) as [->|Hne]; [|reflexivity].
        rewrite Epos, !andb_false_r. reflexivity.
Qed.

Lemma known_agents_roster a :
  str_in a KNOWN_AGENTS &&
  negb (str_in a ["ALL"; "TEAM_BRAIN"; "LOGAN"; "LOGAN_SMITH"]) =
  str_in a status_roster.
Proof.
  unfold KNOWN_AGENTS, status_roster, str_in, existsb.
  repeat match goal with
         | |- context [String.eqb a ?s] =>
             destruct (String.eqb_spec a s) as [->|?]; [reflexivity|]
         end.
  reflexivity.
Qed.

(** X21. When the mailboxes of [FORGE], [ATLAS], [CLIO], [NEXUS],
    [BOLT], [GEMINI], [IRIS] and [PORTER] load, [get_all_agents_status]
    returns a dictionary that has exactly those of the eight with at
    least one unread alert, each with its number of unread alerts; the
    aliases [LOGAN], [LOGAN_SMITH], [ALL] and [TEAM_BRAIN] never
    appear. *)
Theorem get_all_agents_status_lists_unread w :
  (forall a, In a status_roster ->
     exists l, fst (_load_alerts env a w) = Ok l) ->
  exists m w',
    get_all_agents_status env w = (Ok m, w') /\
    forall a,
      m !! a =
      if str_in a status_roster && Nat.ltb 0 (unread_in env w a)
      then Some (unread_in env w a) else None.
Proof.
  intros Hl.
  destruct (status_loop_lookup KNOWN_AGENTS ∅ w) as (m & w' & Hs & Hm).
  { intros a Ha Hx. apply Hl. apply str_in_In.
    rewrite <- known_agents_roster, Hx.
    apply str_in_In in Ha. rewrite Ha. reflexivity. }
  exists m, w'. split; [exact Hs|]. intros a.
  rewrite Hm, known_agents_roster, lookup_empty. reflexivity.
Qed.

End Status.

Lemma get_all_agents_status_lists_unread_witness :
  exists m w',
    get_all_agents_status sample_env three_alert_world = (Ok m, w') /\
    m !! "ATLAS" = Some 2 /\ m !! "FORGE" = None /\ m !! "LOGAN" = None.
Proof.
  destruct (get_all_agents_status_lists_unread sample_env three_alert_world)
    as (m & w' & Hs & Hm).
  - intros a Ha.
    repeat (destruct Ha as [<-|Ha]; [eexists; vm_compute; reflexivity|]).
    destruct Ha.
  - exists m, w'. split; [exact Hs|].
    rewrite !Hm. repeat split; vm_compute; reflexivity.
Defined.

(** * Pending tool requests *)

Lemma pending_of_objects items :
  Forall is_object items ->
  pending_of items = Ok (List.filter has_pending_status items).
Proof.
  induction 1 as [|r l [d ->] _ IH]; [reflexivity|].
  cbn [pending_of py_get List.filter has_pending_status]. rewrite IH.
  destruct (is_pending (dict_get_default "status" JNull d)); reflexivity.
Qed.

Lemma pending_of_outcome items :
  exists r, pending_of items = r /\ r <> Untyped.
Proof.
  induction items as [|x l (r & Hr & Hu)]; cbn [pending_of].
  - eexists. split; [reflexivity | discriminate].
  - rewrite Hr. destruct x; cbn [py_get];
      try (eexists; split; [reflexivity | discriminate]).
    destruct r; [| |contradiction];
      eexists; (split; [reflexivity | discriminate]).
Qed.

(** X22. [get_pending_requests] never raises and changes nothing.  When
    the master log is an object whose [active_requests] is a list of
    objects, it returns the entries whose [status] is the text
    [PENDING], in order; when the log is missing, is not JSON, or is not
    an object, the result is empty; and one entry that is not an object
    makes the whole result empty. *)
Theorem get_pending_requests_is_total w :
  exists l,
    get_pending_requests w = (Ok l, w) /\
    (forall d items,
       fs w !! TOOL_REQUEST_LOG = Some (Doc (JObj d)) ->
       dict_get_default "active_requests" (JArr []) d = JArr items ->
       (Forall is_object items -> l = List.filter has_pending_status items) /\
       (forall r, In r items -> ~ is_object r -> l = [])) /\
    ((forall d, fs w !! TOOL_REQUEST_LOG <> Some (Doc (JObj d))) -> l = []).
Proof.
  unfold get_pending_requests, try_except, bind at 1, json_load.
  destruct (fs w !! TOOL_REQUEST_LOG) as [[| |data]|] eqn:Ef;
    try (exists []; split; [reflexivity|]; split; [discriminate|reflexivity]).
  destruct data as [| | | | | |d];
    try (exists []; split; [reflexivity|]; split; [discriminate|reflexivity]).
  cbn [py_get]. rewrite bind_lift_ok.
  destruct (dict_get_default "active_requests" (JArr []) d) as [| | | | |items|d']
    eqn:Ea;
    try (exists []; split; [reflexivity|]; split;
         [intros d0 items0 [= <-] Ea0; rewrite Ea in Ea0; discriminate
         | reflexivity]).
  - (* a text: its characters are not objects *)
    cbn [py_iter]. rewrite bind_lift_ok. unfold lift.
    destruct (pending_of_outcome
                (map (fun c => JStr (String c "")) (list_ascii_of_string s)))
      as (r & -> & Hu).
    destruct r as [l|e|]; [|exists []|contradiction];
      [exists l|]; (split; [reflexivity|]);
      (split; [intros d0 items0 [= <-] Ea0; rewrite Ea in Ea0; discriminate
              | intros H; destruct (H d); reflexivity]).
  - (* a list *)
    cbn [py_iter]. rewrite bind_lift_ok. unfold lift.
    destruct (pending_of items) as [l|e|] eqn:Ep.
    + exists l. split; [reflexivity|]. split.
      * intros d0 items0 [= <-] Ea0. rewrite Ea in Ea0.
        injection Ea0 as <-. split.
        -- intros Hobj. rewrite (pending_of_objects _ Hobj) in Ep.
           congruence.
        -- intros r Hin Hno. exfalso. clear Ea Ef.
           revert l Ep. induction items as [|x rest IH]; [destruct Hin|].
           intros l. cbn [pending_of].
           destruct Hin as [->|Hin].
           ++ destruct r; cbn [py_get]; try discriminate.
              destruct Hno. eexists. reflexivity.
           ++ destruct (py_get x "status" JNull); try discriminate.
              destruct (pending_of rest); try discriminate.
              intros _. eapply IH; eauto.
      * intros H. destruct (H d). reflexivity.
    + exists []. split; [reflexivity|]. split.
      * intros d0 items0 [= <-] Ea0. rewrite Ea in Ea0.
        injection Ea0 as <-. split; [|reflexivity].
        intros Hobj. rewrite (pending_of_objects _ Hobj) in Ep. discriminate.
      * reflexivity.
    + destruct (pending_of_outcome items) as (r & Hr & Hu). congruence.
  - (* an object: its keys are not objects *)
    cbn [py_iter]. rewrite bind_lift_ok. unfold lift.
    destruct (pending_of_outcome (map (fun kv => JStr (fst kv)) d'))
      as (r & -> & Hu).
    destruct r as [l|e|]; [|exists []|contradiction];
      [exists l|]; (split; [reflexivity|]);
      (split; [intros d0 items0 [= <-] Ea0; rewrite Ea in Ea0; discriminate
              | intros H; destruct (H d); reflexivity]).
Qed.

Lemma get_pending_requests_is_total_witness :
  fst (get_pending_requests (world_with_log sample_log)) =
  Ok [JObj [("request_id", JInt 1); ("status", JStr "PENDING")];
      JObj [("request_id", JInt 4); ("status", JStr "PENDING")]].
Proof.
  destruct (get_pending_requests_is_total (world_with_log sample_log))
    as (l & Hg & Hlist & _).
  rewrite Hg. cbn [fst]. f_equal.
  apply (Hlist _ _ eq_refl eq_refl).
  repeat constructor; eexists; reflexivity.
Defined.

(** * Alert records and previews *)

Lemma forallb_rejects {A} (f : A -> bool) l x :
  In x l -> f x = false -> forallb f l = false.
Proof.
  intros Hin Hx. destruct (forallb f l) eqn:E; [|reflexivity].
  rewrite forallb_forall in E. rewrite (E x Hin) in Hx. discriminate.
Qed.

(** X23. Decoding an alert record.  The dictionary form of an alert
    decodes to the alert; a record without [read] decodes with
    [read = False]; a record with a key that is not a field of [Alert],
    or without one of the eight required fields, or a value that is not
    an object, raises [TypeError] (never [KeyError]). *)
Theorem alert_record_decoding (a : Alert) d k v :
  from_dict (to_dict a) = Ok a /\
  from_dict
    (JObj [("id", JStr (id a)); ("timestamp", JStr (timestamp a));
           ("from_agent", JStr (from_agent a));
           ("to_agent", JStr (to_agent a));
           ("subject", subject a); ("preview", preview a);
           ("source_file", JStr (source_file a));
           ("priority", JStr (priority a))]) =
  Ok (mkAlert (id a) (timestamp a) (from_agent a) (to_agent a) (subject a)
              (preview a) (source_file a) (priority a) false) /\
  (In (k, v) d -> ~ In k alert_fields -> from_dict (JObj d) = Raise TypeError) /\
  (In k required_fields -> dict_get k d = None ->
   from_dict (JObj d) = Raise TypeError) /\
  from_dict JNull = Raise TypeError /\
  (forall s, from_dict (JStr s) = Raise TypeError) /\
  (forall l, from_dict (JArr l) = Raise TypeError).
Proof.
  split; [apply from_dict_to_dict|]. split; [reflexivity|].
  split; [|split; [|auto]].
  - intros Hin Hk. unfold from_dict.
    rewrite (forallb_rejects _ d (k, v) Hin); [reflexivity|].
    cbn [fst]. apply str_in_not_In. exact Hk.
  - intros Hk Hnone. unfold from_dict.
    destruct (forallb _ d); [|reflexivity].
    cbn in Hk.
    repeat (destruct Hk as [<-|Hk];
            [rewrite Hnone;
             repeat match goal with
                    | |- context [dict_get ?x d] => destruct (dict_get x d)
                    end; reflexivity|]).
    destruct Hk.
Qed.

Lemma alert_record_decoding_witness :
  from_dict (JObj [("id", JStr "abc123"); ("colour", JStr "red")]) =
  Raise TypeError /\
  from_dict (JObj [("id", JStr "abc123")]) = Raise TypeError.
Proof.
  destruct (alert_record_decoding alert_normal
              [("id", JStr "abc123"); ("colour", JStr "red")]
              "colour" (JStr "red")) as (_ & _ & Hextra & _).
  destruct (alert_record_decoding alert_normal [("id", JStr "abc123")]
              "timestamp" JNull) as (_ & _ & _ & Hmissing & _).
  split.
  - apply Hextra; [right; left; reflexivity|].
    cbn. intros H. repeat (destruct H as [H|H]; [discriminate H|]). exact H.
  - apply Hmissing; [right; left; reflexivity | reflexivity].
Defined.

Section PreviewBound.

Variable env : Env.

(** X24. For a content that is text, a mapping whose first present field
    among [announcement], [message], [summary] is text, a mapping with
    none of the three (its stringified form is used), or a value that is
    neither: the preview is a text of at most 100 characters; it is the
    source text when that has fewer than 100 characters, and otherwise
    its first 97 characters followed by three dots, 100 characters in
    all. *)
Theorem extract_preview_text_bound content s :
  preview_source env content = Some s ->
  exists r,
    _extract_preview env content = Ok (JStr r) /\
    String.length r <= 100 /\
    (String.length s < 100 -> r = s) /\
    (100 <= String.length s ->
     r = (str_take 97 s ++ "...")%string /\ String.length r = 100).
Proof.
  intros H. destruct (_extract_preview_of_text env content s H) as [Hr Hlen].
  exists (ellipsize s). split; [exact Hr|]. split; [exact Hlen|].
  unfold ellipsize. split.
  - intros Hlt. destruct (Nat.leb_spec 100 (String.length s)); [lia|reflexivity].
  - intros Hge. destruct (Nat.leb_spec 100 (String.length s)); [|lia].
    split; [reflexivity|].
    rewrite append_length, str_take_length, Nat.min_l by lia. reflexivity.
Qed.

End PreviewBound.

Lemma extract_preview_text_bound_witness :
  _extract_preview sample_env
    (JObj [("summary", JStr "Nightly build green");
           ("announcement", JStr "Deploy finished")]) =
  Ok (JStr "Deploy finished").
Proof.
  destruct (extract_preview_text_bound sample_env
              (JObj [("summary", JStr "Nightly build green");
                     ("announcement", JStr "Deploy finished")])
              "Deploy finished" eq_refl) as (r & Hr & _ & Hshort & _).
  rewrite Hr, Hshort; [reflexivity|]. cbn. lia.
Defined.
